(** * TruthGuard AI front end ([src/frontend/app.js])

    A shallow embedding of the [TruthGuardAI] class: the page it drives is
    an explicit record, every method is a function on that record, a thrown
    exception is a result of the small state-and-exception monad [M], and
    every [await] splits its [async] method into the part that runs before
    the suspension and the part that runs when the awaited promise
    settles.  A response is rendered at the types the service documents
    and, further down, as the raw JSON value it may be. *)

From Stdlib Require Import ZArith QArith Qround Lia Lqa Ascii String DecimalString.
From stdpp Require Import base option list strings gmap.

Local Open Scope string_scope.

(** ** JavaScript values *)

(** A JavaScript number: a double is NaN, an infinity, or a finite value,
    and every finite double is a rational.  The comparisons and the rounding
    the page performs are exact on that rational; the sign of zero is not
    kept, since the page only ever prints the numbers. *)
Inductive number : Type :=
  | NaN
  | NegInf
  | Fin (q : Q)
  | PosInf.

(** [a >= b]: false as soon as an operand is NaN. *)
Definition num_ge (a b : number) : bool :=
  match a, b with
  | NaN, _ | _, NaN => false
  | PosInf, _ => true
  | _, NegInf => true
  | Fin x, Fin y => Qle_bool y x
  | _, _ => false
  end.

(** [a <= b]. *)
Definition num_le (a b : number) : bool := num_ge b a.

(** [Math.round]: the nearest integer, a tie going up. *)
Definition Math_round (x : number) : number :=
  match x with
  | Fin q => Fin (inject_Z (Qfloor (q + (1 # 2))%Q))
  | other => other
  end.

(** [ToNumber] of a field that is read as a number: an absent field reads
    as [undefined], which converts to NaN. *)
Definition ToNumber (v : option number) : number :=
  match v with
  | Some x => x
  | None => NaN
  end.

Definition of_Z (z : Z) : number := Fin (inject_Z z).

(** Strings are sequences of code units; the model keeps the code units
    below 256, on which [trim] and [toLowerCase] are given in full. *)

(** White space and line terminators below 256: TAB, LF, VT, FF, CR, SP and
    NBSP. *)
Definition is_white_space (c : ascii) : bool :=
  let n := nat_of_ascii c in
  (((9 <=? n) && (n <=? 13)) || (n =? 32) || (n =? 160))%nat.

Fixpoint trimStart (s : string) : string :=
  match s with
  | EmptyString => EmptyString
  | String c rest => if is_white_space c then trimStart rest else s
  end.

Fixpoint trimEnd (s : string) : string :=
  match s with
  | EmptyString => EmptyString
  | String c rest =>
      match trimEnd rest with
      | EmptyString => if is_white_space c then EmptyString else String c EmptyString
      | kept => String c kept
      end
  end.

(** [String.prototype.trim]. *)
Definition trim (s : string) : string := trimEnd (trimStart s).

(** Lower-casing of one code unit: A-Z, and the capital letters of the
    Latin-1 block (U+00C0 to U+00DE without the multiplication sign). *)
Definition lower_unit (c : ascii) : ascii :=
  let n := nat_of_ascii c in
  if (((65 <=? n) && (n <=? 90))
      || ((192 <=? n) && (n <=? 222) && negb (n =? 215)))%nat
  then ascii_of_nat (n + 32)
  else c.

(** [String.prototype.toLowerCase]. *)
Fixpoint toLowerCase (s : string) : string :=
  match s with
  | EmptyString => EmptyString
  | String c rest => String (lower_unit c) (toLowerCase rest)
  end.

(** [String.prototype.startsWith]. *)
Definition startsWith (s pre : string) : bool := String.prefix pre s.

(** [Array.prototype.join]. *)
Definition join (sep : string) (l : list string) : string := String.concat sep l.

(** ** The wire format

    The objects [response.json()] hands to [displayResults].  A field the
    code dereferences (calls a method or reads a property on) is an
    [option]: [None] is the field being absent, which reads as
    [undefined].  A field that is only interpolated is taken at the type
    the service documents.  Values of other types in these places, and
    bodies that are not objects, are covered by the raw payloads further
    down, of which these records are a part. *)

Record technique_explanation : Type := {
  description : option string;
  detection_tips : option (list string)
}.

Record insights : Type := {
  manipulation_techniques_detected : option (list string);
  technique_explanations : option (gmap string technique_explanation);
  verification_tips : option (list string)
}.

Record claim : Type := {
  claim_text : string;
  trust_level : option string;
  confidence : option number;
  claim_explanation : string;
  manipulation_techniques : option (list string)
}.

Record verdict : Type := {
  overall_trust_score : option number;
  overall_verdict : string;
  claims : option (list claim);
  explanation : string;
  sources : option (list string);
  educational_insights : option insights
}.

(** ** The page

    What the script builds out of a response.  An [innerHTML] template is
    kept as the values interpolated into its holes, in the order of the
    holes; a number assigned to a [textContent] is kept as the number. *)

(** The [div] that [displayClaims] appends for one claim. *)
Record claim_element : Type := {
  (** [claim-item ${claim.trust_level.toLowerCase()}] *)
  ce_className : string;
  (** [#${index + 1}] *)
  ce_index : nat;
  (** the class of the status [span], [claim-status ${...toLowerCase()}] *)
  ce_status_className : string;
  (** the text of the status [span], [${claim.trust_level}] *)
  ce_status : string;
  (** [${Math.round(claim.confidence)}% confidence] *)
  ce_confidence : number;
  ce_text : string;
  ce_explanation : string;
  (** the [manipulation-techniques] block, one [technique-tag] per entry;
      [None] when the template puts the empty string there *)
  ce_techniques : option (list string)
}.

(** One [technique-explanation] block of the educational section. *)
Record technique_view : Type := {
  tv_name : string;
  tv_description : string;
  (** the joined tips after [Tips:], when the template prints them *)
  tv_tips : option string
}.

(** The [educational-subsection] blocks. *)
Inductive subsection : Type :=
  | TechniquesDetected (blocks : list technique_view)
  | VerificationTips (items : list string).

(** The alert that [showAlert] appends to [document.body].  Its removal by
    the five-second timer or the close button happens outside the
    handlers modelled here, so [body_alerts] lists the alerts in the order
    they were shown. *)
Record alert : Type := {
  alert_className : string;
  alert_icon : string;
  alert_message : string
}.

(** A [File]: the name and the MIME type. *)
Record file : Type := {
  file_name : string;
  file_type : string
}.

(** The body handed to [fetch]. *)
Inductive body : Type :=
  (** [JSON.stringify({content, content_type, language, include_education})] *)
  | JsonBody (content content_type language : string) (include_education : bool)
  (** a [FormData] with the one field [file] *)
  | FormBody (f : file).

Record request : Type := {
  url : string;
  method : string;
  content_type_header : option string;
  req_body : body
}.

(** What a [throw] carries. *)
Inductive exn : Type :=
  (** a property read or a call on [undefined] *)
  | TypeError (what : string)
  (** [new Error(`HTTP error! status: ${response.status}`)] *)
  | HttpError (status : Z)
  (** the reason a rejected promise was rejected with *)
  | Rejection (reason : string).

Inductive modality : Type := TextMode | ImageMode.

(** A suspended computation: an [async] method parked at one of its
    [await]s, or a [FileReader] that has not fired [onload] yet. *)
Inductive task : Type :=
  | AwaitFetch (m : modality)
  | AwaitJson (m : modality)
  | AwaitReader (f : file)
  | Finished.

(** The elements of the results section. *)
Record results_view : Type := {
  resultsSection_display : string;
  (** [None] until the script writes it *)
  trustScore_textContent : option number;
  verdict_textContent : string;
  verdict_className : string;
  (** the class attribute of [.score-circle] *)
  scoreCircle_className : string;
  claimsList : list claim_element;
  explanationText_textContent : string;
  sourcesList : list string;
  educationalContent : list subsection;
  educationalSection_display : string
}.

(** The controls the user acts on. *)
Record form : Type := {
  contentInput_value : string;
  languageSelect_value : string;
  includeEducation_checked : bool;
  imageInput_files : list file;
  previewImg_src : string;
  imagePreview_display : string;
  (** the file captured by the [onclick] closure, once one is installed *)
  analyzeImageBtn_onclick : option file
}.

(** The page, the requests sent so far, the console and the suspended
    computations.  [tasks !! i] is the state of the [i]-th computation that
    was ever suspended. *)
Record page : Type := {
  view : results_view;
  inputs : form;
  loadingModal_display : string;
  body_alerts : list alert;
  (** the [data-tab] of the [.nav-tab] carrying [active] *)
  nav_active : string;
  (** the id of the [.tab-content] carrying [active] *)
  content_active : string;
  currentTab : string;
  (** how often [scrollIntoView] was called on the results section *)
  scrolls : nat;
  (** the calls of [fetch], oldest first *)
  network : list request;
  console : list (string * exn);
  tasks : list task
}.

Definition set_resultsSection_display (v : string) (r : results_view) : results_view :=
  {| resultsSection_display := v;
     trustScore_textContent := trustScore_textContent r;
     verdict_textContent := verdict_textContent r;
     verdict_className := verdict_className r;
     scoreCircle_className := scoreCircle_className r;
     claimsList := claimsList r;
     explanationText_textContent := explanationText_textContent r;
     sourcesList := sourcesList r;
     educationalContent := educationalContent r;
     educationalSection_display := educationalSection_display r |}.

Definition set_trustScore_textContent (v : option number) (r : results_view) : results_view :=
  {| resultsSection_display := resultsSection_display r;
     trustScore_textContent := v;
     verdict_textContent := verdict_textContent r;
     verdict_className := verdict_className r;
     scoreCircle_className := scoreCircle_className r;
     claimsList := claimsList r;
     explanationText_textContent := explanationText_textContent r;
     sourcesList := sourcesList r;
     educationalContent := educationalContent r;
     educationalSection_display := educationalSection_display r |}.

Definition set_verdict_textContent (v : string) (r : results_view) : results_view :=
  {| resultsSection_display := resultsSection_display r;
     trustScore_textContent := trustScore_textContent r;
     verdict_textContent := v; verdict_className := verdict_className r;
     scoreCircle_className := scoreCircle_className r;
     claimsList := claimsList r;
     explanationText_textContent := explanationText_textContent r;
     sourcesList := sourcesList r;
     educationalContent := educationalContent r;
     educationalSection_display := educationalSection_display r |}.

Definition set_verdict_className (v : string) (r : results_view) : results_view :=
  {| resultsSection_display := resultsSection_display r;
     trustScore_textContent := trustScore_textContent r;
     verdict_textContent := verdict_textContent r; verdict_className := v;
     scoreCircle_className := scoreCircle_className r;
     claimsList := claimsList r;
     explanationText_textContent := explanationText_textContent r;
     sourcesList := sourcesList r;
     educationalContent := educationalContent r;
     educationalSection_display := educationalSection_display r |}.

Definition set_scoreCircle_className (v : string) (r : results_view) : results_view :=
  {| resultsSection_display := resultsSection_display r;
     trustScore_textContent := trustScore_textContent r;
     verdict_textContent := verdict_textContent r;
     verdict_className := verdict_className r; scoreCircle_className := v;
     claimsList := claimsList r;
     explanationText_textContent := explanationText_textContent r;
     sourcesList := sourcesList r;
     educationalContent := educationalContent r;
     educationalSection_display := educationalSection_display r |}.

Definition set_claimsList (v : list claim_element) (r : results_view) : results_view :=
  {| resultsSection_display := resultsSection_display r;
     trustScore_textContent := trustScore_textContent r;
     verdict_textContent := verdict_textContent r;
     verdict_className := verdict_className r;
     scoreCircle_className := scoreCircle_className r; claimsList := v;
     explanationText_textContent := explanationText_textContent r;
     sourcesList := sourcesList r;
     educationalContent := educationalContent r;
     educationalSection_display := educationalSection_display r |}.

Definition set_explanationText_textContent (v : string) (r : results_view) : results_view :=
  {| resultsSection_display := resultsSection_display r;
     trustScore_textContent := trustScore_textContent r;
     verdict_textContent := verdict_textContent r;
     verdict_className := verdict_className r;
     scoreCircle_className := scoreCircle_className r;
     claimsList := claimsList r; explanationText_textContent := v;
     sourcesList := sourcesList r;
     educationalContent := educationalContent r;
     educationalSection_display := educationalSection_display r |}.

Definition set_sourcesList (v : list string) (r : results_view) : results_view :=
  {| resultsSection_display := resultsSection_display r;
     trustScore_textContent := trustScore_textContent r;
     verdict_textContent := verdict_textContent r;
     verdict_className := verdict_className r;
     scoreCircle_className := scoreCircle_className r;
     claimsList := claimsList r;
     explanationText_textContent := explanationText_textContent r;
     sourcesList := v; educationalContent := educationalContent r;
     educationalSection_display := educationalSection_display r |}.

Definition set_educationalContent (v : list subsection) (r : results_view) : results_view :=
  {| resultsSection_display := resultsSection_display r;
     trustScore_textContent := trustScore_textContent r;
     verdict_textContent := verdict_textContent r;
     verdict_className := verdict_className r;
     scoreCircle_className := scoreCircle_className r;
     claimsList := claimsList r;
     explanationText_textContent := explanationText_textContent r;
     sourcesList := sourcesList r; educationalContent := v;
     educationalSection_display := educationalSection_display r |}.

Definition set_educationalSection_display (v : string) (r : results_view) : results_view :=
  {| resultsSection_display := resultsSection_display r;
     trustScore_textContent := trustScore_textContent r;
     verdict_textContent := verdict_textContent r;
     verdict_className := verdict_className r;
     scoreCircle_className := scoreCircle_className r;
     claimsList := claimsList r;
     explanationText_textContent := explanationText_textContent r;
     sourcesList := sourcesList r;
     educationalContent := educationalContent r;
     educationalSection_display := v |}.

Definition set_contentInput_value (v : string) (r : form) : form :=
  {| contentInput_value := v; languageSelect_value := languageSelect_value r;
     includeEducation_checked := includeEducation_checked r;
     imageInput_files := imageInput_files r;
     previewImg_src := previewImg_src r;
     imagePreview_display := imagePreview_display r;
     analyzeImageBtn_onclick := analyzeImageBtn_onclick r |}.

Definition set_languageSelect_value (v : string) (r : form) : form :=
  {| contentInput_value := contentInput_value r; languageSelect_value := v;
     includeEducation_checked := includeEducation_checked r;
     imageInput_files := imageInput_files r;
     previewImg_src := previewImg_src r;
     imagePreview_display := imagePreview_display r;
     analyzeImageBtn_onclick := analyzeImageBtn_onclick r |}.

Definition set_includeEducation_checked (v : bool) (r : form) : form :=
  {| contentInput_value := contentInput_value r;
     languageSelect_value := languageSelect_value r;
     includeEducation_checked := v; imageInput_files := imageInput_files r;
     previewImg_src := previewImg_src r;
     imagePreview_display := imagePreview_display r;
     analyzeImageBtn_onclick := analyzeImageBtn_onclick r |}.

Definition set_imageInput_files (v : list file) (r : form) : form :=
  {| contentInput_value := contentInput_value r;
     languageSelect_value := languageSelect_value r;
     includeEducation_checked := includeEducation_checked r;
     imageInput_files := v; previewImg_src := previewImg_src r;
     imagePreview_display := imagePreview_display r;
     analyzeImageBtn_onclick := analyzeImageBtn_onclick r |}.

Definition set_previewImg_src (v : string) (r : form) : form :=
  {| contentInput_value := contentInput_value r;
     languageSelect_value := languageSelect_value r;
     includeEducation_checked := includeEducation_checked r;
     imageInput_files := imageInput_files r; previewImg_src := v;
     imagePreview_display := imagePreview_display r;
     analyzeImageBtn_onclick := analyzeImageBtn_onclick r |}.

Definition set_imagePreview_display (v : string) (r : form) : form :=
  {| contentInput_value := contentInput_value r;
     languageSelect_value := languageSelect_value r;
     includeEducation_checked := includeEducation_checked r;
     imageInput_files := imageInput_files r;
     previewImg_src := previewImg_src r; imagePreview_display := v;
     analyzeImageBtn_onclick := analyzeImageBtn_onclick r |}.

Definition set_analyzeImageBtn_onclick (v : option file) (r : form) : form :=
  {| contentInput_value := contentInput_value r;
     languageSelect_value := languageSelect_value r;
     includeEducation_checked := includeEducation_checked r;
     imageInput_files := imageInput_files r;
     previewImg_src := previewImg_src r;
     imagePreview_display := imagePreview_display r;
     analyzeImageBtn_onclick := v |}.

Definition set_view (v : results_view) (r : page) : page :=
  {| view := v; inputs := inputs r;
     loadingModal_display := loadingModal_display r;
     body_alerts := body_alerts r; nav_active := nav_active r;
     content_active := content_active r; currentTab := currentTab r;
     scrolls := scrolls r; network := network r; console := console r;
     tasks := tasks r |}.

Definition set_inputs (v : form) (r : page) : page :=
  {| view := view r; inputs := v;
     loadingModal_display := loadingModal_display r;
     body_alerts := body_alerts r; nav_active := nav_active r;
     content_active := content_active r; currentTab := currentTab r;
     scrolls := scrolls r; network := network r; console := console r;
     tasks := tasks r |}.

Definition set_loadingModal_display (v : string) (r : page) : page :=
  {| view := view r; inputs := inputs r; loadingModal_display := v;
     body_alerts := body_alerts r; nav_active := nav_active r;
     content_active := content_active r; currentTab := currentTab r;
     scrolls := scrolls r; network := network r; console := console r;
     tasks := tasks r |}.

Definition set_body_alerts (v : list alert) (r : page) : page :=
  {| view := view r; inputs := inputs r;
     loadingModal_display := loadingModal_display r; body_alerts := v;
     nav_active := nav_active r; content_active := content_active r;
     currentTab := currentTab r; scrolls := scrolls r; network := network r;
     console := console r; tasks := tasks r |}.

Definition set_nav_active (v : string) (r : page) : page :=
  {| view := view r; inputs := inputs r;
     loadingModal_display := loadingModal_display r;
     body_alerts := body_alerts r; nav_active := v;
     content_active := content_active r; currentTab := currentTab r;
     scrolls := scrolls r; network := network r; console := console r;
     tasks := tasks r |}.

Definition set_content_active (v : string) (r : page) : page :=
  {| view := view r; inputs := inputs r;
     loadingModal_display := loadingModal_display r;
     body_alerts := body_alerts r; nav_active := nav_active r;
     content_active := v; currentTab := currentTab r; scrolls := scrolls r;
     network := network r; console := console r; tasks := tasks r |}.

Definition set_currentTab (v : string) (r : page) : page :=
  {| view := view r; inputs := inputs r;
     loadingModal_display := loadingModal_display r;
     body_alerts := body_alerts r; nav_active := nav_active r;
     content_active := content_active r; currentTab := v;
     scrolls := scrolls r; network := network r; console := console r;
     tasks := tasks r |}.

Definition set_scrolls (v : nat) (r : page) : page :=
  {| view := view r; inputs := inputs r;
     loadingModal_display := loadingModal_display r;
     body_alerts := body_alerts r; nav_active := nav_active r;
     content_active := content_active r; currentTab := currentTab r;
     scrolls := v; network := network r; console := console r;
     tasks := tasks r |}.

Definition set_network (v : list request) (r : page) : page :=
  {| view := view r; inputs := inputs r;
     loadingModal_display := loadingModal_display r;
     body_alerts := body_alerts r; nav_active := nav_active r;
     content_active := content_active r; currentTab := currentTab r;
     scrolls := scrolls r; network := v; console := console r;
     tasks := tasks r |}.

Definition set_console (v : list (string * exn)) (r : page) : page :=
  {| view := view r; inputs := inputs r;
     loadingModal_display := loadingModal_display r;
     body_alerts := body_alerts r; nav_active := nav_active r;
     content_active := content_active r; currentTab := currentTab r;
     scrolls := scrolls r; network := network r; console := v;
     tasks := tasks r |}.

Definition set_tasks (v : list task) (r : page) : page :=
  {| view := view r; inputs := inputs r;
     loadingModal_display := loadingModal_display r;
     body_alerts := body_alerts r; nav_active := nav_active r;
     content_active := content_active r; currentTab := currentTab r;
     scrolls := scrolls r; network := network r; console := console r;
     tasks := v |}.

(** ** Running a method

    A method is a function from the page to the page it leaves and the way
    it completes: normally, or by a [throw].  What was written to the page
    before a [throw] stays written. *)

Inductive completion (A : Type) : Type :=
  | Normal (a : A)
  | Throw (e : exn).
Arguments Normal {A} a.
Arguments Throw {A} e.

Definition M (A : Type) : Type := page -> completion A * page.

Definition ret {A : Type} (a : A) : M A := fun p => (Normal a, p).

Definition bind {A B : Type} (c : M A) (k : A -> M B) : M B :=
  fun p =>
    match c p with
    | (Normal a, p') => k a p'
    | (Throw e, p') => (Throw e, p')
    end.

Definition throw {A : Type} (e : exn) : M A := fun p => (Throw e, p).

Definition gets {A : Type} (f : page -> A) : M A := fun p => (Normal (f p), p).

Definition modify (f : page -> page) : M unit := fun p => (Normal tt, f p).

Declare Scope js_scope.
Delimit Scope js_scope with js.
Notation "'let*' x ':=' c 'in' k" := (bind c (fun x => k))
  (at level 10, x name, c at level 100, k at level 200) : js_scope.
Notation "c ';;;' k" := (bind c (fun _ => k))
  (at level 100, k at level 200, right associativity) : js_scope.
Local Open Scope js_scope.

(** The page a method leaves, however it completes. *)
Definition exec {A : Type} (c : M A) (p : page) : page := snd (c p).

(** Whether a method completes normally. *)
Definition returns {A : Type} (c : M A) (p : page) : bool :=
  match fst (c p) with
  | Normal _ => true
  | Throw _ => false
  end.

(** [v.name] or [v.name(...)] on a value that may be [undefined]. *)
Definition deref {A : Type} (what : string) (v : option A) : M A :=
  match v with
  | Some a => ret a
  | None => throw (TypeError what)
  end.

(** [array.forEach((x, index) => f)], from index [i] on. *)
Fixpoint forEach_from {A : Type} (i : nat) (l : list A)
    (f : A -> nat -> M unit) : M unit :=
  match l with
  | [] => ret tt
  | x :: rest => f x i ;;; forEach_from (S i) rest f
  end.

Definition forEach {A : Type} (l : list A) (f : A -> nat -> M unit) : M unit :=
  forEach_from 0 l f.

(** [array.map(x => f)]. *)
Fixpoint map_M {A B : Type} (f : A -> M B) (l : list A) : M (list B) :=
  match l with
  | [] => ret []
  | x :: rest =>
      let* y := f x in
      let* ys := map_M f rest in
      ret (y :: ys)
  end.

(** [try { body } catch (e) { handler } finally { cleanup }]. *)
Definition try_catch_finally {A : Type}
    (body : M A) (handler : exn -> M A) (cleanup : M unit) : M A :=
  fun p =>
    let '(r, p1) :=
      match body p with
      | (Normal a, p') => (Normal a, p')
      | (Throw e, p') => handler e p'
      end in
    match cleanup p1 with
    | (Normal _, p2) => (r, p2)
    | (Throw e, p2) => (Throw e, p2)
    end.

Definition on_view (f : results_view -> results_view) : M unit :=
  modify (fun p => set_view (f (view p)) p).

Definition on_inputs (f : form -> form) : M unit :=
  modify (fun p => set_inputs (f (inputs p)) p).

(** ** The methods of [TruthGuardAI] *)

Definition apiBaseUrl : string := "https://truthguard-ai-nwp9.onrender.com".

(** [switchTab(tabName)] for a [tabName] that the page has a tab and a
    tab content for: [active] is taken from every tab and every tab
    content and given to the two elements named after [tabName].  (The
    markup is not among the sources.  For a name without such elements the
    script throws at the [null] that [querySelector] or [getElementById]
    gives, after [active] was taken away; that path is not part of the
    model, which calls [switchTab] with the page's own tabs only.) *)
Definition switchTab (tabName : string) : M unit :=
  modify (set_nav_active tabName) ;;;
  modify (set_content_active (tabName ++ "-tab")) ;;;
  modify (set_currentTab tabName).

(** [showLoading(show)]. *)
Definition showLoading (show : bool) : M unit :=
  modify (set_loadingModal_display (if show then "flex" else "none")).

(** [showAlert(message, type)]. *)
Definition showAlert (message type : string) : M unit :=
  modify (fun p =>
    set_body_alerts
      (body_alerts p ++
         [ {| alert_className := "alert alert-" ++ type;
              alert_icon :=
                "fas fa-" ++
                (if String.eqb type "error" then "exclamation-circle"
                 else if String.eqb type "warning" then "exclamation-triangle"
                 else "info-circle");
              alert_message := message |} ])
      p).

(** [console.error(label, error)]. *)
Definition console_error (label : string) (e : exn) : M unit :=
  modify (fun p => set_console (console p ++ [(label, e)]) p).

(** [updateTrustScore(score, verdict)]. *)
Definition updateTrustScore (score : option number) (verdict : string) : M unit :=
  on_view (set_trustScore_textContent (Some (Math_round (ToNumber score)))) ;;;
  on_view (set_verdict_textContent verdict) ;;;
  on_view (set_scoreCircle_className "score-circle") ;;;
  if num_ge (ToNumber score) (of_Z 80) then
    on_view (fun v => set_scoreCircle_className (scoreCircle_className v ++ " high") v) ;;;
    on_view (set_verdict_className "verdict high")
  else if num_ge (ToNumber score) (of_Z 60) then
    on_view (fun v => set_scoreCircle_className (scoreCircle_className v ++ " medium") v) ;;;
    on_view (set_verdict_className "verdict medium")
  else
    on_view (fun v => set_scoreCircle_className (scoreCircle_className v ++ " low") v) ;;;
    on_view (set_verdict_className "verdict low").

(** The body of the callback of [claims.forEach], up to [appendChild]: the
    element built for [claim] at [index].  [toLowerCase] is called on
    [trust_level] and [length] is read on [manipulation_techniques], so an
    absent one throws. *)
Definition claimElement (c : claim) (index : nat) : M claim_element :=
  let* level := deref "claim.trust_level.toLowerCase" (trust_level c) in
  let* techniques :=
    deref "claim.manipulation_techniques.length" (manipulation_techniques c) in
  ret {| ce_className := "claim-item " ++ toLowerCase level;
         ce_index := index + 1;
         ce_status_className := "claim-status " ++ toLowerCase level;
         ce_status := level;
         ce_confidence := Math_round (ToNumber (confidence c));
         ce_text := claim_text c;
         ce_explanation := claim_explanation c;
         ce_techniques :=
           if (0 <? length techniques)%nat then Some techniques else None |}.

(** [displayClaims(claims)]. *)
Definition displayClaims (cs : option (list claim)) : M unit :=
  on_view (set_claimsList []) ;;;
  let* l := deref "claims.forEach" cs in
  forEach l (fun c index =>
    let* claimElement := claimElement c index in
    on_view (fun v => set_claimsList (claimsList v ++ [claimElement]) v)).

(** [displaySources(sources)]. *)
Definition displaySources (srcs : option (list string)) : M unit :=
  on_view (set_sourcesList []) ;;;
  let* l := deref "sources.forEach" srcs in
  forEach l (fun source _ =>
    on_view (fun v => set_sourcesList (sourcesList v ++ [source]) v)).

(** The text [x || 'Technique used to mislead readers'] for the
    description [x] of an entry that may be absent. *)
Definition description_or_default (x : option string) : string :=
  match x with
  | Some d => if String.eqb d "" then "Technique used to mislead readers" else d
  | None => "Technique used to mislead readers"
  end.

(** The block for one detected technique: the callback of
    [manipulation_techniques_detected.map].  [technique_explanations[tech]]
    throws when [technique_explanations] is absent; the [?.] only guards
    the entry. *)
Definition techniqueExplanation (i : insights) (tech : string) : M technique_view :=
  let* explanations :=
    deref "insights.technique_explanations[tech]" (technique_explanations i) in
  let entry := explanations !! tech in
  ret {| tv_name := tech;
         tv_description := description_or_default (entry ≫= description);
         tv_tips :=
           match entry ≫= detection_tips with
           | Some tips => Some (join ", " tips)
           | None => None
           end |}.

(** [displayEducationalInsights(insights)]. *)
Definition displayEducationalInsights (i : insights) : M unit :=
  on_view (set_educationalContent []) ;;;
  match manipulation_techniques_detected i with
  | Some (t :: ts) =>
      let* blocks := map_M (techniqueExplanation i) (t :: ts) in
      on_view (fun v =>
        set_educationalContent (educationalContent v ++ [TechniquesDetected blocks]) v)
  | _ => ret tt
  end ;;;
  match verification_tips i with
  | Some tips =>
      on_view (fun v =>
        set_educationalContent (educationalContent v ++ [VerificationTips tips]) v)
  | None => ret tt
  end ;;;
  on_view (set_educationalSection_display "block").

(** [displayResults(result)]. *)
Definition displayResults (result : verdict) : M unit :=
  on_view (set_resultsSection_display "block") ;;;
  updateTrustScore (overall_trust_score result) (overall_verdict result) ;;;
  displayClaims (claims result) ;;;
  on_view (set_explanationText_textContent (explanation result)) ;;;
  displaySources (sources result) ;;;
  match educational_insights result with
  | Some i => displayEducationalInsights i
  | None => ret tt
  end ;;;
  modify (fun p => set_scrolls (S (scrolls p)) p).

(** ** The asynchronous methods

    [analyzeText] and [analyzeImage] suspend twice, at [await fetch(...)]
    and at [await response.json()].  Each is cut at its [await]s: a segment
    runs from one suspension to the next, and tells whether the method is
    parked again or has run to its end. *)

Inductive progress : Type :=
  | Parked (t : task)
  | Completed.

(** How the promise of [fetch] settles. *)
Inductive fetch_result : Type :=
  | FetchRejects (reason : string)
  | FetchResolves (ok : bool) (status : Z).

(** How the promise of [response.json()] settles when the body, if it
    parses, is of the documented types; a body of any other shape is the
    subject of the raw payloads below. *)
Inductive json_result : Type :=
  | JsonRejects (reason : string)
  | JsonResolves (result : verdict).

Definition error_label (m : modality) : string :=
  match m with
  | TextMode => "Analysis error:"
  | ImageMode => "Image analysis error:"
  end.

Definition error_message (m : modality) : string :=
  match m with
  | TextMode => "Failed to analyze content. Please try again."
  | ImageMode => "Failed to analyze image. Please try again."
  end.

(** A segment of the [try] block of [analyzeText] or [analyzeImage] under
    its [catch] and [finally]: a segment that parks again leaves the block
    pending; one that throws runs the [catch] and then the [finally]; one
    that reaches the end of the block runs the [finally]. *)
Definition in_try (m : modality) (segment : M progress) : M progress :=
  fun p =>
    match segment p with
    | (Normal (Parked t), p') => (Normal (Parked t), p')
    | (settled, p') =>
        try_catch_finally
          (fun _ => (settled, p'))
          (fun error =>
             console_error (error_label m) error ;;;
             showAlert (error_message m) "error" ;;;
             ret Completed)
          (showLoading false)
          p'
    end.

(** [fetch(url, init)]: the call is recorded; the promise settles later. *)
Definition fetch (r : request) : M unit :=
  modify (fun p => set_network (network p ++ [r]) p).

(** [analyzeText()] up to [await fetch(...)]. *)
Definition analyzeText : M progress :=
  let* content := gets (fun p => trim (contentInput_value (inputs p))) in
  if String.eqb content "" then
    showAlert "Please enter some content to analyze." "warning" ;;;
    ret Completed
  else
    showLoading true ;;;
    in_try TextMode
      (let* language := gets (fun p => languageSelect_value (inputs p)) in
       let* include_education :=
         gets (fun p => includeEducation_checked (inputs p)) in
       fetch {| url := apiBaseUrl ++ "/check";
                method := "POST";
                content_type_header := Some "application/json";
                req_body := JsonBody content "text" language include_education |} ;;;
       ret (Parked (AwaitFetch TextMode))).

(** [analyzeImage(file)] up to [await fetch(...)]. *)
Definition analyzeImage (f : file) : M progress :=
  showLoading true ;;;
  in_try ImageMode
    (fetch {| url := apiBaseUrl ++ "/check-image";
              method := "POST";
              content_type_header := None;
              req_body := FormBody f |} ;;;
     ret (Parked (AwaitFetch ImageMode))).

(** From the settling of [fetch] to [await response.json()]. *)
Definition after_fetch (m : modality) (res : fetch_result) : M progress :=
  in_try m
    match res with
    | FetchRejects reason => throw (Rejection reason)
    | FetchResolves ok status =>
        if negb ok then throw (HttpError status)
        else ret (Parked (AwaitJson m))
    end.

(** From the settling of [response.json()] to the end of the method. *)
Definition after_json (m : modality) (res : json_result) : M progress :=
  in_try m
    match res with
    | JsonRejects reason => throw (Rejection reason)
    | JsonResolves result =>
        match m with
        | TextMode => displayResults result
        | ImageMode => switchTab "text" ;;; displayResults result
        end ;;;
        ret Completed
    end.

(** [displayImagePreview(file)]: the reader is started; [onload] fires
    later. *)
Definition displayImagePreview (f : file) : M progress :=
  ret (Parked (AwaitReader f)).

(** The [onload] callback installed by [displayImagePreview]. *)
Definition reader_onload (f : file) (dataURL : string) : M progress :=
  on_inputs (set_previewImg_src dataURL) ;;;
  on_inputs (set_imagePreview_display "block") ;;;
  on_inputs (set_analyzeImageBtn_onclick (Some f)) ;;;
  ret Completed.

(** [handleImageUpload(event)]; [files] is [event.target.files]. *)
Definition handleImageUpload (files : list file) : M progress :=
  match files !! 0%nat with
  | Some f => displayImagePreview f
  | None => ret Completed
  end.

(** [handleImageDrop(event)]; [files] is [event.dataTransfer.files]. *)
Definition handleImageDrop (files : list file) : M progress :=
  match files !! 0%nat with
  | Some f =>
      if startsWith (file_type f) "image/" then
        on_inputs (set_imageInput_files files) ;;;
        displayImagePreview f
      else ret Completed
  | None => ret Completed
  end.

(** ** The event loop

    Everything runs on one thread: a user event or the settling of a
    pending promise runs its handler to the next suspension, and then the
    next event is taken. *)

Inductive event : Type :=
  (** the user edits the text area, the language or the checkbox *)
  | EditContent (text : string)
  | SelectLanguage (language : string)
  | SetIncludeEducation (checked : bool)
  (** a click on the [.nav-tab] element whose [data-tab] is [name] *)
  | ClickTab (name : string)
  (** a click on [analyzeBtn], or Ctrl+Enter in the text area *)
  | ClickAnalyze
  (** the picker hands over [files]: [change] on [imageInput] *)
  | PickFiles (files : list file)
  (** [drop] on [uploadArea] *)
  | DropFiles (files : list file)
  (** a click on [analyzeImageBtn] *)
  | ClickAnalyzeImage
  (** the promise task [id] waits for settles *)
  | ReaderLoads (id : nat) (dataURL : string)
  | FetchSettles (id : nat) (res : fetch_result)
  | JsonSettles (id : nat) (res : json_result).

(** A handler called from an event listener: a method that parks is
    entered as a new task; an exception that escapes is dropped. *)
Definition call (handler : M progress) (p : page) : page :=
  match handler p with
  | (Normal (Parked t), p') => set_tasks (tasks p' ++ [t]) p'
  | (_, p') => p'
  end.

(** Task [id] is resumed with [k]: its entry becomes the [await] it parks
    at next, or [Finished]. *)
Definition resume (id : nat) (k : M progress) (p : page) : page :=
  match k p with
  | (Normal (Parked t), p') => set_tasks (<[id := t]> (tasks p')) p'
  | (_, p') => set_tasks (<[id := Finished]> (tasks p')) p'
  end.

Definition step (p : page) (e : event) : page :=
  match e with
  | EditContent text => exec (on_inputs (set_contentInput_value text)) p
  | SelectLanguage language => exec (on_inputs (set_languageSelect_value language)) p
  | SetIncludeEducation checked =>
      exec (on_inputs (set_includeEducation_checked checked)) p
  | ClickTab name => exec (switchTab name) p
  | ClickAnalyze => call analyzeText p
  | PickFiles files =>
      call (on_inputs (set_imageInput_files files) ;;; handleImageUpload files) p
  | DropFiles files => call (handleImageDrop files) p
  | ClickAnalyzeImage =>
      match analyzeImageBtn_onclick (inputs p) with
      | Some f => call (analyzeImage f) p
      | None => p
      end
  | ReaderLoads id dataURL =>
      match tasks p !! id with
      | Some (AwaitReader f) => resume id (reader_onload f dataURL) p
      | _ => p
      end
  | FetchSettles id res =>
      match tasks p !! id with
      | Some (AwaitFetch m) => resume id (after_fetch m res) p
      | _ => p
      end
  | JsonSettles id res =>
      match tasks p !! id with
      | Some (AwaitJson m) => resume id (after_json m res) p
      | _ => p
      end
  end.

Definition run (p : page) (es : list event) : page := foldl step p es.

(** A page on which nothing was analysed yet, with English selected and
    the education box ticked.  ([loadSystemStats], which the constructor
    starts, only writes the language count and is left out.) *)
Definition initial_page : page :=
  {| view :=
       {| resultsSection_display := "none"; trustScore_textContent := None;
          verdict_textContent := ""; verdict_className := "";
          scoreCircle_className := "score-circle"; claimsList := [];
          explanationText_textContent := ""; sourcesList := [];
          educationalContent := []; educationalSection_display := "none" |};
     inputs :=
       {| contentInput_value := ""; languageSelect_value := "en";
          includeEducation_checked := true; imageInput_files := [];
          previewImg_src := ""; imagePreview_display := "none";
          analyzeImageBtn_onclick := None |};
     loadingModal_display := "none"; body_alerts := []; nav_active := "text";
     content_active := "text-tab"; currentTab := "text"; scrolls := 0;
     network := []; console := []; tasks := [] |}.

(** ** What the page shows *)

(** The three trust buckets, and their order low < medium < high. *)
Inductive bucket : Type := low | medium | high.

Definition bucket_rank (b : bucket) : nat :=
  match b with
  | low => 0
  | medium => 1
  | high => 2
  end.

Definition bucket_name (b : bucket) : string :=
  match b with
  | low => "low"
  | medium => "medium"
  | high => "high"
  end.

(** The bucket the score circle is coloured with, read off its class. *)
Definition shown_bucket (p : page) : option bucket :=
  let c := scoreCircle_className (view p) in
  if String.eqb c "score-circle high" then Some high
  else if String.eqb c "score-circle medium" then Some medium
  else if String.eqb c "score-circle low" then Some low
  else None.

(** The number in the trust-score element. *)
Definition shown_score (p : page) : option number :=
  trustScore_textContent (view p).

(** The page after [updateTrustScore(score, verdict)]. *)
Definition scored (p : page) (score : number) (verdict : string) : page :=
  exec (updateTrustScore (Some score) verdict) p.


(** ** Shapes of a response *)

(** A claim on which the callback of [displayClaims] does not throw: the
    two fields it dereferences are there. *)
Definition claim_ok (c : claim) : bool :=
  bool_decide (is_Some (trust_level c))
  && bool_decide (is_Some (manipulation_techniques c)).

(** Insights on which [displayEducationalInsights] does not throw: when
    techniques were detected, the table of explanations is there. *)
Definition insights_ok (i : insights) : bool :=
  match manipulation_techniques_detected i with
  | Some (_ :: _) => bool_decide (is_Some (technique_explanations i))
  | _ => true
  end.

(** A response on which [displayResults] does not throw. *)
Definition renderable (r : verdict) : bool :=
  match claims r with
  | Some cs => forallb claim_ok cs
  | None => false
  end
  && bool_decide (is_Some (sources r))
  && match educational_insights r with
     | Some i => insights_ok i
     | None => true
     end.

(** The element [claimElement] builds for a claim, with the empty string
    and the empty list standing in for an absent field (on which
    [claimElement] throws instead). *)
Definition element_of (index : nat) (c : claim) : claim_element :=
  let level := default "" (trust_level c) in
  let techniques := default [] (manipulation_techniques c) in
  {| ce_className := "claim-item " ++ toLowerCase level;
     ce_index := index + 1;
     ce_status_className := "claim-status " ++ toLowerCase level;
     ce_status := level;
     ce_confidence := Math_round (ToNumber (confidence c));
     ce_text := claim_text c;
     ce_explanation := claim_explanation c;
     ce_techniques :=
       if (0 <? length techniques)%nat then Some techniques else None |}.

(** The block [techniqueExplanation] builds when the table of explanations
    is [explanations]. *)
Definition block_of (explanations : gmap string technique_explanation)
    (tech : string) : technique_view :=
  let entry := explanations !! tech in
  {| tv_name := tech;
     tv_description := description_or_default (entry ≫= description);
     tv_tips :=
       match entry ≫= detection_tips with
       | Some tips => Some (join ", " tips)
       | None => None
       end |}.

(** A part of the results section is kept: [g] reads the same. *)
Definition kept {X : Type} (g : results_view -> X) (p p' : page) : Prop :=
  g (view p') = g (view p).

(** A text that is empty or made of white space only. *)
Fixpoint blank (s : string) : bool :=
  match s with
  | EmptyString => true
  | String c rest => is_white_space c && blank rest
  end.

(** The alert of a failed analysis. *)
Definition failure_alert (m : modality) : alert :=
  {| alert_className := "alert alert-error";
     alert_icon := "fas fa-exclamation-circle";
     alert_message := error_message m |}.

(** The alert of an empty submission. *)
Definition empty_content_alert : alert :=
  {| alert_className := "alert alert-warning";
     alert_icon := "fas fa-exclamation-triangle";
     alert_message := "Please enter some content to analyze." |}.

(** What [displayResults] and [switchTab] leave alone: the controls, the
    loading modal, the alerts, the requests, the console and the tasks. *)
Definition frame (p p' : page) : Prop :=
  inputs p' = inputs p
  /\ loadingModal_display p' = loadingModal_display p
  /\ body_alerts p' = body_alerts p
  /\ network p' = network p
  /\ console p' = console p
  /\ tasks p' = tasks p.

(** What the rendering that follows [updateTrustScore] leaves alone: the
    visibility of the results section, the score, the verdict and the two
    colour classes. *)
Definition headline (p p' : page) : Prop :=
  resultsSection_display (view p') = resultsSection_display (view p)
  /\ trustScore_textContent (view p') = trustScore_textContent (view p)
  /\ verdict_textContent (view p') = verdict_textContent (view p)
  /\ verdict_className (view p') = verdict_className (view p)
  /\ scoreCircle_className (view p') = scoreCircle_className (view p).

(** A method keeps [R] when the page it leaves is related by [R] to the
    page it started on, however it completes. *)
Definition keeps (R : page -> page -> Prop) {A : Type} (c : M A) : Prop :=
  forall p, R p (snd (c p)).

(** ** Sample data *)

Definition sample_claim (text level : string) : claim :=
  {| claim_text := text; trust_level := Some level;
     confidence := Some (of_Z 90); claim_explanation := "checked";
     manipulation_techniques := Some [] |}.

Definition sample_verdict (score : Z) (v : string) : verdict :=
  {| overall_trust_score := Some (of_Z score); overall_verdict := v;
     claims := Some [sample_claim "the claim" "HIGH"];
     explanation := "why"; sources := Some ["rbi.org.in"];
     educational_insights := None |}.

(** A response without its [claims] array. *)
Definition verdict_without_claims : verdict :=
  {| overall_trust_score := Some (of_Z 42); overall_verdict := "Misleading";
     claims := None; explanation := "why"; sources := Some [];
     educational_insights := None |}.

(** A response without its [overall_trust_score]. *)
Definition verdict_without_score : verdict :=
  {| overall_trust_score := None; overall_verdict := "Verified";
     claims := Some []; explanation := "why"; sources := Some [];
     educational_insights := None |}.

(** A response with three claims, the second with an unknown level. *)
Definition three_claims : verdict :=
  {| overall_trust_score := Some (of_Z 55); overall_verdict := "Mixed";
     claims :=
       Some [ sample_claim "zebra" "LOW";
              sample_claim "apple" "unknown";
              {| claim_text := "mango"; trust_level := Some "High";
                 confidence := Some (Fin (151 # 2));
                 claim_explanation := "matches the record";
                 manipulation_techniques := Some ["urgency"] |} ];
     explanation := "why"; sources := Some [];
     educational_insights := None |}.

(** Spaces, a tab and a line feed. *)
Definition white_text : string :=
  String " " (String " " (String (ascii_of_nat 9) (String (ascii_of_nat 10) " "))).

Definition pdf : file := {| file_name := "report.pdf"; file_type := "application/pdf" |}.
Definition png : file := {| file_name := "shot.png"; file_type := "image/png" |}.

(** One technique whose entry has an empty description, one with a
    description, one without an entry. *)
Definition sample_insights : insights :=
  {| manipulation_techniques_detected := Some ["fear"; "urgency"; "bandwagon"];
     technique_explanations :=
       Some (<["fear" := {| description := Some ""; detection_tips := None |}]>
            (<["urgency" := {| description := Some "Pushes to act at once";
                               detection_tips := Some ["pause"; "check the date"] |}]>
             ∅));
     verification_tips := None |}.

(** Two submissions, the answer to the first arriving after the answer to
    the second. *)
Definition overtaken : list event :=
  [ SelectLanguage "en"; SetIncludeEducation true;
    EditContent "first text"; ClickAnalyze;
    EditContent "second text"; ClickAnalyze;
    FetchSettles 1 (FetchResolves true 200);
    JsonSettles 1 (JsonResolves (sample_verdict 92 "Verified"));
    FetchSettles 0 (FetchResolves true 200);
    JsonSettles 0 (JsonResolves (sample_verdict 15 "False")) ].

(** ** Further observations *)

(** The two events whose handler calls [fetch]. *)
Definition is_analysis_click (e : event) : bool :=
  match e with
  | ClickAnalyze | ClickAnalyzeImage => true
  | _ => false
  end.


(** The way an analysis in mode [m] that failed with [e] leaves the page
    [p'] it started from as [p]: one alert and one console line more, and
    the results, the controls, the requests and the tabs as they were. *)
Definition failed_with (m : modality) (e : exn) (p p' : page) : Prop :=
  view p' = view p
  /\ inputs p' = inputs p
  /\ network p' = network p
  /\ nav_active p' = nav_active p
  /\ currentTab p' = currentTab p
  /\ body_alerts p' = (body_alerts p ++ [failure_alert m])%list
  /\ console p' = (console p ++ [(error_label m, e)])%list
  /\ loadingModal_display p' = "none".

(** Everything but the results section is the same on [p'] as on [p]. *)
Definition outside_view (p p' : page) : Prop := set_view (view p) p' = p.

(** The blocks [displayEducationalInsights] puts into the educational
    section, with the empty table standing in for an absent one (on which
    a detected technique makes it throw instead). *)
Definition insights_content (i : insights) : list subsection :=
  (match manipulation_techniques_detected i with
   | Some (tech :: techs) =>
       [TechniquesDetected
          (map (block_of (default ∅ (technique_explanations i))) (tech :: techs))]
   | _ => []
   end
   ++ match verification_tips i with
      | Some tips => [VerificationTips tips]
      | None => []
      end)%list.

(** The bucket of a score as [updateTrustScore] decides it. *)
Definition bucket_of (score : number) : bucket :=
  if num_ge score (of_Z 80) then high
  else if num_ge score (of_Z 60) then medium
  else low.

(** The results section [displayResults] leaves for a response it renders
    to the end, when it was [old] before. *)
Definition rendered (r : verdict) (old : results_view) : results_view :=
  {| resultsSection_display := "block";
     trustScore_textContent := Some (Math_round (ToNumber (overall_trust_score r)));
     verdict_textContent := overall_verdict r;
     verdict_className :=
       "verdict " ++ bucket_name (bucket_of (ToNumber (overall_trust_score r)));
     scoreCircle_className :=
       "score-circle " ++ bucket_name (bucket_of (ToNumber (overall_trust_score r)));
     claimsList := imap element_of (default [] (claims r));
     explanationText_textContent := explanation r;
     sourcesList := default [] (sources r);
     educationalContent :=
       match educational_insights r with
       | Some i => insights_content i
       | None => educationalContent old
       end;
     educationalSection_display :=
       match educational_insights r with
       | Some _ => "block"
       | None => educationalSection_display old
       end |}.

(** The explanation and the sources on the page. *)
Definition narrative (v : results_view) : string * list string :=
  (explanationText_textContent v, sourcesList v).

(** The educational section on the page. *)
Definition education (v : results_view) : list subsection * string :=
  (educationalContent v, educationalSection_display v).

(** A response with insights and with a claim that lacks its level. *)
Definition verdict_with_broken_claim : verdict :=
  {| overall_trust_score := Some (Fin (159 # 2)); overall_verdict := "Unclear";
     claims :=
       Some [ sample_claim "first" "LOW";
              {| claim_text := "second"; trust_level := None;
                 confidence := None; claim_explanation := "";
                 manipulation_techniques := Some [] |};
              sample_claim "third" "HIGH" ];
     explanation := "new explanation"; sources := Some ["new source"];
     educational_insights := Some sample_insights |}.

(** A response that renders to the end, with insights. *)
Definition full_verdict : verdict :=
  {| overall_trust_score := Some (of_Z 64); overall_verdict := "Unclear";
     claims := Some [sample_claim "one" "MEDIUM"];
     explanation := "because"; sources := Some ["a"; "b"];
     educational_insights := Some sample_insights |}.

(** The tabs are as they were. *)
Definition tabs_kept (p p' : page) : Prop :=
  nav_active p' = nav_active p
  /\ content_active p' = content_active p
  /\ currentTab p' = currentTab p.

(** ** [loadSystemStats]

    The constructor starts [loadSystemStats], which touches nothing an
    analysis reads: it writes the element [languagesSupported], logs to
    the console and calls [fetch] without options.  It is modelled on its
    own small state, cut at its two [await]s like the analyses. *)


(** Whether a number is truthy: every number but zero and NaN. *)
Definition truthy (x : number) : bool :=
  match x with
  | NaN => false
  | Fin q => negb (Qeq_bool q 0)
  | _ => true
  end.









(** ** Raw payloads

    What [response.json()] can deliver is any JSON value, whatever the
    service documents.  The rendering is given once more on these values,
    with the conversions JavaScript applies where a value is not of the
    type the code expects. *)

#[warnings="-register-all"]
Inductive json : Type :=
  | JNull
  | JBool (b : bool)
  | JNum (n : number)
  | JStr (s : string)
  | JArr (items : list json)
  (** the own properties, in the order of the text; of two with the same
      key the later one counts, as in [JSON.parse] *)
  | JObj (fields : list (string * json)).

(** A value read from a payload: [None] is [undefined]. *)
Abbreviation value := (option json).

(** The two conversions between numbers and text.  They only come into
    play where a number stands where a text is expected or the reverse;
    their digits are left open. *)
Class Builtins : Type := {
  (** [Number::toString] *)
  Number_toString : number -> string;
  (** [StringToNumber] *)
  String_toNumber : string -> number
}.

(** An instance to run examples with: it prints a finite number as the
    decimal digits of its integral part and reads every text as NaN, and
    is only used where no number is printed and no text is read as a
    number. *)
Definition plain_builtins : Builtins :=
  {| Number_toString :=
       fun n =>
         match n with
         | NaN => "NaN"
         | NegInf => "-Infinity"
         | PosInf => "Infinity"
         | Fin q => NilZero.string_of_int (Z.to_int (Qfloor q))
         end;
     String_toNumber := fun _ => NaN |}.

(** Conversions complete normally or throw, without touching the page. *)
Definition and_then {A B : Type} (c : completion A) (k : A -> completion B)
  : completion B :=
  match c with
  | Normal a => k a
  | Throw e => Throw e
  end.

Definition lift {A : Type} (c : completion A) : M A := fun p => (c, p).

(** The own property [k] of an object. *)
Fixpoint get_own (k : string) (fields : list (string * json)) : value :=
  match fields with
  | [] => None
  | (k', v) :: rest =>
      match get_own k rest with
      | Some later => Some later
      | None => if String.eqb k k' then Some v else None
      end
  end.

(** [v.k] for one of the property names the script reads: a read on
    [null] or [undefined] throws; only an object can have such a property
    (no prototype has one of these names). *)
Definition prop (what : string) (v : value) (k : string) : completion value :=
  match v with
  | None | Some JNull => Throw (TypeError what)
  | Some (JObj fields) => Normal (get_own k fields)
  | Some _ => Normal None
  end.

(** [ToBoolean]. *)
Definition ToBoolean (v : value) : bool :=
  match v with
  | None | Some JNull => false
  | Some (JBool b) => b
  | Some (JNum n) => truthy n
  | Some (JStr s) => negb (String.eqb s "")
  | Some (JArr _) | Some (JObj _) => true
  end.

Section Conversions.
Context {B : Builtins}.

(** [ToString] of a JSON value.  An array is joined with commas, [null]
    elements giving the empty text; an object gives [[object Object]],
    unless it has an own property [toString], which is not callable and
    leaves no way to a primitive. *)
Fixpoint ToString (v : json) : completion string :=
  match v with
  | JNull => Normal "null"
  | JBool b => Normal (if b then "true" else "false")
  | JNum n => Normal (Number_toString n)
  | JStr s => Normal s
  | JArr items =>
      and_then
        ((fix pieces (l : list json) : completion (list string) :=
            match l with
            | [] => Normal []
            | x :: rest =>
                and_then
                  match x with
                  | JNull => Normal ""
                  | _ => ToString x
                  end
                  (fun s => and_then (pieces rest) (fun ss => Normal (s :: ss)))
            end) items)
        (fun ss => Normal (String.concat "," ss))
  | JObj fields =>
      match get_own "toString" fields with
      | Some _ => Throw (TypeError "Cannot convert object to primitive value")
      | None => Normal "[object Object]"
      end
  end.

(** The texts of the elements of an array, as [join] and [ToString] take
    them. *)
Fixpoint pieces (l : list json) : completion (list string) :=
  match l with
  | [] => Normal []
  | x :: rest =>
      and_then
        match x with
        | JNull => Normal ""
        | _ => ToString x
        end
        (fun s => and_then (pieces rest) (fun ss => Normal (s :: ss)))
  end.

(** [items.join(sep)]. *)
Definition Array_join (sep : string) (items : list json) : completion string :=
  and_then (pieces items) (fun ss => Normal (join sep ss)).

(** [`${v}`]: [ToString], [undefined] giving ["undefined"]. *)
Definition interpolate (v : value) : completion string :=
  match v with
  | None => Normal "undefined"
  | Some x => ToString x
  end.

(** The text an element gets by [textContent = v]: [null] and [undefined]
    empty it. *)
Definition textContent_of (v : value) : completion string :=
  match v with
  | None | Some JNull => Normal ""
  | Some x => ToString x
  end.

(** [ToNumber]. *)
Definition ToNumber_value (v : value) : completion number :=
  match v with
  | None => Normal NaN
  | Some JNull => Normal (of_Z 0)
  | Some (JBool b) => Normal (if b then of_Z 1 else of_Z 0)
  | Some (JNum n) => Normal n
  | Some (JStr s) => Normal (String_toNumber s)
  | Some (JArr items) =>
      and_then (Array_join "," items) (fun s => Normal (String_toNumber s))
  | Some (JObj fields) =>
      match get_own "toString" fields with
      | Some _ => Throw (TypeError "Cannot convert object to primitive value")
      | None => Normal NaN
      end
  end.

(** [v.length] on a value that is neither [null] nor [undefined]. *)
Definition length_of (v : json) : value :=
  match v with
  | JArr items => Some (JNum (of_Z (Z.of_nat (length items))))
  | JStr s => Some (JNum (of_Z (Z.of_nat (String.length s))))
  | JObj fields => get_own "length" fields
  | _ => None
  end.

(** [v > 0]. *)
Definition positive (v : value) : completion bool :=
  and_then (ToNumber_value v)
    (fun n => Normal (num_ge n (of_Z 0) && negb (num_ge (of_Z 0) n))).

(** [v.length > 0], throwing on [null] and [undefined]. *)
Definition has_elements (what : string) (v : value) : completion bool :=
  match v with
  | None | Some JNull => Throw (TypeError what)
  | Some x => positive (length_of x)
  end.

(** The array behind [v.forEach], [v.map] or [v.join]: no other JSON value
    has these methods. *)
Definition as_array (what : string) (v : value) : completion (list json) :=
  match v with
  | Some (JArr items) => Normal items
  | _ => Throw (TypeError what)
  end.

(** The string behind [v.toLowerCase()]: no other JSON value has the
    method. *)
Definition as_string (what : string) (v : value) : completion string :=
  match v with
  | Some (JStr s) => Normal s
  | _ => Throw (TypeError what)
  end.

(** [table[key]] as far as [?.description] and [?.detection_tips] can tell:
    the own property of an object or the element of an array at that
    index; what a prototype or a string has under a key carries neither of
    the two and reads as nothing. *)
Definition entry_of (table : json) (key : string) : value :=
  match table with
  | JObj fields => get_own key fields
  | JArr items =>
      (fix at_index (i : nat) (l : list json) : value :=
         match l with
         | [] => None
         | x :: rest =>
             if String.eqb (NilEmpty.string_of_uint (Nat.to_uint i)) key
             then Some x else at_index (S i) rest
         end) 0%nat items
  | _ => None
  end.

(** [entry?.k]. *)
Definition optional_prop (entry : value) (k : string) : value :=
  match entry with
  | Some (JObj fields) => get_own k fields
  | _ => None
  end.

(** [updateTrustScore(score, verdict)] on raw values. *)
Definition updateTrustScore_json (score verdict : value) : M unit :=
  let* n := lift (ToNumber_value score) in
  on_view (set_trustScore_textContent (Some (Math_round n))) ;;;
  let* text := lift (textContent_of verdict) in
  on_view (set_verdict_textContent text) ;;;
  on_view (set_scoreCircle_className "score-circle") ;;;
  if num_ge n (of_Z 80) then
    on_view (fun v => set_scoreCircle_className (scoreCircle_className v ++ " high") v) ;;;
    on_view (set_verdict_className "verdict high")
  else if num_ge n (of_Z 60) then
    on_view (fun v => set_scoreCircle_className (scoreCircle_className v ++ " medium") v) ;;;
    on_view (set_verdict_className "verdict medium")
  else
    on_view (fun v => set_scoreCircle_className (scoreCircle_className v ++ " low") v) ;;;
    on_view (set_verdict_className "verdict low").

(** The techniques block of a claim: [techniques.length > 0 ?
    techniques.map(...).join('') : ''].  *)
Definition technique_tags (techniques : value) : completion (option (list string)) :=
  and_then (has_elements "claim.manipulation_techniques.length" techniques)
    (fun some =>
       if some then
         and_then (as_array "claim.manipulation_techniques.map" techniques)
           (fun items =>
              and_then
                ((fix tags (l : list json) : completion (list string) :=
                    match l with
                    | [] => Normal []
                    | tech :: rest =>
                        and_then (ToString tech)
                          (fun s => and_then (tags rest) (fun ss => Normal (s :: ss)))
                    end) items)
                (fun ss => Normal (Some ss)))
       else Normal None).

(** The callback of [claims.forEach] on a raw claim, up to
    [appendChild]. *)
Definition claimElement_json (c : json) (index : nat) : completion claim_element :=
  and_then (prop "claim.trust_level.toLowerCase" (Some c) "trust_level") (fun level =>
  and_then (as_string "claim.trust_level.toLowerCase" level) (fun level =>
  and_then (and_then (prop "claim.confidence" (Some c) "confidence") ToNumber_value)
    (fun confidence =>
  and_then (and_then (prop "claim.claim_text" (Some c) "claim_text") interpolate)
    (fun text =>
  and_then (and_then (prop "claim.explanation" (Some c) "explanation") interpolate)
    (fun explanation =>
  and_then (and_then (prop "claim.manipulation_techniques" (Some c)
                        "manipulation_techniques") technique_tags)
    (fun techniques =>
  Normal {| ce_className := "claim-item " ++ toLowerCase level;
            ce_index := index + 1;
            ce_status_className := "claim-status " ++ toLowerCase level;
            ce_status := level;
            ce_confidence := Math_round confidence;
            ce_text := text;
            ce_explanation := explanation;
            ce_techniques := techniques |})))))).

(** [displayClaims(claims)] on a raw value. *)
Definition displayClaims_json (cs : value) : M unit :=
  on_view (set_claimsList []) ;;;
  let* l := lift (as_array "claims.forEach" cs) in
  forEach l (fun c index =>
    let* claimElement := lift (claimElement_json c index) in
    on_view (fun v => set_claimsList (claimsList v ++ [claimElement]) v)).

(** [displaySources(sources)] on a raw value. *)
Definition displaySources_json (srcs : value) : M unit :=
  on_view (set_sourcesList []) ;;;
  let* l := lift (as_array "sources.forEach" srcs) in
  forEach l (fun source _ =>
    let* text := lift (ToString source) in
    on_view (fun v => set_sourcesList (sourcesList v ++ [text]) v)).

(** The block for one detected technique on raw insights. *)
Definition techniqueExplanation_json (i : json) (tech : json)
  : completion technique_view :=
  and_then (ToString tech) (fun name =>
  and_then (prop "insights.technique_explanations" (Some i) "technique_explanations")
    (fun table =>
  match table with
  | None | Some JNull => Throw (TypeError "insights.technique_explanations[tech]")
  | Some t =>
      let entry := entry_of t name in
      and_then
        (if ToBoolean (optional_prop entry "description")
         then interpolate (optional_prop entry "description")
         else Normal "Technique used to mislead readers")
        (fun description =>
      and_then
        (if ToBoolean (optional_prop entry "detection_tips")
         then and_then
                (as_array "detection_tips.join" (optional_prop entry "detection_tips"))
                (fun tips => and_then (Array_join ", " tips) (fun s => Normal (Some s)))
         else Normal None)
        (fun tips =>
      Normal {| tv_name := name; tv_description := description; tv_tips := tips |}))
  end)).

(** [displayEducationalInsights(insights)] on a raw value that is
    truthy. *)
Definition displayEducationalInsights_json (i : json) : M unit :=
  on_view (set_educationalContent []) ;;;
  let* detected :=
    lift (prop "insights.manipulation_techniques_detected" (Some i)
            "manipulation_techniques_detected") in
  let* some :=
    lift (if ToBoolean detected
          then has_elements "manipulation_techniques_detected.length" detected
          else Normal false) in
  (if some then
     let* techs := lift (as_array "manipulation_techniques_detected.map" detected) in
     let* blocks := map_M (fun tech => lift (techniqueExplanation_json i tech)) techs in
     on_view (fun v =>
       set_educationalContent (educationalContent v ++ [TechniquesDetected blocks]) v)
   else ret tt) ;;;
  let* tips := lift (prop "insights.verification_tips" (Some i) "verification_tips") in
  (if ToBoolean tips then
     let* items := lift (as_array "verification_tips.map" tips) in
     let* texts := map_M (fun tip => lift (ToString tip)) items in
     on_view (fun v =>
       set_educationalContent (educationalContent v ++ [VerificationTips texts]) v)
   else ret tt) ;;;
  on_view (set_educationalSection_display "block").

(** [displayResults(result)] on a raw value. *)
Definition displayResults_json (result : json) : M unit :=
  on_view (set_resultsSection_display "block") ;;;
  let* score := lift (prop "result.overall_trust_score" (Some result)
                        "overall_trust_score") in
  let* verdict := lift (prop "result.overall_verdict" (Some result) "overall_verdict") in
  updateTrustScore_json score verdict ;;;
  let* cs := lift (prop "result.claims" (Some result) "claims") in
  displayClaims_json cs ;;;
  let* explanation := lift (prop "result.explanation" (Some result) "explanation") in
  let* text := lift (textContent_of explanation) in
  on_view (set_explanationText_textContent text) ;;;
  let* srcs := lift (prop "result.sources" (Some result) "sources") in
  displaySources_json srcs ;;;
  let* insights := lift (prop "result.educational_insights" (Some result)
                           "educational_insights") in
  match insights with
  | Some i => if ToBoolean insights then displayEducationalInsights_json i else ret tt
  | None => ret tt
  end ;;;
  modify (fun p => set_scrolls (S (scrolls p)) p).

(** From the settling of [response.json()] with a raw value to the end of
    the method. *)
Definition after_json_raw (m : modality) (result : json) : M progress :=
  in_try m
    (match m with
     | TextMode => displayResults_json result
     | ImageMode => switchTab "text" ;;; displayResults_json result
     end ;;;
     ret Completed).

(** The step of the event loop in which the body awaited by task [id]
    arrives as the raw value [result]. *)
Definition receive (id : nat) (result : json) (p : page) : page :=
  match tasks p !! id with
  | Some (AwaitJson m) => resume id (after_json_raw m result) p
  | _ => p
  end.

End Conversions.

(** Whether the rendering of a raw payload returns. *)
Definition renders `{Builtins} (result : json) (p : page) : bool :=
  returns (displayResults_json result) p.

(** ** Shapes of a raw payload *)

(** A raw claim on which the callback can get past the two reads it
    dereferences: an object whose [trust_level] is a string and whose
    [manipulation_techniques] is neither absent nor [null]. *)
Definition claim_shape (c : json) : bool :=
  match c with
  | JObj fields =>
      match get_own "trust_level" fields with
      | Some (JStr _) => true
      | _ => false
      end
      && match get_own "manipulation_techniques" fields with
         | None | Some JNull => false
         | Some _ => true
         end
  | _ => false
  end.

(** Raw insights whose [verification_tips], when truthy, is an array. *)
Definition insights_shape (i : json) : bool :=
  match i with
  | JObj fields =>
      match get_own "verification_tips" fields with
      | Some (JArr _) => true
      | tips => negb (ToBoolean tips)
      end
  | _ => true
  end.

(** A raw payload without the structural errors the rendering is bound
    to throw on: the body is an object, [claims] is an array of claims of
    the shape above, [sources] is an array, and the [verification_tips] of
    truthy insights is an array or falsy. *)
Definition shape (result : json) : bool :=
  match result with
  | JObj fields =>
      match get_own "claims" fields with
      | Some (JArr cs) => forallb claim_shape cs
      | _ => false
      end
      && match get_own "sources" fields with
         | Some (JArr _) => true
         | _ => false
         end
      && match get_own "educational_insights" fields with
         | Some i => if ToBoolean (Some i) then insights_shape i else true
         | None => true
         end
  | _ => false
  end.

(** ** Documented payloads as raw payloads *)

(** The property [k] when the value is there. *)
Definition field (k : string) (v : value) : list (string * json) :=
  match v with
  | Some x => [(k, x)]
  | None => []
  end.

Definition strings_to_json (l : list string) : json := JArr (map JStr l).

Definition explanation_to_json (e : technique_explanation) : json :=
  JObj (field "description" (JStr <$> description e)
        ++ field "detection_tips" (strings_to_json <$> detection_tips e)).

Definition table_to_json (table : gmap string technique_explanation) : json :=
  JObj (map_to_list (explanation_to_json <$> table)).

Definition insights_to_json (i : insights) : json :=
  JObj (field "manipulation_techniques_detected"
          (strings_to_json <$> manipulation_techniques_detected i)
        ++ field "technique_explanations"
             (table_to_json <$> technique_explanations i)
        ++ field "verification_tips" (strings_to_json <$> verification_tips i)).

Definition claim_to_json (c : claim) : json :=
  JObj ([("claim_text", JStr (claim_text c))]
        ++ field "trust_level" (JStr <$> trust_level c)
        ++ field "confidence" (JNum <$> confidence c)
        ++ [("explanation", JStr (claim_explanation c))]
        ++ field "manipulation_techniques"
             (strings_to_json <$> manipulation_techniques c)).

Definition verdict_to_json (r : verdict) : json :=
  JObj (field "overall_trust_score" (JNum <$> overall_trust_score r)
        ++ [("overall_verdict", JStr (overall_verdict r))]
        ++ field "claims" ((fun cs => JArr (map claim_to_json cs)) <$> claims r)
        ++ [("explanation", JStr (explanation r))]
        ++ field "sources" (strings_to_json <$> sources r)
        ++ field "educational_insights"
             (insights_to_json <$> educational_insights r)).

(** A method whose way of completing does not depend on the page. *)
Definition blind {A : Type} (c : M A) : Prop :=
  forall p q, fst (c p) = fst (c q).

(** Raw payloads with a structural error: a body that is [null], a body
    whose [claims] is a string, and a body whose score is a string. *)
Definition claims_as_text : json :=
  JObj [("overall_trust_score", JNum (of_Z 42));
        ("overall_verdict", JStr "Misleading");
        ("claims", JStr "none"); ("explanation", JStr "why");
        ("sources", JArr [])].

(** * Properties *)

(** ** Numbers *)

Lemma num_ge_Fin (q r : Q) : num_ge (Fin q) (Fin r) = true <-> (r <= q)%Q.
Proof. simpl. apply Qle_bool_iff. Qed.

Lemma num_ge_Fin_false (q r : Q) : num_ge (Fin q) (Fin r) = false <-> (q < r)%Q.
Proof.
  simpl. split.
  - intros H. apply Qnot_le_lt. intros Hle.
    apply Qle_bool_iff in Hle. congruence.
  - intros H. destruct (Qle_bool r q) eqn:E; [|reflexivity].
    apply Qle_bool_iff in E. exfalso. exact (Qlt_not_le _ _ H E).
Qed.

Lemma num_ge_trans (a b c : number) :
  num_ge a b = true -> num_ge b c = true -> num_ge a c = true.
Proof.
  destruct a as [| |x|], b as [| |y|], c as [| |z|]; simpl; try congruence.
  rewrite !Qle_bool_iff. intros H1 H2. exact (Qle_trans _ _ _ H2 H1).
Qed.

(** [Math.round] of a finite number is the integer within a half of it. *)
Lemma Math_round_Fin (q : Q) :
  exists z : Z,
    Math_round (Fin q) = of_Z z
    /\ (inject_Z z <= q + (1 # 2))%Q /\ (q + (1 # 2) < inject_Z (z + 1))%Q.
Proof.
  exists (Qfloor (q + (1 # 2))). split; [reflexivity|].
  split; [apply Qfloor_le | apply Qlt_floor].
Qed.

(** ** The trust score *)

Lemma scored_bucket (p : page) (s : number) (v : string) :
  shown_bucket (scored p s v)
  = Some (if num_ge s (of_Z 80) then high
          else if num_ge s (of_Z 60) then medium else low).
Proof.
  unfold scored, exec, updateTrustScore. simpl ToNumber.
  destruct (num_ge s (of_Z 80)); [reflexivity|].
  destruct (num_ge s (of_Z 60)); reflexivity.
Qed.

Lemma scored_score (p : page) (s : number) (v : string) :
  shown_score (scored p s v) = Some (Math_round s).
Proof.
  unfold scored, exec, updateTrustScore. simpl ToNumber.
  destruct (num_ge s (of_Z 80)); [reflexivity|].
  destruct (num_ge s (of_Z 60)); reflexivity.
Qed.

(** C3.  Whatever the page and the verdict, [updateTrustScore] colours the
    score circle with one of the three buckets for every score: high from
    80 on, medium from 60 up to 80, low below 60; and a score that is not
    smaller gets a bucket that is not lower. *)
Theorem bucket_total_monotone (p : page) (v : string) :
  (forall s : number, exists b : bucket, shown_bucket (scored p s v) = Some b)
  /\ (forall q : Q, (80 <= q)%Q -> shown_bucket (scored p (Fin q) v) = Some high)
  /\ (forall q : Q, (60 <= q)%Q -> (q < 80)%Q ->
        shown_bucket (scored p (Fin q) v) = Some medium)
  /\ (forall q : Q, (q < 60)%Q -> shown_bucket (scored p (Fin q) v) = Some low)
  /\ (forall (s1 s2 : number) (b1 b2 : bucket),
        num_le s1 s2 = true ->
        shown_bucket (scored p s1 v) = Some b1 ->
        shown_bucket (scored p s2 v) = Some b2 ->
        bucket_rank b1 <= bucket_rank b2).
Proof.
  repeat split.
  - intros s. rewrite scored_bucket. eauto.
  - intros q H. rewrite scored_bucket.
    apply (num_ge_Fin q (inject_Z 80)) in H. unfold of_Z. now rewrite H.
  - intros q H6 H8. rewrite scored_bucket.
    apply (num_ge_Fin q (inject_Z 60)) in H6.
    apply (num_ge_Fin_false q (inject_Z 80)) in H8.
    unfold of_Z. now rewrite H8, H6.
  - intros q H. rewrite scored_bucket.
    assert (H8 : (q < inject_Z 80)%Q).
    { eapply Qlt_le_trans; [exact H|]. unfold Qle. simpl. lia. }
    apply (num_ge_Fin_false q (inject_Z 60)) in H.
    apply (num_ge_Fin_false q (inject_Z 80)) in H8.
    unfold of_Z. now rewrite H8, H.
  - intros s1 s2 b1 b2 Hle. rewrite !scored_bucket. unfold num_le in Hle.
    assert (T : forall c, num_ge s1 c = true -> num_ge s2 c = true).
    { intros c Hc. exact (num_ge_trans _ _ _ Hle Hc). }
    destruct (num_ge s1 (of_Z 80)) eqn:E1.
    { rewrite (T _ E1). intros [= <-] [= <-]. simpl. lia. }
    destruct (num_ge s1 (of_Z 60)) eqn:E2.
    { rewrite (T _ E2). intros [= <-].
      destruct (num_ge s2 (of_Z 80)); intros [= <-]; simpl; lia. }
    intros [= <-] _. simpl. lia.
Qed.

Lemma bucket_total_monotone_witness :
  shown_bucket (scored initial_page (of_Z 92) "Verified") = Some high
  /\ shown_bucket (scored initial_page (Fin (140 # 2)) "Unclear") = Some medium
  /\ shown_bucket (scored initial_page (Fin (119 # 2)) "False") = Some low
  /\ bucket_rank medium <= bucket_rank high.
Proof.
  split; [|split; [|split]].
  - apply (bucket_total_monotone initial_page "Verified").
    unfold Qle. simpl. lia.
  - apply (bucket_total_monotone initial_page "Unclear").
    + unfold Qle. simpl. lia.
    + unfold Qlt. simpl. lia.
  - apply (bucket_total_monotone initial_page "False").
    unfold Qlt. simpl. lia.
  - destruct (bucket_total_monotone initial_page "Verified")
      as (_ & _ & _ & _ & mono).
    apply (mono (Fin (140 # 2)) (of_Z 92) medium high); reflexivity.
Defined.

(** ** Reasoning about methods *)

Lemma bind_normal {A B : Type} (c : M A) (k : A -> M B) (p : page) (a : A) :
  fst (c p) = Normal a -> bind c k p = k a (snd (c p)).
Proof. unfold bind. destruct (c p) as [[x|e] p']; simpl; congruence. Qed.

Lemma bind_throw {A B : Type} (c : M A) (k : A -> M B) (p : page) (e : exn) :
  fst (c p) = Throw e -> bind c k p = (Throw e, snd (c p)).
Proof. unfold bind. destruct (c p) as [[x|e'] p']; simpl; congruence. Qed.

Lemma bind_value {A B : Type} (c : M A) (k : A -> M B) (p p' : page) (a : A) :
  c p = (Normal a, p') -> bind c k p = k a p'.
Proof. intros H. unfold bind. now rewrite H. Qed.

Lemma bind_on_view {B : Type} (f : results_view -> results_view)
    (k : unit -> M B) (p : page) :
  bind (on_view f) k p = k tt (set_view (f (view p)) p).
Proof. reflexivity. Qed.

Lemma bind_bind {A B C : Type} (c : M A) (k : A -> M B) (h : B -> M C) (p : page) :
  bind (bind c k) h p = bind c (fun a => bind (k a) h) p.
Proof. unfold bind. destruct (c p) as [[a|e] p']; reflexivity. Qed.

Section Keeps.
Variable R : page -> page -> Prop.
Hypothesis R_refl : forall p, R p p.
Hypothesis R_trans : forall p q r, R p q -> R q r -> R p r.

Lemma keeps_ret {A : Type} (a : A) : keeps R (ret a).
Proof. intros p. apply R_refl. Qed.

Lemma keeps_throw {A : Type} (e : exn) : keeps R (@throw A e).
Proof. intros p. apply R_refl. Qed.

Lemma keeps_deref {A : Type} (what : string) (v : option A) :
  keeps R (deref what v).
Proof. destruct v; [apply keeps_ret | apply keeps_throw]. Qed.

Lemma keeps_bind {A B : Type} (c : M A) (k : A -> M B) :
  keeps R c -> (forall a, keeps R (k a)) -> keeps R (bind c k).
Proof.
  intros Hc Hk p. unfold bind. specialize (Hc p).
  destruct (c p) as [[a|e] p']; simpl in *; [|exact Hc].
  eapply R_trans; [exact Hc | apply Hk].
Qed.

Lemma keeps_modify (f : page -> page) :
  (forall p, R p (f p)) -> keeps R (modify f).
Proof. intros H p. apply H. Qed.

Lemma keeps_forEach_from {A : Type} (f : A -> nat -> M unit) (l : list A) :
  (forall x i, keeps R (f x i)) -> forall i, keeps R (forEach_from i l f).
Proof.
  intros Hf. induction l as [|x l IH]; intros i; simpl.
  - apply keeps_ret.
  - apply keeps_bind; [apply Hf | intros _; apply IH].
Qed.

Lemma keeps_map_M {A B : Type} (f : A -> M B) (l : list A) :
  (forall x, keeps R (f x)) -> keeps R (map_M f l).
Proof.
  intros Hf. induction l as [|x l IH]; simpl.
  - apply keeps_ret.
  - apply keeps_bind; [apply Hf | intros y].
    apply keeps_bind; [apply IH | intros ys; apply keeps_ret].
Qed.

(** The two callbacks that build an element write nothing. *)
Lemma keeps_claimElement (c : claim) (i : nat) : keeps R (claimElement c i).
Proof.
  unfold claimElement.
  apply keeps_bind; [apply keeps_deref | intros level].
  apply keeps_bind; [apply keeps_deref | intros techniques].
  apply keeps_ret.
Qed.

Lemma keeps_techniqueExplanation (i : insights) (tech : string) :
  keeps R (techniqueExplanation i tech).
Proof.
  unfold techniqueExplanation.
  apply keeps_bind; [apply keeps_deref | intros explanations].
  apply keeps_ret.
Qed.
End Keeps.

Lemma frame_refl (p : page) : frame p p.
Proof. repeat split. Qed.

Lemma frame_trans (p q r : page) : frame p q -> frame q r -> frame p r.
Proof. unfold frame. intuition congruence. Qed.

Lemma headline_refl (p : page) : headline p p.
Proof. repeat split. Qed.

Lemma headline_trans (p q r : page) : headline p q -> headline q r -> headline p r.
Proof. unfold headline. intuition congruence. Qed.

Lemma keeps_frame_on_view (f : results_view -> results_view) :
  keeps frame (on_view f).
Proof. intros p. repeat split. Qed.

Create HintDb keeps_db.

#[local] Hint Resolve frame_refl frame_trans headline_refl headline_trans
  : keeps_db.
#[local] Hint Resolve keeps_ret keeps_throw keeps_deref keeps_modify
  keeps_forEach_from keeps_map_M keeps_frame_on_view : keeps_db.

(** Goes through a method bind by bind; what is left are the writes that
    have no hint yet. *)
Ltac keeps_tac :=
  repeat
    match goal with
    | |- keeps _ (bind _ _) => apply keeps_bind
    | |- keeps _ (forEach_from _ _ _) => apply keeps_forEach_from
    | |- keeps _ (map_M _ _) => apply keeps_map_M
    | |- keeps _ (match ?x with _ => _ end) => destruct x
    | |- keeps _ _ => solve [eauto with keeps_db]
    | |- forall _ : page, _ => solve [eauto with keeps_db]
    | |- forall _, keeps _ _ => intro
    | |- forall _ _, keeps _ _ => intro
    end.

Lemma keeps_headline_on_view (f : results_view -> results_view) :
  (forall v,
     resultsSection_display (f v) = resultsSection_display v
     /\ trustScore_textContent (f v) = trustScore_textContent v
     /\ verdict_textContent (f v) = verdict_textContent v
     /\ verdict_className (f v) = verdict_className v
     /\ scoreCircle_className (f v) = scoreCircle_className v) ->
  keeps headline (on_view f).
Proof. intros H p. exact (H (view p)). Qed.

Ltac headline_write :=
  apply keeps_headline_on_view; intros ?; repeat split.

#[local] Hint Resolve keeps_claimElement keeps_techniqueExplanation : keeps_db.

Lemma keeps_frame_displayClaims (cs : option (list claim)) :
  keeps frame (displayClaims cs).
Proof. unfold displayClaims, forEach. keeps_tac. Qed.

Lemma keeps_headline_displayClaims (cs : option (list claim)) :
  keeps headline (displayClaims cs).
Proof. unfold displayClaims, forEach. keeps_tac; headline_write. Qed.

Lemma keeps_frame_displaySources (srcs : option (list string)) :
  keeps frame (displaySources srcs).
Proof. unfold displaySources, forEach. keeps_tac. Qed.

Lemma keeps_headline_displaySources (srcs : option (list string)) :
  keeps headline (displaySources srcs).
Proof. unfold displaySources, forEach. keeps_tac; headline_write. Qed.

Lemma keeps_frame_displayEducationalInsights (i : insights) :
  keeps frame (displayEducationalInsights i).
Proof. unfold displayEducationalInsights. keeps_tac. Qed.

Lemma keeps_headline_displayEducationalInsights (i : insights) :
  keeps headline (displayEducationalInsights i).
Proof. unfold displayEducationalInsights. keeps_tac; headline_write. Qed.

Lemma keeps_frame_updateTrustScore (score : option number) (v : string) :
  keeps frame (updateTrustScore score v).
Proof. unfold updateTrustScore. keeps_tac. Qed.

#[local] Hint Resolve keeps_frame_displayClaims keeps_headline_displayClaims
  keeps_frame_displaySources keeps_headline_displaySources
  keeps_frame_displayEducationalInsights
  keeps_headline_displayEducationalInsights
  keeps_frame_updateTrustScore : keeps_db.

Lemma keeps_frame_displayResults (r : verdict) : keeps frame (displayResults r).
Proof. unfold displayResults. keeps_tac. intros p. repeat split. Qed.

Lemma keeps_frame_switchTab (name : string) : keeps frame (switchTab name).
Proof. unfold switchTab. keeps_tac; intros p; repeat split. Qed.

Lemma kept_refl {X : Type} (g : results_view -> X) (p : page) : kept g p p.
Proof. reflexivity. Qed.

Lemma kept_trans {X : Type} (g : results_view -> X) (p q r : page) :
  kept g p q -> kept g q r -> kept g p r.
Proof. unfold kept. congruence. Qed.

Lemma keeps_kept_on_view {X : Type} (g : results_view -> X)
    (f : results_view -> results_view) :
  (forall v, g (f v) = g v) -> keeps (kept g) (on_view f).
Proof. intros H p. exact (H (view p)). Qed.

#[local] Hint Resolve kept_refl kept_trans : keeps_db.

Ltac kept_write := apply keeps_kept_on_view; intros ?; reflexivity.

(** *** When a method returns *)

Lemma returns_bind {A B : Type} (c : M A) (k : A -> M B) (p : page) :
  returns (bind c k) p
  = match fst (c p) with
    | Normal a => returns (k a) (snd (c p))
    | Throw _ => false
    end.
Proof. unfold returns, bind. destruct (c p) as [[a|e] p']; reflexivity. Qed.

Lemma returns_Normal (c : M unit) (p : page) :
  returns c p = true -> fst (c p) = Normal tt.
Proof. unfold returns. destruct (fst (c p)) as [[]|]; congruence. Qed.

Lemma returns_Throw {A : Type} (c : M A) (p : page) :
  returns c p = false -> exists e, fst (c p) = Throw e.
Proof. unfold returns. destruct (fst (c p)); [congruence | eauto]. Qed.

Lemma bind_returns {B : Type} (c : M unit) (k : unit -> M B) (p : page) :
  returns c p = true -> bind c k p = k tt (snd (c p)).
Proof. intros H. apply bind_normal, returns_Normal, H. Qed.

Lemma forEach_from_returns {A : Type} (f : A -> nat -> M unit) (l : list A) :
  (forall x i p, returns (f x i) p = true) ->
  forall i p, returns (forEach_from i l f) p = true.
Proof.
  intros Hf. induction l as [|x l IH]; intros i p; simpl; [reflexivity|].
  rewrite returns_bind, (returns_Normal _ _ (Hf x i p)). apply IH.
Qed.

Lemma updateTrustScore_returns (score : option number) (v : string) (p : page) :
  returns (updateTrustScore score v) p = true.
Proof.
  unfold updateTrustScore.
  destruct (num_ge (ToNumber score) (of_Z 80)) eqn:E8;
    [|destruct (num_ge (ToNumber score) (of_Z 60)) eqn:E6];
    unfold returns, bind; simpl; rewrite ?E8, ?E6; reflexivity.
Qed.

(** *** The claims *)

Lemma claim_ok_fields (c : claim) :
  claim_ok c = true ->
  exists level techniques,
    trust_level c = Some level /\ manipulation_techniques c = Some techniques.
Proof.
  unfold claim_ok. intros H. apply andb_prop in H as [H1 H2].
  apply bool_decide_eq_true in H1 as [level H1].
  apply bool_decide_eq_true in H2 as [techniques H2]. eauto.
Qed.

Lemma claimElement_ok (c : claim) (i : nat) (p : page) :
  claim_ok c = true -> claimElement c i p = (Normal (element_of i c), p).
Proof.
  intros H. destruct (claim_ok_fields c H) as (level & techniques & Hl & Ht).
  unfold claimElement, element_of. rewrite Hl, Ht. reflexivity.
Qed.

Lemma claimElement_throws (c : claim) (i : nat) (p : page) :
  claim_ok c = false -> exists what, claimElement c i p = (Throw (TypeError what), p).
Proof.
  unfold claim_ok, claimElement.
  destruct (trust_level c) as [level|]; [|eauto].
  destruct (manipulation_techniques c) as [techniques|]; [|eauto].
  intros H. exfalso. apply andb_false_iff in H.
  destruct H as [H|H]; apply bool_decide_eq_false in H; apply H; eauto.
Qed.

(** The loop of [displayClaims] over claims that are all there: one
    element is appended per claim, in the order of the claims. *)
Lemma displayClaims_loop (cs : list claim) :
  forallb claim_ok cs = true ->
  forall (i : nat) (p : page),
    forEach_from i cs
      (fun c index =>
         let* claimElement := claimElement c index in
         on_view (fun v => set_claimsList (claimsList v ++ [claimElement]) v)) p
    = (Normal tt,
       set_view
         (set_claimsList
            (claimsList (view p) ++ imap (fun j c => element_of (i + j) c) cs)
            (view p))
         p).
Proof.
  induction cs as [|c cs IH]; intros Hok i p.
  - simpl. rewrite app_nil_r. destruct p as [[] ?]; reflexivity.
  - simpl in Hok. apply andb_prop in Hok as [Hc Hcs].
    cbn [forEach_from]. unfold bind at 1.
    unfold bind at 1. rewrite (claimElement_ok c i p Hc).
    cbn [on_view modify]. rewrite (IH Hcs (S i)).
    assert (Hi : imap (fun j x => element_of (S (i + j)) x) cs
                 = imap ((fun j x => element_of (i + j) x) ∘ S) cs).
    { apply imap_ext. intros j x _. cbn. f_equal. lia. }
    destruct p as [[] ?]. cbn.
    rewrite <- app_assoc. cbn. rewrite Nat.add_0_r, Hi. reflexivity.
Qed.

Lemma displayClaims_ok (cs : list claim) (p : page) :
  forallb claim_ok cs = true ->
  displayClaims (Some cs) p
  = (Normal tt, set_view (set_claimsList (imap element_of cs) (view p)) p).
Proof.
  intros Hok. unfold displayClaims, forEach. cbn [deref].
  unfold bind at 1. cbn [on_view modify]. unfold bind at 1. cbn [ret].
  rewrite (displayClaims_loop cs Hok). destruct p as [[] ?]. reflexivity.
Qed.

Lemma displayClaims_loop_throws (cs : list claim) :
  forallb claim_ok cs = false ->
  forall (i : nat) (p : page),
    returns
      (forEach_from i cs
         (fun c index =>
            let* claimElement := claimElement c index in
            on_view (fun v => set_claimsList (claimsList v ++ [claimElement]) v)))
      p = false.
Proof.
  induction cs as [|c cs IH]; intros Hbad i p; [discriminate|].
  simpl in Hbad. cbn [forEach_from]. rewrite returns_bind.
  destruct (claim_ok c) eqn:Hc.
  - unfold bind at 1. rewrite (claimElement_ok c i p Hc). cbn.
    apply IH. exact Hbad.
  - destruct (claimElement_throws c i p Hc) as [what E].
    unfold bind at 1. rewrite E. reflexivity.
Qed.

Lemma displayClaims_returns (cs : option (list claim)) (p : page) :
  returns (displayClaims cs) p
  = match cs with
    | Some l => forallb claim_ok l
    | None => false
    end.
Proof.
  destruct cs as [l|]; [|reflexivity].
  destruct (forallb claim_ok l) eqn:Hok.
  - unfold returns. now rewrite (displayClaims_ok l p Hok).
  - unfold displayClaims, forEach. cbn [deref].
    rewrite returns_bind. cbn. rewrite returns_bind. cbn.
    apply displayClaims_loop_throws. exact Hok.
Qed.

(** *** The sources and the educational section *)

Lemma displaySources_returns (srcs : option (list string)) (p : page) :
  returns (displaySources srcs) p = bool_decide (is_Some srcs).
Proof.
  destruct srcs as [l|]; [|reflexivity].
  unfold displaySources, forEach. cbn [deref].
  rewrite returns_bind. cbn. rewrite returns_bind. cbn.
  apply forEach_from_returns. reflexivity.
Qed.

Lemma techniqueExplanation_ok (i : insights)
    (explanations : gmap string technique_explanation) (tech : string) (p : page) :
  technique_explanations i = Some explanations ->
  techniqueExplanation i tech p = (Normal (block_of explanations tech), p).
Proof. intros H. unfold techniqueExplanation. rewrite H. reflexivity. Qed.

Lemma techniques_map_ok (i : insights)
    (explanations : gmap string technique_explanation) (l : list string) (p : page) :
  technique_explanations i = Some explanations ->
  map_M (techniqueExplanation i) l p = (Normal (map (block_of explanations) l), p).
Proof.
  intros H. induction l as [|tech l IH]; [reflexivity|].
  cbn [map_M]. unfold bind at 1.
  rewrite (techniqueExplanation_ok i explanations tech p H).
  unfold bind at 1. rewrite IH. reflexivity.
Qed.

Lemma techniques_map_throws (i : insights) (tech : string) (l : list string)
    (p : page) :
  technique_explanations i = None ->
  returns (map_M (techniqueExplanation i) (tech :: l)) p = false.
Proof.
  intros H. cbn [map_M]. rewrite returns_bind.
  unfold techniqueExplanation. rewrite H. reflexivity.
Qed.

(** What [displayEducationalInsights] shows when techniques were detected
    and the table of explanations is there. *)
Lemma displayEducationalInsights_ok (i : insights)
    (explanations : gmap string technique_explanation)
    (tech : string) (techs : list string) (p : page) :
  manipulation_techniques_detected i = Some (tech :: techs) ->
  technique_explanations i = Some explanations ->
  fst (displayEducationalInsights i p) = Normal tt
  /\ educationalContent (view (exec (displayEducationalInsights i) p))
     = TechniquesDetected (map (block_of explanations) (tech :: techs))
       :: match verification_tips i with
          | Some tips => [VerificationTips tips]
          | None => []
          end.
Proof.
  intros Hd He. unfold exec, displayEducationalInsights. rewrite Hd.
  rewrite bind_on_view, bind_bind.
  rewrite (bind_value _ _ _ _ _
             (techniques_map_ok i explanations (tech :: techs) _ He)).
  destruct (verification_tips i); split; reflexivity.
Qed.

Lemma displayEducationalInsights_returns (i : insights) (p : page) :
  returns (displayEducationalInsights i) p = insights_ok i.
Proof.
  unfold insights_ok.
  destruct (manipulation_techniques_detected i) as [[|tech techs]|] eqn:Hd.
  - unfold displayEducationalInsights. rewrite Hd.
    destruct (verification_tips i); reflexivity.
  - destruct (technique_explanations i) as [explanations|] eqn:He.
    + unfold returns.
      now rewrite (proj1 (displayEducationalInsights_ok i _ _ _ p Hd He)).
    + unfold displayEducationalInsights. rewrite Hd.
      rewrite returns_bind. cbn [on_view modify fst snd].
      rewrite returns_bind, returns_bind.
      pose proof (techniques_map_throws i tech techs
                    (set_view (set_educationalContent [] (view p)) p) He) as T.
      apply returns_Throw in T as [e T].
      now rewrite (bind_throw _ _ _ _ T).
  - unfold displayEducationalInsights. rewrite Hd.
    destruct (verification_tips i); reflexivity.
Qed.

(** *** [displayResults] *)

(** [displayResults] returns exactly on the responses in which every
    field it dereferences is there. *)
Lemma displayResults_returns (r : verdict) (p : page) :
  returns (displayResults r) p = renderable r.
Proof.
  unfold displayResults, renderable.
  rewrite returns_bind. cbn [on_view modify fst snd].
  rewrite returns_bind, (returns_Normal _ _ (updateTrustScore_returns _ _ _)).
  rewrite returns_bind.
  pose proof (displayClaims_returns (claims r)) as Hc.
  match goal with |- context [displayClaims (claims r) ?q] =>
    specialize (Hc q); set (p1 := q) in * end.
  destruct (returns (displayClaims (claims r)) p1) eqn:E1.
  - rewrite (returns_Normal _ _ E1), <- Hc. cbn [andb].
    rewrite returns_bind. cbn [on_view modify fst snd].
    rewrite returns_bind.
    match goal with |- context [displaySources (sources r) ?q] =>
      pose proof (displaySources_returns (sources r) q) as Hs;
      set (p2 := q) in * end.
    destruct (returns (displaySources (sources r)) p2) eqn:E2.
    + rewrite (returns_Normal _ _ E2), <- Hs. cbn [andb].
      rewrite returns_bind.
      destruct (educational_insights r) as [i|].
      * match goal with |- context [displayEducationalInsights i ?q] =>
          pose proof (displayEducationalInsights_returns i q) as Hi;
          set (p3 := q) in * end.
        destruct (returns (displayEducationalInsights i) p3) eqn:E3.
        -- now rewrite (returns_Normal _ _ E3), <- Hi.
        -- apply returns_Throw in E3 as [e E3]. now rewrite E3, <- Hi.
      * reflexivity.
    + apply returns_Throw in E2 as [e E2]. now rewrite E2, <- Hs.
  - apply returns_Throw in E1 as [e E1]. now rewrite E1, <- Hc.
Qed.

Lemma displayResults_tail_headline (r : verdict) :
  keeps headline
    (displayClaims (claims r) ;;;
     on_view (set_explanationText_textContent (explanation r)) ;;;
     displaySources (sources r) ;;;
     match educational_insights r with
     | Some i => displayEducationalInsights i
     | None => ret tt
     end ;;;
     modify (fun p => set_scrolls (S (scrolls p)) p)).
Proof. keeps_tac; try headline_write. intros p. repeat split. Qed.

(** The score, the verdict and the colour of every response that reaches
    [displayResults] are on the page afterwards, whether the rest of the
    rendering throws or not. *)
Lemma displayResults_headline (r : verdict) (p : page) :
  let p' := exec (displayResults r) p in
  resultsSection_display (view p') = "block"
  /\ shown_score p' = Some (Math_round (ToNumber (overall_trust_score r)))
  /\ verdict_textContent (view p') = overall_verdict r
  /\ shown_bucket p'
     = Some (if num_ge (ToNumber (overall_trust_score r)) (of_Z 80) then high
             else if num_ge (ToNumber (overall_trust_score r)) (of_Z 60)
                  then medium else low).
Proof.
  intros p'.
  set (p1 := exec (updateTrustScore (overall_trust_score r) (overall_verdict r))
               (set_view (set_resultsSection_display "block" (view p)) p)).
  assert (Hh : headline p1 p').
  { subst p' p1. unfold exec, displayResults.
    rewrite bind_on_view.
    rewrite (bind_returns _ _ _ (updateTrustScore_returns _ _ _)).
    apply displayResults_tail_headline. }
  destruct Hh as (H1 & H2 & H3 & _ & H5).
  unfold shown_score, shown_bucket. rewrite H1, H2, H3, H5.
  subst p1. unfold exec, updateTrustScore.
  destruct (num_ge (ToNumber (overall_trust_score r)) (of_Z 80));
    [|destruct (num_ge (ToNumber (overall_trust_score r)) (of_Z 60))];
    repeat split.
Qed.

(** ** C1: a score outside 0..100 *)

(** C1, as stated, fails: a response with [overall_trust_score = 150] is
    rendered with the bucket high, but the score on the page is 150 and
    not 100. *)
Lemma score_150_shown_unclamped :
  returns (displayResults (sample_verdict 150 "Verified")) initial_page = true
  /\ shown_bucket (exec (displayResults (sample_verdict 150 "Verified")) initial_page)
     = Some high
  /\ shown_score (exec (displayResults (sample_verdict 150 "Verified")) initial_page)
     = Some (of_Z 150)
  /\ shown_score (exec (displayResults (sample_verdict 150 "Verified")) initial_page)
     <> Some (of_Z 100).
Proof. vm_compute. repeat split. discriminate. Qed.

(** C1, amended.  A response whose score is a finite number outside
    [0, 100] is not rejected on account of the score (rendering returns
    exactly when the fields it dereferences are there), and nothing is
    clamped: the page shows the score rounded to the nearest integer, which
    is above 100 from 100.5 on and below 0 under -0.5; the bucket is high
    above 100 and low below 0. *)
Theorem out_of_range_score_rounded_not_clamped (p : page) (r : verdict) (q : Q) :
  overall_trust_score r = Some (Fin q) ->
  (q < 0 \/ 100 < q)%Q ->
  returns (displayResults r) p = renderable r
  /\ shown_score (exec (displayResults r) p) = Some (of_Z (Qfloor (q + (1 # 2))))
  /\ ((100 < q)%Q -> shown_bucket (exec (displayResults r) p) = Some high)
  /\ ((q < 0)%Q -> shown_bucket (exec (displayResults r) p) = Some low)
  /\ ((201 # 2 <= q)%Q -> (100 < Qfloor (q + (1 # 2)))%Z)
  /\ ((q < - (1 # 2))%Q -> (Qfloor (q + (1 # 2)) < 0)%Z).
Proof.
  intros Hs _. split; [apply displayResults_returns|].
  destruct (displayResults_headline r p) as (_ & Hscore & _ & Hb).
  rewrite Hs in Hscore, Hb. cbn [ToNumber] in Hscore, Hb.
  split; [exact Hscore|]. rewrite Hb. repeat split.
  - intros H. assert (H8 : (inject_Z 80 <= q)%Q).
    { apply Qlt_le_weak. eapply Qle_lt_trans; [|exact H]. unfold Qle. simpl. lia. }
    apply (num_ge_Fin q (inject_Z 80)) in H8. unfold of_Z. now rewrite H8.
  - intros H. assert (H6 : (q < inject_Z 60)%Q).
    { eapply Qlt_le_trans; [exact H|]. unfold Qle. simpl. lia. }
    assert (H8 : (q < inject_Z 80)%Q).
    { eapply Qlt_le_trans; [exact H|]. unfold Qle. simpl. lia. }
    apply (num_ge_Fin_false q (inject_Z 60)) in H6.
    apply (num_ge_Fin_false q (inject_Z 80)) in H8.
    unfold of_Z. now rewrite H8, H6.
  - intros H. assert (H1 : (inject_Z 101 <= q + (1 # 2))%Q).
    { change (inject_Z 101) with (101 # 1). lra. }
    apply Qfloor_resp_le in H1. rewrite Qfloor_Z in H1. lia.
  - intros H. pose proof (Qfloor_le (q + (1 # 2))) as H1.
    assert (H2 : (inject_Z (Qfloor (q + (1 # 2))) < inject_Z 0)%Q).
    { eapply Qle_lt_trans; [exact H1|]. change (inject_Z 0) with (0 # 1). lra. }
    rewrite <- Zlt_Qlt in H2. exact H2.
Qed.

Lemma out_of_range_score_rounded_not_clamped_witness :
  shown_score (exec (displayResults (sample_verdict 150 "Verified")) initial_page)
  = Some (of_Z (Qfloor (inject_Z 150 + (1 # 2)))).
Proof.
  apply (out_of_range_score_rounded_not_clamped initial_page
           (sample_verdict 150 "Verified") (inject_Z 150)).
  - reflexivity.
  - right. unfold Qlt. simpl. lia.
Defined.

(** ** C2: an empty submission *)

Lemma blank_trimStart (s : string) : blank s = true -> trimStart s = "".
Proof.
  induction s as [|c s IH]; simpl; [reflexivity|].
  intros H. apply andb_prop in H as [Hc Hs]. rewrite Hc. apply IH, Hs.
Qed.

Lemma blank_trim (s : string) : blank s = true -> trim s = "".
Proof. intros H. unfold trim. now rewrite (blank_trimStart s H). Qed.

Lemma trimStart_head (s : string) :
  trimStart s = "" \/
  exists c rest, trimStart s = String c rest /\ is_white_space c = false.
Proof.
  induction s as [|c s IH]; simpl; [now left|].
  destruct (is_white_space c) eqn:E; [exact IH|]. right. eauto.
Qed.

Lemma trimStart_blank (s : string) : trimStart s = "" -> blank s = true.
Proof.
  induction s as [|c s IH]; simpl; [reflexivity|].
  destruct (is_white_space c); [exact IH | discriminate].
Qed.

(** [trim] leaves nothing exactly of the texts that are empty or white
    space only. *)
Lemma trim_empty_iff_blank (s : string) : trim s = "" <-> blank s = true.
Proof.
  split; [|apply blank_trim].
  unfold trim. intros H. apply trimStart_blank.
  destruct (trimStart_head s) as [E|(c & rest & E & Hc)]; [exact E|].
  rewrite E in H. simpl in H. rewrite Hc in H.
  destruct (trimEnd rest); discriminate.
Qed.

(** C2.  When the text area holds an empty or white-space-only text, a
    click on Analyze shows the warning and nothing else happens: no call of
    [fetch] is made, no task is started, and the loading modal and the
    results are as before. *)
Theorem blank_text_is_not_submitted (p : page) :
  blank (contentInput_value (inputs p)) = true ->
  network (step p ClickAnalyze) = network p
  /\ length (network (step p ClickAnalyze)) - length (network p) = 0
  /\ tasks (step p ClickAnalyze) = tasks p
  /\ body_alerts (step p ClickAnalyze) = (body_alerts p ++ [empty_content_alert])%list
  /\ loadingModal_display (step p ClickAnalyze) = loadingModal_display p
  /\ view (step p ClickAnalyze) = view p.
Proof.
  intros H. apply blank_trim in H.
  unfold step, call, analyzeText, bind, gets. rewrite H. cbn.
  repeat split. lia.
Qed.

Lemma blank_text_is_not_submitted_witness :
  network (step (step initial_page (EditContent white_text)) ClickAnalyze) = []
  /\ body_alerts (step (step initial_page (EditContent white_text)) ClickAnalyze)
     = [empty_content_alert].
Proof.
  pose proof (blank_text_is_not_submitted
                (step initial_page (EditContent white_text)) eq_refl)
    as (Hn & _ & _ & Ha & _).
  split; [exact Hn | exact Ha].
Defined.

(** ** C6 and C4: the list of claims *)

Lemma displayResults_after_claims_kept (r : verdict) :
  keeps (kept claimsList)
    (on_view (set_explanationText_textContent (explanation r)) ;;;
     displaySources (sources r) ;;;
     match educational_insights r with
     | Some i => displayEducationalInsights i
     | None => ret tt
     end ;;;
     modify (fun p => set_scrolls (S (scrolls p)) p)).
Proof.
  unfold displaySources, displayEducationalInsights, forEach.
  keeps_tac; try kept_write. intros p. reflexivity.
Qed.

(** The claims a response is shown with, when none of them lacks a field
    the callback dereferences. *)
Lemma displayResults_claims (r : verdict) (cs : list claim) (p : page) :
  claims r = Some cs ->
  forallb claim_ok cs = true ->
  claimsList (view (exec (displayResults r) p)) = imap element_of cs.
Proof.
  intros Hc Hok. unfold exec, displayResults.
  rewrite bind_on_view.
  rewrite (bind_returns _ _ _ (updateTrustScore_returns _ _ _)).
  rewrite Hc.
  erewrite bind_value; [|apply displayClaims_ok; exact Hok].
  rewrite (displayResults_after_claims_kept r _). reflexivity.
Qed.

Lemma element_of_fields (i : nat) (c : claim) :
  claim_ok c = true ->
  ce_index (element_of i c) = i + 1
  /\ ce_text (element_of i c) = claim_text c
  /\ ce_explanation (element_of i c) = claim_explanation c
  /\ Some (ce_status (element_of i c)) = trust_level c
  /\ ce_confidence (element_of i c) = Math_round (ToNumber (confidence c))
  /\ Some (default [] (ce_techniques (element_of i c))) = manipulation_techniques c.
Proof.
  intros H. destruct (claim_ok_fields c H) as (level & techniques & Hl & Ht).
  unfold element_of. rewrite Hl, Ht. cbn.
  repeat split. now destruct techniques.
Qed.

(** C6.  The claims of a response are rendered one element per claim and
    in the order of the response: the element at position [i] carries the
    number [i + 1] and the text, explanation, level, rounded confidence and
    techniques of the claim at position [i]; nothing is added, left out or
    moved. *)
Theorem claims_rendered_in_order (p : page) (r : verdict) (cs : list claim) :
  claims r = Some cs ->
  forallb claim_ok cs = true ->
  length (claimsList (view (exec (displayResults r) p))) = length cs
  /\ (forall (i : nat) (c : claim),
        cs !! i = Some c ->
        exists e : claim_element,
          claimsList (view (exec (displayResults r) p)) !! i = Some e
          /\ ce_index e = i + 1
          /\ ce_text e = claim_text c
          /\ ce_explanation e = claim_explanation c
          /\ Some (ce_status e) = trust_level c
          /\ ce_confidence e = Math_round (ToNumber (confidence c))
          /\ Some (default [] (ce_techniques e)) = manipulation_techniques c)
  /\ map ce_text (claimsList (view (exec (displayResults r) p)))
     = map claim_text cs.
Proof.
  intros Hc Hok. rewrite (displayResults_claims r cs p Hc Hok).
  split; [apply length_imap|]. split.
  - intros i c Hi. exists (element_of i c).
    rewrite list_lookup_imap, Hi. split; [reflexivity|].
    apply element_of_fields.
    rewrite forallb_forall in Hok. apply Hok.
    apply list_elem_of_In. eapply list_elem_of_lookup_2, Hi.
  - assert (G : forall f : nat -> claim -> claim_element,
               (forall j c, ce_text (f j c) = claim_text c) ->
               map ce_text (imap f cs) = map claim_text cs).
    { clear. induction cs as [|c cs IH]; intros f Hf; [reflexivity|].
      cbn. rewrite Hf. f_equal. apply IH. intros j x. apply Hf. }
    apply G. reflexivity.
Qed.

Lemma claims_rendered_in_order_witness :
  map ce_text (claimsList (view (exec (displayResults three_claims) initial_page)))
  = ["zebra"; "apple"; "mango"].
Proof.
  apply (claims_rendered_in_order initial_page three_claims
           (default [] (claims three_claims))); reflexivity.
Defined.

(** C4, as stated, fails: a claim whose [trust_level] is ["unknown"] gets
    the class and the label [unknown], not medium. *)
Lemma unknown_level_not_mapped_to_medium :
  map ce_className
    (claimsList (view (exec (displayResults three_claims) initial_page)))
  = ["claim-item low"; "claim-item unknown"; "claim-item high"]
  /\ map ce_status
       (claimsList (view (exec (displayResults three_claims) initial_page)))
     = ["LOW"; "unknown"; "High"]
  /\ (claimsList (view (exec (displayResults three_claims) initial_page))
        !! 1%nat) ≫= (fun e => Some (ce_className e))
     <> Some "claim-item medium".
Proof. vm_compute. repeat split. discriminate. Qed.

Lemma append_inj_r (pre a b : string) : pre ++ a = pre ++ b -> a = b.
Proof.
  induction pre as [|c pre IH]; simpl; [tauto|].
  intros [= H]. apply IH, H.
Qed.

(** C4, amended.  The level of a claim is lower-cased into the class of
    its element and of its status label, and shown as sent in the label:
    the levels that read high, medium or low whatever the letter case get
    these three classes, and any other level keeps its own lower-cased
    name; it gets neither the class of medium nor that of high. *)
Theorem trust_level_lowercased_not_defaulted
    (p : page) (r : verdict) (cs : list claim) (i : nat) (c : claim)
    (level : string) :
  claims r = Some cs ->
  forallb claim_ok cs = true ->
  cs !! i = Some c ->
  trust_level c = Some level ->
  exists e : claim_element,
    claimsList (view (exec (displayResults r) p)) !! i = Some e
    /\ ce_className e = "claim-item " ++ toLowerCase level
    /\ ce_status_className e = "claim-status " ++ toLowerCase level
    /\ ce_status e = level
    /\ (forall b : bucket,
          toLowerCase level = bucket_name b ->
          ce_className e = "claim-item " ++ bucket_name b)
    /\ (forall b : bucket,
          toLowerCase level <> bucket_name b ->
          ce_className e <> "claim-item " ++ bucket_name b
          /\ ce_status_className e <> "claim-status " ++ bucket_name b).
Proof.
  intros Hc Hok Hi Hl. exists (element_of i c).
  split.
  { now rewrite (displayResults_claims r cs p Hc Hok), list_lookup_imap, Hi. }
  unfold element_of. rewrite Hl.
  cbn [default from_option id ce_className ce_status_className ce_status].
  do 3 (split; [reflexivity|]). split.
  - intros b Hb. now rewrite Hb.
  - intros b Hne. split; intros E; apply append_inj_r in E; contradiction.
Qed.

Lemma trust_level_lowercased_not_defaulted_witness :
  exists e : claim_element,
    claimsList (view (exec (displayResults three_claims) initial_page)) !! 1%nat
    = Some e
    /\ ce_className e = "claim-item unknown"
    /\ ce_status e = "unknown"
    /\ ce_className e <> "claim-item medium"
    /\ ce_className e <> "claim-item high".
Proof.
  destruct (trust_level_lowercased_not_defaulted initial_page three_claims
              (default [] (claims three_claims)) 1
              (sample_claim "apple" "unknown") "unknown"
              eq_refl eq_refl eq_refl eq_refl)
    as (e & He & Hc & _ & Hs & _ & Hother).
  exists e. split; [exact He|]. split; [exact Hc|]. split; [exact Hs|]. split.
  - apply (Hother medium). discriminate.
  - apply (Hother high). discriminate.
Defined.

(** ** The [try] block of the two asynchronous methods *)

Lemma in_try_parked (m : modality) (segment : M progress) (p p1 : page) (t : task) :
  segment p = (Normal (Parked t), p1) ->
  in_try m segment p = (Normal (Parked t), p1).
Proof. intros H. unfold in_try. now rewrite H. Qed.

Lemma in_try_completed (m : modality) (segment : M progress) (p p1 : page) :
  segment p = (Normal Completed, p1) ->
  in_try m segment p = (Normal Completed, set_loadingModal_display "none" p1).
Proof. intros H. unfold in_try. now rewrite H. Qed.

Lemma in_try_throw (m : modality) (segment : M progress) (p p1 : page) (e : exn) :
  segment p = (Throw e, p1) ->
  in_try m segment p
  = (Normal Completed,
     set_loadingModal_display "none"
       (set_body_alerts (body_alerts p1 ++ [failure_alert m])
          (set_console (console p1 ++ [(error_label m, e)]) p1))).
Proof. intros H. unfold in_try. rewrite H. now destruct m. Qed.

(** A segment that does not park again ends with the loading modal
    hidden. *)
Lemma in_try_settles (m : modality) (segment : M progress) (p : page) :
  (forall t, fst (segment p) <> Normal (Parked t)) ->
  fst (in_try m segment p) = Normal Completed
  /\ loadingModal_display (snd (in_try m segment p)) = "none".
Proof.
  intros H. destruct (segment p) as [[[t|]|e] p1] eqn:E.
  - exfalso. apply (H t). reflexivity.
  - now rewrite (in_try_completed m segment p p1 E).
  - now rewrite (in_try_throw m segment p p1 e E).
Qed.

(** The page on which [after_json] starts to render: the text tab is
    selected first in image mode. *)
Lemma after_json_resolves (m : modality) (r : verdict) (p : page) :
  exists p0 : page,
    frame p p0
    /\ after_json m (JsonResolves r) p
       = in_try m (fun _ =>
                     (match fst (displayResults r p0) with
                      | Normal _ => Normal Completed
                      | Throw e => Throw e
                      end, snd (displayResults r p0))) p.
Proof.
  destruct m.
  - exists p. split; [apply frame_refl|].
    unfold after_json, in_try, bind.
    destruct (displayResults r p) as [[[]|e] p1]; reflexivity.
  - exists (exec (switchTab "text") p). split; [apply keeps_frame_switchTab|].
    unfold after_json, in_try, bind, exec. cbn -[displayResults].
    match goal with |- context [displayResults r ?q] =>
      destruct (displayResults r q) as [[[]|e] p1] end; reflexivity.
Qed.

(** What the arrival of a response does to the page. *)
Lemma json_resolves_step (p : page) (id : nat) (m : modality) (r : verdict) :
  tasks p !! id = Some (AwaitJson m) ->
  exists p0 : page,
    frame p p0
    /\ view (step p (JsonSettles id (JsonResolves r)))
       = view (exec (displayResults r) p0)
    /\ loadingModal_display (step p (JsonSettles id (JsonResolves r))) = "none"
    /\ tasks (step p (JsonSettles id (JsonResolves r)))
       = <[id := Finished]> (tasks p)
    /\ network (step p (JsonSettles id (JsonResolves r))) = network p
    /\ (renderable r = true ->
        body_alerts (step p (JsonSettles id (JsonResolves r))) = body_alerts p
        /\ console (step p (JsonSettles id (JsonResolves r))) = console p)
    /\ (renderable r = false ->
        body_alerts (step p (JsonSettles id (JsonResolves r)))
        = (body_alerts p ++ [failure_alert m])%list
        /\ exists e : exn,
             console (step p (JsonSettles id (JsonResolves r)))
             = (console p ++ [(error_label m, e)])%list).
Proof.
  intros Ht. destruct (after_json_resolves m r p) as (p0 & Hf & E).
  exists p0. split; [exact Hf|].
  cbn [step]. rewrite Ht. unfold resume. rewrite E. clear E.
  pose proof (keeps_frame_displayResults r p0) as Hk.
  pose proof (displayResults_returns r p0) as Hr. unfold returns in Hr.
  assert (F : frame p (snd (displayResults r p0))).
  { eapply frame_trans; [exact Hf | exact Hk]. }
  destruct F as (_ & _ & Fa & Fn & Fc & Ft).
  destruct (displayResults r p0) as [[[]|e] p1] eqn:Ed; cbn [fst snd] in *.
  - erewrite in_try_completed; [|reflexivity]. unfold exec. rewrite Ed. cbn.
    rewrite Fa, Fn, Fc, Ft. repeat split; congruence.
  - erewrite in_try_throw; [|reflexivity]. unfold exec. rewrite Ed. cbn.
    rewrite Fa, Fn, Fc, Ft. repeat split; try congruence. eauto.
Qed.

(** ** C7: a response with a structural error *)

(** C7, as stated, fails: the response without its [claims] array makes
    the whole pipeline end with the failure alert, yet the results section
    is shown with the score and the verdict of that response; and the
    response without its score is rendered without any failure, the score
    reading NaN. *)
Lemma malformed_response_partly_rendered :
  renderable verdict_without_claims = false
  /\ resultsSection_display
       (view (run initial_page
                [EditContent "some text"; ClickAnalyze;
                 FetchSettles 0 (FetchResolves true 200);
                 JsonSettles 0 (JsonResolves verdict_without_claims)]))
     = "block"
  /\ shown_score
       (run initial_page
          [EditContent "some text"; ClickAnalyze;
           FetchSettles 0 (FetchResolves true 200);
           JsonSettles 0 (JsonResolves verdict_without_claims)])
     = Some (of_Z 42)
  /\ verdict_textContent
       (view (run initial_page
                [EditContent "some text"; ClickAnalyze;
                 FetchSettles 0 (FetchResolves true 200);
                 JsonSettles 0 (JsonResolves verdict_without_claims)]))
     = "Misleading"
  /\ body_alerts
       (run initial_page
          [EditContent "some text"; ClickAnalyze;
           FetchSettles 0 (FetchResolves true 200);
           JsonSettles 0 (JsonResolves verdict_without_claims)])
     = [failure_alert TextMode]
  /\ shown_score
       (run initial_page
          [EditContent "some text"; ClickAnalyze;
           FetchSettles 0 (FetchResolves true 200);
           JsonSettles 0 (JsonResolves verdict_without_score)])
     = Some NaN
  /\ body_alerts
       (run initial_page
          [EditContent "some text"; ClickAnalyze;
           FetchSettles 0 (FetchResolves true 200);
           JsonSettles 0 (JsonResolves verdict_without_score)])
     = [].
Proof. vm_compute. repeat split. Qed.

(** ** C8: two submissions in flight *)

(** C8, as stated, fails: the answer to the first submission arrives after
    the answer to the second, and the page ends up showing the first
    one. *)
Lemma overtaken_response_not_discarded :
  map req_body (network (run initial_page overtaken))
  = [JsonBody "first text" "text" "en" true;
     JsonBody "second text" "text" "en" true]
  /\ verdict_textContent (view (run initial_page overtaken)) = "False"
  /\ shown_score (run initial_page overtaken) = Some (of_Z 15)
  /\ verdict_textContent (view (run initial_page overtaken)) <> "Verified".
Proof. vm_compute. repeat split. discriminate. Qed.

(** C8, amended.  No response is discarded and nothing ties a response to
    the submission that is current: each response is rendered when it
    arrives.  With two submissions waiting for their responses, when the
    response to the earlier one arrives after the response to the later
    one, the page ends up showing the earlier submission's result. *)
Theorem last_arrived_response_is_shown
    (p : page) (id1 id2 : nat) (m1 m2 : modality) (r1 r2 : verdict) :
  id1 < id2 ->
  tasks p !! id1 = Some (AwaitJson m1) ->
  tasks p !! id2 = Some (AwaitJson m2) ->
  shown_score
    (run p [JsonSettles id2 (JsonResolves r2); JsonSettles id1 (JsonResolves r1)])
  = Some (Math_round (ToNumber (overall_trust_score r1)))
  /\ verdict_textContent
       (view (run p [JsonSettles id2 (JsonResolves r2);
                     JsonSettles id1 (JsonResolves r1)]))
     = overall_verdict r1
  /\ (forall cs : list claim,
        claims r1 = Some cs -> forallb claim_ok cs = true ->
        claimsList
          (view (run p [JsonSettles id2 (JsonResolves r2);
                        JsonSettles id1 (JsonResolves r1)]))
        = imap element_of cs).
Proof.
  intros Hlt H1 H2. cbn [run foldl].
  destruct (json_resolves_step p id2 m2 r2 H2) as (_ & _ & _ & _ & Ht & _).
  assert (H1' : tasks (step p (JsonSettles id2 (JsonResolves r2))) !! id1
                = Some (AwaitJson m1)).
  { rewrite Ht, list_lookup_insert_ne; [exact H1 | lia]. }
  destruct (json_resolves_step _ id1 m1 r1 H1') as (p0 & _ & Hv & _).
  destruct (displayResults_headline r1 p0) as (_ & Hs & Hd & _).
  unfold shown_score in *. rewrite Hv.
  split; [exact Hs|]. split; [exact Hd|].
  intros cs Hc Hok. apply displayResults_claims; assumption.
Qed.

Lemma last_arrived_response_is_shown_witness :
  verdict_textContent
    (view (run (run initial_page
                  [EditContent "first text"; ClickAnalyze;
                   EditContent "second text"; ClickAnalyze;
                   FetchSettles 1 (FetchResolves true 200);
                   FetchSettles 0 (FetchResolves true 200)])
             [JsonSettles 1 (JsonResolves (sample_verdict 92 "Verified"));
              JsonSettles 0 (JsonResolves (sample_verdict 15 "False"))]))
  = "False".
Proof.
  apply (last_arrived_response_is_shown
           (run initial_page
              [EditContent "first text"; ClickAnalyze;
               EditContent "second text"; ClickAnalyze;
               FetchSettles 1 (FetchResolves true 200);
               FetchSettles 0 (FetchResolves true 200)])
           0 1 TextMode TextMode
           (sample_verdict 15 "False") (sample_verdict 92 "Verified")).
  - lia.
  - reflexivity.
  - reflexivity.
Defined.

(** ** C10: the loading modal *)

(** C10.  Whenever an analysis ends, in text or in image mode, the loading
    modal is hidden and the task is finished: when [fetch] is rejected,
    when the response is not [ok], when [response.json()] is rejected, and
    when the response was handed to [displayResults], whether that threw or
    not. *)
Theorem loading_hidden_when_analysis_ends (p : page) (id : nat) (m : modality) :
  (tasks p !! id = Some (AwaitFetch m) ->
   forall reason : string,
     loadingModal_display (step p (FetchSettles id (FetchRejects reason))) = "none"
     /\ tasks (step p (FetchSettles id (FetchRejects reason))) !! id
        = Some Finished)
  /\ (tasks p !! id = Some (AwaitFetch m) ->
      forall status : Z,
        loadingModal_display
          (step p (FetchSettles id (FetchResolves false status))) = "none"
        /\ tasks (step p (FetchSettles id (FetchResolves false status))) !! id
           = Some Finished)
  /\ (tasks p !! id = Some (AwaitJson m) ->
      forall res : json_result,
        loadingModal_display (step p (JsonSettles id res)) = "none"
        /\ tasks (step p (JsonSettles id res)) !! id = Some Finished).
Proof.
  assert (L : forall t, tasks p !! id = Some t ->
                        <[id := Finished]> (tasks p) !! id = Some Finished).
  { intros t Ht. apply list_lookup_insert_eq. eapply lookup_lt_Some, Ht. }
  split; [|split].
  - intros Ht reason. cbn [step]. rewrite Ht.
    unfold resume, after_fetch. erewrite in_try_throw; [|reflexivity].
    cbn. split; [reflexivity | exact (L _ Ht)].
  - intros Ht status. cbn [step]. rewrite Ht.
    unfold resume, after_fetch. erewrite in_try_throw; [|reflexivity].
    cbn. split; [reflexivity | exact (L _ Ht)].
  - intros Ht [reason|r].
    + cbn [step]. rewrite Ht.
      unfold resume, after_json. erewrite in_try_throw; [|reflexivity].
      cbn. split; [reflexivity | exact (L _ Ht)].
    + destruct (json_resolves_step p id m r Ht) as (_ & _ & _ & Hl & Hk & _).
      split; [exact Hl|]. rewrite Hk. exact (L _ Ht).
Qed.

Lemma loading_hidden_when_analysis_ends_witness :
  loadingModal_display
    (run initial_page [EditContent "some text"; ClickAnalyze]) = "flex"
  /\ loadingModal_display
       (step (run initial_page [EditContent "some text"; ClickAnalyze])
          (FetchSettles 0 (FetchRejects "Failed to fetch"))) = "none"
  /\ loadingModal_display
       (step (run initial_page [EditContent "some text"; ClickAnalyze])
          (FetchSettles 0 (FetchResolves false 500))) = "none"
  /\ loadingModal_display
       (step (run initial_page
                [EditContent "some text"; ClickAnalyze;
                 FetchSettles 0 (FetchResolves true 200)])
          (JsonSettles 0 (JsonRejects "Unexpected token"))) = "none".
Proof.
  split; [reflexivity|].
  destruct (loading_hidden_when_analysis_ends
              (run initial_page [EditContent "some text"; ClickAnalyze])
              0 TextMode) as (Hrej & Hhttp & _).
  destruct (loading_hidden_when_analysis_ends
              (run initial_page
                 [EditContent "some text"; ClickAnalyze;
                  FetchSettles 0 (FetchResolves true 200)])
              0 TextMode) as (_ & _ & Hjson).
  split; [exact (proj1 (Hrej eq_refl "Failed to fetch"))|].
  split; [exact (proj1 (Hhttp eq_refl 500%Z))|].
  exact (proj1 (Hjson eq_refl (JsonRejects "Unexpected token"))).
Defined.

(** ** C9: the detected techniques *)

(** C9, as stated, fails: the table has an entry for ["fear"], but its
    description is empty and the block shows the default text instead of
    it. *)
Lemma empty_description_replaced_by_default :
  (technique_explanations sample_insights ≫= (fun t => t !! "fear"))
    ≫= description = Some ""
  /\ educationalContent
       (view (exec (displayEducationalInsights sample_insights) initial_page))
     = [TechniquesDetected
          [ {| tv_name := "fear";
               tv_description := "Technique used to mislead readers";
               tv_tips := None |};
            {| tv_name := "urgency";
               tv_description := "Pushes to act at once";
               tv_tips := Some "pause, check the date" |};
            {| tv_name := "bandwagon";
               tv_description := "Technique used to mislead readers";
               tv_tips := None |} ]]
  /\ "Technique used to mislead readers" <> "".
Proof. vm_compute. repeat split. discriminate. Qed.

(** Without the table of explanations, the first detected technique makes
    [displayEducationalInsights] throw, and no technique is shown. *)
Lemma techniques_without_table_throw (i : insights) (tech : string)
    (techs : list string) (p : page) :
  manipulation_techniques_detected i = Some (tech :: techs) ->
  technique_explanations i = None ->
  returns (displayEducationalInsights i) p = false
  /\ educationalContent (view (exec (displayEducationalInsights i) p)) = [].
Proof.
  intros Hd He. split.
  - rewrite displayEducationalInsights_returns. unfold insights_ok.
    now rewrite Hd, He.
  - unfold exec, displayEducationalInsights. rewrite Hd, bind_on_view, bind_bind.
    cbn [map_M]. rewrite bind_bind. unfold techniqueExplanation at 1.
    rewrite He. reflexivity.
Qed.

Lemma block_of_description (explanations : gmap string technique_explanation)
    (tech : string) :
  (forall e d, explanations !! tech = Some e -> description e = Some d -> d <> "" ->
               tv_description (block_of explanations tech) = d)
  /\ (explanations !! tech = None ->
      tv_description (block_of explanations tech)
      = "Technique used to mislead readers")
  /\ (forall e, explanations !! tech = Some e ->
                description e = None \/ description e = Some "" ->
                tv_description (block_of explanations tech)
                = "Technique used to mislead readers").
Proof.
  unfold block_of. cbn [tv_description]. split; [|split].
  - intros e d He Hd Hne. rewrite He. cbn. rewrite Hd. cbn.
    destruct (String.eqb d "") eqn:E; [|reflexivity].
    apply String.eqb_eq in E. contradiction.
  - intros He. now rewrite He.
  - intros e He [Hd|Hd]; rewrite He; cbn; now rewrite Hd.
Qed.

(** C9, amended.  When techniques were detected and the table of
    explanations is there, every detected technique is rendered, in order,
    under its own name: with the description of the entry under exactly
    that key when the entry has a description that is not empty, and with
    the default text when there is no such entry or its description is
    absent or empty. *)
Theorem detected_techniques_all_rendered
    (p : page) (i : insights) (explanations : gmap string technique_explanation)
    (tech : string) (techs : list string) :
  manipulation_techniques_detected i = Some (tech :: techs) ->
  technique_explanations i = Some explanations ->
  exists blocks : list technique_view,
    educationalContent (view (exec (displayEducationalInsights i) p)) !! 0%nat
    = Some (TechniquesDetected blocks)
    /\ map tv_name blocks = tech :: techs
    /\ forall (k : nat) (t : string),
         (tech :: techs) !! k = Some t ->
         exists b : technique_view,
           blocks !! k = Some b
           /\ tv_name b = t
           /\ (forall e d,
                 explanations !! t = Some e -> description e = Some d ->
                 d <> "" -> tv_description b = d)
           /\ (explanations !! t = None ->
               tv_description b = "Technique used to mislead readers")
           /\ (forall e,
                 explanations !! t = Some e ->
                 description e = None \/ description e = Some "" ->
                 tv_description b = "Technique used to mislead readers").
Proof.
  intros Hd He.
  destruct (displayEducationalInsights_ok i explanations tech techs p Hd He)
    as [_ Hc].
  exists (map (block_of explanations) (tech :: techs)).
  split; [now rewrite Hc|]. split.
  - rewrite map_map. apply map_id.
  - intros k t Hk. exists (block_of explanations t). split.
    + change (map (block_of explanations) (tech :: techs))
        with (block_of explanations <$> (tech :: techs)).
      now rewrite list_lookup_fmap, Hk.
    + split; [reflexivity | apply block_of_description].
Qed.

Lemma detected_techniques_all_rendered_witness :
  exists blocks : list technique_view,
    educationalContent
      (view (exec (displayEducationalInsights sample_insights) initial_page))
      !! 0%nat
    = Some (TechniquesDetected blocks)
    /\ map tv_name blocks = ["fear"; "urgency"; "bandwagon"].
Proof.
  destruct (detected_techniques_all_rendered initial_page sample_insights
              (default ∅ (technique_explanations sample_insights))
              "fear" ["urgency"; "bandwagon"] eq_refl eq_refl)
    as (blocks & Hb & Hn & _).
  exists blocks. split; [exact Hb | exact Hn].
Defined.

(** ** C5: a file that is not an image *)

(** A dropped file that is not an image is ignored: nothing is previewed,
    nothing is sent. *)
Lemma dropped_non_image_ignored (p : page) (f : file) (fs : list file) :
  startsWith (file_type f) "image/" = false ->
  step p (DropFiles (f :: fs)) = p.
Proof. intros H. unfold step, call, handleImageDrop. cbn. now rewrite H. Qed.

(** A picked file is previewed whatever its type, and the click on Analyze
    sends it. *)
Lemma picked_file_sent_whatever_type (p : page) (f : file) (fs : list file)
    (dataURL : string) :
  network
    (run p [PickFiles (f :: fs); ReaderLoads (length (tasks p)) dataURL;
            ClickAnalyzeImage])
  = (network p
     ++ [ {| url := apiBaseUrl ++ "/check-image"; method := "POST";
             content_type_header := None; req_body := FormBody f |} ])%list.
Proof.
  cbn [run foldl]. cbn [step]. unfold call at 2. cbn.
  rewrite list_lookup_middle; [|reflexivity].
  reflexivity.
Qed.

(** C5 on the code: a PDF handed over by the file picker is previewed and,
    on the click on Analyze, sent to [/check-image]; no alert is shown.
    The same file dropped on the upload area is ignored. *)
Theorem picked_non_image_is_uploaded :
  startsWith (file_type pdf) "image/" = false
  /\ network
       (run initial_page
          [PickFiles [pdf]; ReaderLoads 0 "data:application/pdf;base64,";
           ClickAnalyzeImage])
     = [ {| url := apiBaseUrl ++ "/check-image"; method := "POST";
            content_type_header := None; req_body := FormBody pdf |} ]
  /\ body_alerts
       (run initial_page
          [PickFiles [pdf]; ReaderLoads 0 "data:application/pdf;base64,";
           ClickAnalyzeImage])
     = []
  /\ run initial_page [DropFiles [pdf]] = initial_page.
Proof. vm_compute. repeat split. Qed.

(** * Further properties of the code *)

(** ** Submitting a text *)

Lemma not_blank_trim (s : string) : blank s = false -> String.eqb (trim s) "" = false.
Proof.
  intros H. apply String.eqb_neq. intros E.
  apply trim_empty_iff_blank in E. congruence.
Qed.

(** X1.  A click on Analyze with a text that is not blank sends one POST to
    [/check] carrying the trimmed text, the language and the education
    flag as they are at the click, shows the loading modal and parks the
    method at [fetch]; it does so whatever is pending or showing, and it
    touches neither the results nor the alerts. *)
Theorem nonblank_text_is_submitted (p : page) :
  blank (contentInput_value (inputs p)) = false ->
  network (step p ClickAnalyze)
  = (network p
     ++ [ {| url := apiBaseUrl ++ "/check"; method := "POST";
             content_type_header := Some "application/json";
             req_body :=
               JsonBody (trim (contentInput_value (inputs p))) "text"
                 (languageSelect_value (inputs p))
                 (includeEducation_checked (inputs p)) |} ])%list
  /\ tasks (step p ClickAnalyze) = (tasks p ++ [AwaitFetch TextMode])%list
  /\ loadingModal_display (step p ClickAnalyze) = "flex"
  /\ body_alerts (step p ClickAnalyze) = body_alerts p
  /\ view (step p ClickAnalyze) = view p
  /\ inputs (step p ClickAnalyze) = inputs p.
Proof.
  intros H. apply not_blank_trim in H.
  unfold step, call, analyzeText, bind, gets. rewrite H. cbn.
  repeat split.
Qed.

Lemma nonblank_text_is_submitted_witness :
  map req_body
    (network (step (run initial_page
                      [SelectLanguage "hi"; SetIncludeEducation false;
                       EditContent "  is this true? "])
                ClickAnalyze))
  = [JsonBody "is this true?" "text" "hi" false].
Proof.
  destruct (nonblank_text_is_submitted
              (run initial_page
                 [SelectLanguage "hi"; SetIncludeEducation false;
                  EditContent "  is this true? "]) eq_refl) as (Hn & _).
  rewrite Hn. reflexivity.
Defined.

(** ** A failed analysis *)

Lemma resume_throw (p p1 : page) (id : nat) (m : modality)
    (segment : M progress) (e : exn) :
  segment p = (Throw e, p1) ->
  resume id (in_try m segment) p
  = set_tasks (<[id := Finished]> (tasks p1))
      (set_loadingModal_display "none"
         (set_body_alerts (body_alerts p1 ++ [failure_alert m])
            (set_console (console p1 ++ [(error_label m, e)]) p1))).
Proof.
  intros H. unfold resume. now rewrite (in_try_throw m segment p p1 e H).
Qed.

Lemma fetch_rejected_step (p : page) (id : nat) (m : modality) (reason : string) :
  tasks p !! id = Some (AwaitFetch m) ->
  failed_with m (Rejection reason) p
    (step p (FetchSettles id (FetchRejects reason))).
Proof.
  intros Ht. cbn [step]. rewrite Ht. unfold after_fetch.
  erewrite resume_throw; [|reflexivity]. repeat split.
Qed.

Lemma fetch_not_ok_step (p : page) (id : nat) (m : modality) (status : Z) :
  tasks p !! id = Some (AwaitFetch m) ->
  failed_with m (HttpError status) p
    (step p (FetchSettles id (FetchResolves false status))).
Proof.
  intros Ht. cbn [step]. rewrite Ht. unfold after_fetch.
  erewrite resume_throw; [|reflexivity]. repeat split.
Qed.

Lemma json_rejected_step (p : page) (id : nat) (m : modality) (reason : string) :
  tasks p !! id = Some (AwaitJson m) ->
  failed_with m (Rejection reason) p
    (step p (JsonSettles id (JsonRejects reason))).
Proof.
  intros Ht. cbn [step]. rewrite Ht. unfold after_json.
  erewrite resume_throw; [|reflexivity]. repeat split.
Qed.

(** X2.  When [fetch] is rejected, when the response is not [ok], and when
    [response.json()] is rejected, the analysis ends with the failure alert
    and one line on the console (the rejection, or the HTTP error with the
    status), the loading modal hidden; the results of an earlier analysis,
    the controls and the tabs stay as they were, and nothing is sent
    again. *)
Theorem failed_analysis_keeps_results (p : page) (id : nat) (m : modality) :
  (tasks p !! id = Some (AwaitFetch m) ->
   forall reason : string,
     failed_with m (Rejection reason) p
       (step p (FetchSettles id (FetchRejects reason))))
  /\ (tasks p !! id = Some (AwaitFetch m) ->
      forall status : Z,
        failed_with m (HttpError status) p
          (step p (FetchSettles id (FetchResolves false status))))
  /\ (tasks p !! id = Some (AwaitJson m) ->
      forall reason : string,
        failed_with m (Rejection reason) p
          (step p (JsonSettles id (JsonRejects reason)))).
Proof.
  split; [|split]; intros Ht x.
  - apply fetch_rejected_step, Ht.
  - apply fetch_not_ok_step, Ht.
  - apply json_rejected_step, Ht.
Qed.

Lemma failed_analysis_keeps_results_witness :
  failed_with TextMode (HttpError 503)
    (run initial_page (overtaken ++ [EditContent "third text"; ClickAnalyze]))
    (step (run initial_page (overtaken ++ [EditContent "third text"; ClickAnalyze]))
       (FetchSettles 2 (FetchResolves false 503))).
Proof.
  destruct (failed_analysis_keeps_results
              (run initial_page
                 (overtaken ++ [EditContent "third text"; ClickAnalyze]))
              2 TextMode) as (_ & Hhttp & _).
  exact (Hhttp eq_refl 503%Z).
Defined.

(** ** What an event can do *)

Lemma step_view (p : page) (e : event) :
  (forall id r, e <> JsonSettles id (JsonResolves r)) ->
  view (step p e) = view p.
Proof.
  intros Hne. destruct e as [text|language|checked|name| |files|files| |id url|id res|id res];
    cbn [step].
  - reflexivity.
  - reflexivity.
  - reflexivity.
  - reflexivity.
  - unfold call, analyzeText, bind, gets.
    destruct (String.eqb (trim (contentInput_value (inputs p))) ""); reflexivity.
  - destruct files as [|f fs]; reflexivity.
  - destruct files as [|f fs]; [reflexivity|].
    unfold call, handleImageDrop. cbn.
    destruct (startsWith (file_type f) "image/"); reflexivity.
  - destruct (analyzeImageBtn_onclick (inputs p)); reflexivity.
  - destruct (tasks p !! id) as [[]|]; reflexivity.
  - destruct (tasks p !! id) as [[m|m|f|]|]; try reflexivity.
    destruct res as [reason|[] status]; reflexivity.
  - destruct (tasks p !! id) as [[m|m|f|]|] eqn:Ht; try reflexivity.
    destruct res as [reason|r]; [|now destruct (Hne id r)].
    pose proof (json_rejected_step p id m reason Ht) as H.
    cbn [step] in H. rewrite Ht in H. apply H.
Qed.

(** X3.  Only the arrival of a response body writes to the results
    section: every other event leaves it as it is. *)
Theorem results_written_only_on_response (p : page) (e : event) :
  (forall id r, e <> JsonSettles id (JsonResolves r)) ->
  view (step p e) = view p.
Proof. apply step_view. Qed.

Lemma results_written_only_on_response_witness :
  view (step (run initial_page overtaken) (ClickTab "image"))
  = view (run initial_page overtaken).
Proof.
  apply (results_written_only_on_response (run initial_page overtaken)
           (ClickTab "image")).
  intros id r. discriminate.
Defined.

Lemma step_network (p : page) (e : event) :
  network (step p e) = network p
  \/ (is_analysis_click e = true
      /\ exists r : request, network (step p e) = (network p ++ [r])%list).
Proof.
  destruct e as [text|language|checked|name| |files|files| |id url|id res|id res];
    cbn [step].
  - now left.
  - now left.
  - now left.
  - now left.
  - unfold call, analyzeText, bind, gets.
    destruct (String.eqb (trim (contentInput_value (inputs p))) "").
    + now left.
    + right. split; [reflexivity|]. eexists. reflexivity.
  - left. destruct files as [|f fs]; reflexivity.
  - left. destruct files as [|f fs]; [reflexivity|].
    unfold call, handleImageDrop. cbn.
    destruct (startsWith (file_type f) "image/"); reflexivity.
  - destruct (analyzeImageBtn_onclick (inputs p)) as [f|]; [|now left].
    right. split; [reflexivity|]. eexists. reflexivity.
  - left. destruct (tasks p !! id) as [[]|]; reflexivity.
  - left. destruct (tasks p !! id) as [[m|m|f|]|]; try reflexivity.
    destruct res as [reason|[] status]; reflexivity.
  - left. destruct (tasks p !! id) as [[m|m|f|]|] eqn:Ht; try reflexivity.
    destruct res as [reason|r].
    + pose proof (json_rejected_step p id m reason Ht) as H.
      cbn [step] in H. rewrite Ht in H. apply H.
    + destruct (json_resolves_step p id m r Ht) as (_ & _ & _ & _ & _ & H & _).
      cbn [step] in H. rewrite Ht in H. exact H.
Qed.

(** X4.  The requests are only ever added to, one per click on one of the two
    Analyze buttons at most: no event resends a request or drops one, and
    the settling of a promise never sends anything. *)
Theorem requests_only_from_clicks (p : page) (es : list event) :
  exists rs : list request,
    network (run p es) = (network p ++ rs)%list
    /\ length rs <= length (filter (fun e => is_analysis_click e = true) es).
Proof.
  revert p. induction es as [|e es IH]; intros p.
  - exists []. split; [now rewrite app_nil_r | cbn; lia].
  - destruct (IH (step p e)) as (rs & Hrs & Hlen).
    unfold run in *. cbn [foldl]. rewrite Hrs.
    destruct (step_network p e) as [E|(Hc & r & E)]; rewrite E.
    + exists rs. split; [reflexivity|].
      rewrite filter_cons. destruct (decide _); cbn; lia.
    + exists (r :: rs). split; [now rewrite <- app_assoc|].
      rewrite filter_cons. rewrite decide_True by exact Hc. cbn. lia.
Qed.

(** ** The image path *)

(** X5.  Of the files handed over, by the picker or by a drop, only the first
    is read for the preview, while the file input holds them all; the
    picker does so for any file, the drop for a first file whose type
    starts with [image/]; a drop whose first file is of another type
    changes nothing at all.  With no file at all nothing is read. *)
Theorem first_file_is_previewed (p : page) (f : file) (fs : list file) :
  (tasks (step p (PickFiles (f :: fs))) = (tasks p ++ [AwaitReader f])%list
   /\ imageInput_files (inputs (step p (PickFiles (f :: fs)))) = f :: fs)
  /\ (startsWith (file_type f) "image/" = true ->
      tasks (step p (DropFiles (f :: fs))) = (tasks p ++ [AwaitReader f])%list
      /\ imageInput_files (inputs (step p (DropFiles (f :: fs)))) = f :: fs)
  /\ (startsWith (file_type f) "image/" = false ->
      step p (DropFiles (f :: fs)) = p)
  /\ tasks (step p (PickFiles [])) = tasks p
  /\ step p (DropFiles []) = p.
Proof.
  split; [split; reflexivity|]. split; [|split; [|split; reflexivity]].
  - intros H. unfold step, call, handleImageDrop. cbn. rewrite H.
    split; reflexivity.
  - intros H. unfold step, call, handleImageDrop. cbn. now rewrite H.
Qed.

Lemma first_file_is_previewed_witness :
  tasks (step initial_page (DropFiles [png; pdf])) = [AwaitReader png]
  /\ imageInput_files (inputs (step initial_page (DropFiles [png; pdf])))
     = [png; pdf].
Proof.
  destruct (first_file_is_previewed initial_page png [pdf]) as (_ & Hdrop & _).
  exact (Hdrop eq_refl).
Defined.

(** X6.  When the reader of a file fires [onload], the preview is shown and the
    Analyze button is bound to that file, whichever file was handed over
    last; the click then posts that file, whatever its type, as the form
    field of one request to [/check-image] and shows the loading modal. *)
Theorem loaded_preview_is_analysed
    (p : page) (id : nat) (f : file) (dataURL : string) :
  tasks p !! id = Some (AwaitReader f) ->
  previewImg_src (inputs (step p (ReaderLoads id dataURL))) = dataURL
  /\ imagePreview_display (inputs (step p (ReaderLoads id dataURL))) = "block"
  /\ analyzeImageBtn_onclick (inputs (step p (ReaderLoads id dataURL))) = Some f
  /\ tasks (step p (ReaderLoads id dataURL)) = <[id := Finished]> (tasks p)
  /\ network (step p (ReaderLoads id dataURL)) = network p
  /\ network (run p [ReaderLoads id dataURL; ClickAnalyzeImage])
     = (network p
        ++ [ {| url := apiBaseUrl ++ "/check-image"; method := "POST";
                content_type_header := None; req_body := FormBody f |} ])%list
  /\ loadingModal_display (run p [ReaderLoads id dataURL; ClickAnalyzeImage])
     = "flex"
  /\ tasks (run p [ReaderLoads id dataURL; ClickAnalyzeImage])
     = (<[id := Finished]> (tasks p) ++ [AwaitFetch ImageMode])%list.
Proof.
  intros Ht. cbn [run foldl]. cbn [step]. rewrite Ht.
  unfold resume, reader_onload. cbn. repeat split.
Qed.

Lemma loaded_preview_is_analysed_witness :
  map req_body
    (network (run (run initial_page [PickFiles [png]; PickFiles [pdf]])
                [ReaderLoads 0 "data:image/png;base64,"; ClickAnalyzeImage]))
  = [FormBody png].
Proof.
  destruct (loaded_preview_is_analysed
              (run initial_page [PickFiles [png]; PickFiles [pdf]])
              0 png "data:image/png;base64," eq_refl)
    as (_ & _ & _ & _ & _ & Hn & _).
  rewrite Hn. reflexivity.
Defined.

(** ** Rendering step by step *)

Lemma outside_view_refl (p : page) : outside_view p p.
Proof. destruct p. reflexivity. Qed.

Lemma outside_view_trans (p q r : page) :
  outside_view p q -> outside_view q r -> outside_view p r.
Proof.
  unfold outside_view. destruct p, q, r. cbn.
  intros H1 H2. injection H1 as ->. injection H2 as ->.
  repeat match goal with H : _ = _ |- _ => rewrite H; clear H end.
  reflexivity.
Qed.

Lemma keeps_outside_view_on_view (f : results_view -> results_view) :
  keeps outside_view (on_view f).
Proof. intros p. destruct p. reflexivity. Qed.

#[local] Hint Resolve outside_view_refl outside_view_trans
  keeps_outside_view_on_view : keeps_db.

Lemma keeps_outside_view_updateTrustScore (score : option number) (v : string) :
  keeps outside_view (updateTrustScore score v).
Proof. unfold updateTrustScore. keeps_tac. Qed.

Lemma keeps_outside_view_displayClaims (cs : option (list claim)) :
  keeps outside_view (displayClaims cs).
Proof. unfold displayClaims, forEach. keeps_tac. Qed.

Lemma keeps_outside_view_displaySources (srcs : option (list string)) :
  keeps outside_view (displaySources srcs).
Proof. unfold displaySources, forEach. keeps_tac. Qed.

Lemma keeps_outside_view_displayEducationalInsights (i : insights) :
  keeps outside_view (displayEducationalInsights i).
Proof. unfold displayEducationalInsights. keeps_tac. Qed.

#[local] Hint Resolve keeps_outside_view_updateTrustScore
  keeps_outside_view_displayClaims keeps_outside_view_displaySources
  keeps_outside_view_displayEducationalInsights : keeps_db.

Lemma updateTrustScore_eq (score : option number) (v : string) (p : page) :
  updateTrustScore score v p
  = (Normal tt,
     set_view
       (set_verdict_className ("verdict " ++ bucket_name (bucket_of (ToNumber score)))
          (set_scoreCircle_className
             ("score-circle " ++ bucket_name (bucket_of (ToNumber score)))
             (set_verdict_textContent v
                (set_trustScore_textContent (Some (Math_round (ToNumber score)))
                   (view p)))))
       p).
Proof.
  unfold updateTrustScore, bucket_of.
  destruct (num_ge (ToNumber score) (of_Z 80));
    [|destruct (num_ge (ToNumber score) (of_Z 60))];
    destruct p as [[] ?]; reflexivity.
Qed.

Lemma displaySources_loop (l : list string) (i : nat) (p : page) :
  forEach_from i l
    (fun source _ =>
       on_view (fun v => set_sourcesList (sourcesList v ++ [source]) v)) p
  = (Normal tt, set_view (set_sourcesList (sourcesList (view p) ++ l) (view p)) p).
Proof.
  revert i p. induction l as [|x l IH]; intros i p.
  - cbn. rewrite app_nil_r. destruct p as [[] ?]. reflexivity.
  - cbn [forEach_from]. rewrite bind_on_view, IH.
    destruct p as [[] ?]. cbn. now rewrite <- app_assoc.
Qed.

Lemma displaySources_ok (l : list string) (p : page) :
  displaySources (Some l) p
  = (Normal tt, set_view (set_sourcesList l (view p)) p).
Proof.
  unfold displaySources, forEach. rewrite bind_on_view. cbn [deref].
  erewrite bind_value; [|reflexivity]. rewrite displaySources_loop.
  destruct p as [[] ?]. reflexivity.
Qed.

Lemma displayEducationalInsights_eq (i : insights) (p : page) :
  insights_ok i = true ->
  displayEducationalInsights i p
  = (Normal tt,
     set_view
       (set_educationalSection_display "block"
          (set_educationalContent (insights_content i) (view p)))
       p).
Proof.
  unfold insights_ok, insights_content, displayEducationalInsights.
  destruct (manipulation_techniques_detected i) as [[|tech techs]|] eqn:Hd.
  - intros _. destruct (verification_tips i); destruct p as [[] ?]; reflexivity.
  - intros H. apply bool_decide_eq_true in H as [explanations He].
    rewrite bind_on_view, bind_bind.
    rewrite (bind_value _ _ _ _ _
               (techniques_map_ok i explanations (tech :: techs) _ He)).
    rewrite He. destruct (verification_tips i); destruct p as [[] ?]; reflexivity.
  - intros _. destruct (verification_tips i); destruct p as [[] ?]; reflexivity.
Qed.

(** The page [displayResults] leaves for a response it renders to the
    end. *)
Lemma displayResults_eq (r : verdict) (p : page) :
  renderable r = true ->
  displayResults r p
  = (Normal tt, set_scrolls (S (scrolls p)) (set_view (rendered r (view p)) p)).
Proof.
  unfold renderable. intros H.
  apply andb_prop in H as [H Hi]. apply andb_prop in H as [Hc Hs].
  destruct (claims r) as [cs|] eqn:Ec; [|discriminate].
  apply bool_decide_eq_true in Hs as [l Es].
  unfold displayResults, rendered. rewrite Ec, Es.
  rewrite bind_on_view.
  rewrite (bind_value _ _ _ _ _ (updateTrustScore_eq _ _ _)).
  rewrite (bind_value _ _ _ _ _ (displayClaims_ok cs _ Hc)).
  rewrite bind_on_view.
  rewrite (bind_value _ _ _ _ _ (displaySources_ok l _)).
  destruct (educational_insights r) as [i|].
  - rewrite (bind_value _ _ _ _ _ (displayEducationalInsights_eq i _ Hi)).
    destruct p as [[] ?]. reflexivity.
  - erewrite bind_value; [|reflexivity].
    destruct p as [[] ?]. reflexivity.
Qed.

(** ** What is left of the previous result *)

(** X7.  A response rendered to the end replaces the whole results section:
    what the page shows afterwards does not depend on what it showed
    before, except for the educational section when the response carries
    no insights. *)
Theorem rendering_replaces_results (p q : page) (r : verdict) :
  renderable r = true ->
  (educational_insights r = None -> education (view p) = education (view q)) ->
  view (exec (displayResults r) p) = view (exec (displayResults r) q).
Proof.
  intros Hr He. unfold exec.
  rewrite (displayResults_eq r p Hr), (displayResults_eq r q Hr).
  cbn [snd]. destruct p as [vp ?], q as [vq ?]. cbn. unfold rendered.
  destruct (educational_insights r) as [i|]; [reflexivity|].
  specialize (He eq_refl). cbn in He. injection He as -> ->. reflexivity.
Qed.

Lemma rendering_replaces_results_witness :
  view (exec (displayResults full_verdict) (run initial_page overtaken))
  = view (exec (displayResults full_verdict) initial_page).
Proof.
  apply (rendering_replaces_results (run initial_page overtaken) initial_page
           full_verdict).
  - reflexivity.
  - discriminate.
Defined.

(** X8.  Rendering the same response a second time changes nothing in the
    results section. *)
Theorem rendering_twice_is_rendering_once (p : page) (r : verdict) :
  renderable r = true ->
  view (exec (displayResults r) (exec (displayResults r) p))
  = view (exec (displayResults r) p).
Proof.
  intros Hr. unfold exec.
  rewrite (displayResults_eq r _ Hr), (displayResults_eq r p Hr).
  cbn [snd]. destruct p as [vp ?]. cbn. unfold rendered. cbn.
  destruct (educational_insights r); reflexivity.
Qed.

Lemma rendering_twice_is_rendering_once_witness :
  view (exec (displayResults three_claims)
          (exec (displayResults three_claims) initial_page))
  = view (exec (displayResults three_claims) initial_page).
Proof.
  apply (rendering_twice_is_rendering_once initial_page three_claims).
  reflexivity.
Defined.

Lemma keeps_education_updateTrustScore (score : option number) (v : string) :
  keeps (kept education) (updateTrustScore score v).
Proof. unfold updateTrustScore. keeps_tac; kept_write. Qed.

Lemma keeps_education_displayClaims (cs : option (list claim)) :
  keeps (kept education) (displayClaims cs).
Proof. unfold displayClaims, forEach. keeps_tac; kept_write. Qed.

Lemma keeps_education_displaySources (srcs : option (list string)) :
  keeps (kept education) (displaySources srcs).
Proof. unfold displaySources, forEach. keeps_tac; kept_write. Qed.

#[local] Hint Resolve keeps_education_updateTrustScore
  keeps_education_displayClaims keeps_education_displaySources : keeps_db.

(** X9.  A response without insights leaves the educational section alone: the
    insights of an earlier response stay on the page, and stay visible,
    next to the new result.  This holds whether the rendering reaches its
    end or throws. *)
Theorem educational_section_stays_without_insights (p : page) (r : verdict) :
  educational_insights r = None ->
  educationalContent (view (exec (displayResults r) p))
  = educationalContent (view p)
  /\ educationalSection_display (view (exec (displayResults r) p))
     = educationalSection_display (view p).
Proof.
  intros Hn.
  assert (K : keeps (kept education) (displayResults r)).
  { unfold displayResults. rewrite Hn. keeps_tac; try kept_write.
    intros q. reflexivity. }
  specialize (K p). unfold kept, education in K.
  injection K as K1 K2. split; assumption.
Qed.

Lemma educational_section_stays_without_insights_witness :
  educationalContent
    (view (exec (displayResults three_claims)
             (exec (displayResults full_verdict) initial_page)))
  = educationalContent (view (exec (displayResults full_verdict) initial_page)).
Proof.
  apply (educational_section_stays_without_insights
           (exec (displayResults full_verdict) initial_page) three_claims).
  reflexivity.
Defined.

(** ** A rendering that stops part-way *)

Lemma bind_throw_value {A B : Type} (c : M A) (k : A -> M B) (p p' : page)
    (e : exn) :
  c p = (Throw e, p') -> bind c k p = (Throw e, p').
Proof. intros H. unfold bind. now rewrite H. Qed.

(** The loop of [displayClaims] up to the first claim that lacks a field:
    the claims before it are appended, then the callback throws. *)
Lemma displayClaims_loop_prefix (good : list claim) (bad : claim) (rest : list claim) :
  forallb claim_ok good = true ->
  claim_ok bad = false ->
  forall (i : nat) (p : page),
  exists what : string,
    forEach_from i (good ++ bad :: rest)%list
      (fun c index =>
         let* claimElement := claimElement c index in
         on_view (fun v => set_claimsList (claimsList v ++ [claimElement]) v)) p
    = (Throw (TypeError what),
       set_view
         (set_claimsList
            (claimsList (view p) ++ imap (fun j c => element_of (i + j) c) good)
            (view p))
         p).
Proof.
  intros Hok Hbad. induction good as [|c good IH]; intros i p.
  - destruct (claimElement_throws bad i p Hbad) as [what E].
    exists what. cbn [app forEach_from].
    erewrite bind_throw_value; [|erewrite bind_throw_value; [reflexivity|exact E]].
    cbn. rewrite app_nil_r. destruct p as [[] ?]. reflexivity.
  - simpl in Hok. apply andb_prop in Hok as [Hc Hgood].
    specialize (IH Hgood).
    cbn [app forEach_from]. unfold bind at 1. unfold bind at 1.
    rewrite (claimElement_ok c i p Hc). cbn [on_view modify].
    destruct (IH (S i)
                (set_view
                   (set_claimsList (claimsList (view p) ++ [element_of i c])
                      (view p)) p)) as [what E].
    exists what. rewrite E.
    assert (Hi : imap (fun j x => element_of (S (i + j)) x) good
                 = imap ((fun j x => element_of (i + j) x) ∘ S) good).
    { apply imap_ext. intros j x _. cbn. f_equal. lia. }
    destruct p as [[] ?]. cbn.
    rewrite <- app_assoc. cbn. rewrite Nat.add_0_r, Hi. reflexivity.
Qed.

(** X10.  When a claim lacks its level or its techniques, the rendering stops at
    that claim: the new score and verdict and the claims before it are on
    the page, the claims after it are not, and the explanation, the
    sources and the educational section are still those of the earlier
    result; the page is not scrolled. *)
Theorem malformed_claim_cuts_rendering
    (p : page) (r : verdict) (good : list claim) (bad : claim) (rest : list claim) :
  claims r = Some (good ++ bad :: rest)%list ->
  forallb claim_ok good = true ->
  claim_ok bad = false ->
  returns (displayResults r) p = false
  /\ claimsList (view (exec (displayResults r) p)) = imap element_of good
  /\ verdict_textContent (view (exec (displayResults r) p)) = overall_verdict r
  /\ narrative (view (exec (displayResults r) p)) = narrative (view p)
  /\ education (view (exec (displayResults r) p)) = education (view p)
  /\ scrolls (exec (displayResults r) p) = scrolls p.
Proof.
  intros Hc Hok Hbad.
  assert (E : exists what p',
             displayResults r p = (Throw (TypeError what), p')
             /\ p' = set_view
                       (set_claimsList (imap element_of good)
                          (set_verdict_className
                             ("verdict "
                              ++ bucket_name (bucket_of (ToNumber (overall_trust_score r))))
                             (set_scoreCircle_className
                                ("score-circle "
                                 ++ bucket_name
                                      (bucket_of (ToNumber (overall_trust_score r))))
                                (set_verdict_textContent (overall_verdict r)
                                   (set_trustScore_textContent
                                      (Some (Math_round
                                               (ToNumber (overall_trust_score r))))
                                      (set_resultsSection_display "block"
                                         (view p)))))))
                       p).
  { unfold displayResults. rewrite Hc, bind_on_view.
    rewrite (bind_value _ _ _ _ _ (updateTrustScore_eq _ _ _)).
    unfold displayClaims, forEach. cbn [deref].
    match goal with |- context [bind _ _ ?q] => set (p2 := q) end.
    destruct (displayClaims_loop_prefix good bad rest Hok Hbad 0
                (set_view (set_claimsList [] (view p2)) p2)) as [what El].
    exists what. eexists. split.
    - erewrite bind_throw_value; [reflexivity|].
      rewrite bind_on_view. erewrite bind_value; [|reflexivity]. exact El.
    - subst p2. destruct p as [[] ?]. reflexivity. }
  destruct E as (what & p' & E & ->).
  unfold returns, exec. rewrite E. cbn [fst snd].
  destruct p as [[] ?]. repeat split.
Qed.

Lemma malformed_claim_cuts_rendering_witness :
  map ce_text
    (claimsList
       (view (exec (displayResults verdict_with_broken_claim)
                (exec (displayResults full_verdict) initial_page))))
  = ["first"]
  /\ narrative
       (view (exec (displayResults verdict_with_broken_claim)
                (exec (displayResults full_verdict) initial_page)))
     = ("because", ["a"; "b"]).
Proof.
  destruct (malformed_claim_cuts_rendering
              (exec (displayResults full_verdict) initial_page)
              verdict_with_broken_claim
              [sample_claim "first" "LOW"]
              {| claim_text := "second"; trust_level := None;
                 confidence := None; claim_explanation := "";
                 manipulation_techniques := Some [] |}
              [sample_claim "third" "HIGH"] eq_refl eq_refl eq_refl)
    as (_ & Hl & _ & Hn & _).
  rewrite Hl, Hn. split; reflexivity.
Defined.

(** X11.  When the claims are all there, the explanation is written and the
    sources are listed as sent, in their order, in place of the earlier
    ones, also when the insights then make the rendering throw.  When
    the [sources] array is missing, the claims and the explanation of the
    response are on the page, the list of sources is left empty, the
    educational section is the earlier one and the page is not scrolled. *)
Theorem sources_listed_or_emptied
    (p : page) (r : verdict) (cs : list claim) :
  claims r = Some cs ->
  forallb claim_ok cs = true ->
  explanationText_textContent (view (exec (displayResults r) p)) = explanation r
  /\ sourcesList (view (exec (displayResults r) p)) = default [] (sources r)
  /\ claimsList (view (exec (displayResults r) p)) = imap element_of cs
  /\ (sources r = None ->
      returns (displayResults r) p = false
      /\ education (view (exec (displayResults r) p)) = education (view p)
      /\ scrolls (exec (displayResults r) p) = scrolls p).
Proof.
  intros Hc Hok.
  split; [|split; [|split; [apply displayResults_claims; assumption|]]].
  - unfold exec, displayResults. rewrite Hc, bind_on_view.
    rewrite (bind_value _ _ _ _ _ (updateTrustScore_eq _ _ _)).
    rewrite (bind_value _ _ _ _ _ (displayClaims_ok cs _ Hok)).
    rewrite bind_on_view.
    match goal with |- context [bind _ ?k ?q] =>
      assert (K : keeps (kept explanationText_textContent)
                    (bind (displaySources (sources r)) k));
      [|rewrite (K q)] end.
    { unfold displaySources, displayEducationalInsights, forEach.
      keeps_tac; try kept_write. intros q. reflexivity. }
    destruct p as [[] ?]. reflexivity.
  - unfold exec, displayResults. rewrite Hc, bind_on_view.
    rewrite (bind_value _ _ _ _ _ (updateTrustScore_eq _ _ _)).
    rewrite (bind_value _ _ _ _ _ (displayClaims_ok cs _ Hok)).
    rewrite bind_on_view.
    destruct (sources r) as [l|].
    + rewrite (bind_value _ _ _ _ _ (displaySources_ok l _)).
      match goal with |- context [bind ?c ?k ?q] =>
        assert (K : keeps (kept sourcesList) (bind c k));
        [|rewrite (K q)] end.
      { unfold displayEducationalInsights. keeps_tac; try kept_write.
        intros q. reflexivity. }
      destruct p as [[] ?]. reflexivity.
    + destruct p as [[] ?]. reflexivity.
  - intros Hs. unfold returns, exec, displayResults. rewrite Hc, Hs, bind_on_view.
    rewrite (bind_value _ _ _ _ _ (updateTrustScore_eq _ _ _)).
    rewrite (bind_value _ _ _ _ _ (displayClaims_ok cs _ Hok)).
    rewrite bind_on_view.
    destruct p as [[] ?]. repeat split.
Qed.

Lemma sources_listed_or_emptied_witness :
  sourcesList (view (exec (displayResults full_verdict) initial_page))
  = ["a"; "b"].
Proof.
  apply (sources_listed_or_emptied initial_page full_verdict
           [sample_claim "one" "MEDIUM"]); reflexivity.
Defined.



(** ** The score and its colour *)

Lemma Qfloor_between (z : Z) (x : Q) :
  (inject_Z z <= x)%Q -> (x < inject_Z (z + 1))%Q -> Qfloor x = z.
Proof.
  intros Hlo Hhi.
  apply Qfloor_resp_le in Hlo. rewrite Qfloor_Z in Hlo.
  assert (H : (inject_Z (Qfloor x) < inject_Z (z + 1))%Q).
  { eapply Qle_lt_trans; [apply Qfloor_le | exact Hhi]. }
  rewrite <- Zlt_Qlt in H. lia.
Qed.

(** X13.  The number shown is the rounded score, the colour follows the score
    itself: a score from 79.5 up to 80 is shown as 80 in the colour of
    medium, and a score from 59.5 up to 60 is shown as 60 in the colour of
    low. *)
Theorem shown_score_can_outrun_bucket (p : page) (v : string) (q : Q) :
  ((159 # 2 <= q)%Q -> (q < 80)%Q ->
   shown_score (scored p (Fin q) v) = Some (of_Z 80)
   /\ shown_bucket (scored p (Fin q) v) = Some medium)
  /\ ((119 # 2 <= q)%Q -> (q < 60)%Q ->
      shown_score (scored p (Fin q) v) = Some (of_Z 60)
      /\ shown_bucket (scored p (Fin q) v) = Some low).
Proof.
  rewrite scored_score, scored_bucket. cbn [Math_round]. split; intros Hlo Hhi.
  - rewrite (Qfloor_between 80 (q + (1 # 2))).
    + split; [reflexivity|].
      assert (H6 : (inject_Z 60 <= q)%Q) by (change (inject_Z 60) with (60 # 1); lra).
      apply (num_ge_Fin q (inject_Z 60)) in H6.
      apply (num_ge_Fin_false q (inject_Z 80)) in Hhi.
      unfold of_Z. now rewrite Hhi, H6.
    + change (inject_Z 80) with (80 # 1). lra.
    + change (inject_Z (80 + 1)) with (81 # 1). lra.
  - rewrite (Qfloor_between 60 (q + (1 # 2))).
    + split; [reflexivity|].
      assert (H8 : (q < inject_Z 80)%Q) by (change (inject_Z 80) with (80 # 1); lra).
      apply (num_ge_Fin_false q (inject_Z 60)) in Hhi.
      apply (num_ge_Fin_false q (inject_Z 80)) in H8.
      unfold of_Z. now rewrite H8, Hhi.
    + change (inject_Z 60) with (60 # 1). lra.
    + change (inject_Z (60 + 1)) with (61 # 1). lra.
Qed.

Lemma shown_score_can_outrun_bucket_witness :
  shown_score (scored initial_page (Fin (797 # 10)) "Unclear") = Some (of_Z 80)
  /\ shown_bucket (scored initial_page (Fin (797 # 10)) "Unclear") = Some medium.
Proof.
  apply (shown_score_can_outrun_bucket initial_page "Unclear" (797 # 10)).
  - unfold Qle. simpl. lia.
  - unfold Qlt. simpl. lia.
Defined.

(** ** The educational section *)



(** ** The tabs *)

Lemma tabs_kept_refl (p : page) : tabs_kept p p.
Proof. repeat split. Qed.

Lemma tabs_kept_trans (p q r : page) : tabs_kept p q -> tabs_kept q r -> tabs_kept p r.
Proof. unfold tabs_kept. intuition congruence. Qed.

Lemma keeps_tabs_on_view (f : results_view -> results_view) :
  keeps tabs_kept (on_view f).
Proof. intros p. repeat split. Qed.

#[local] Hint Resolve tabs_kept_refl tabs_kept_trans keeps_tabs_on_view : keeps_db.

Lemma keeps_tabs_displayResults (r : verdict) : keeps tabs_kept (displayResults r).
Proof.
  unfold displayResults, updateTrustScore, displayClaims, displaySources,
    displayEducationalInsights, forEach.
  keeps_tac. intros p. repeat split.
Qed.

(** Where the response of task [id] is rendered from, and what the step
    adds to that rendering. *)
Lemma json_resolves_tabs (p : page) (id : nat) (m : modality) (r : verdict) :
  tasks p !! id = Some (AwaitJson m) ->
  tabs_kept
    match m with
    | TextMode => p
    | ImageMode => exec (switchTab "text") p
    end
    (step p (JsonSettles id (JsonResolves r))).
Proof.
  intros Ht. cbn [step]. rewrite Ht. unfold resume, after_json, in_try.
  destruct m.
  - pose proof (keeps_tabs_displayResults r p) as K.
    unfold bind. destruct (displayResults r p) as [[[]|e] p1]; exact K.
  - pose proof (keeps_tabs_displayResults r (exec (switchTab "text") p)) as K.
    unfold bind, exec in *. cbn -[displayResults] in *.
    match goal with |- context [displayResults r ?q] =>
      destruct (displayResults r q) as [[[]|e] p1] end; exact K.
Qed.

(** X15.  When the response to an image analysis arrives, the text tab is
    selected before the result is rendered, and it stays selected also
    when the rendering throws; the response to a text analysis leaves the
    tabs as they are, so a result can be rendered under the image tab. *)
Theorem image_result_selects_text_tab (p : page) (id : nat) (r : verdict) :
  (tasks p !! id = Some (AwaitJson ImageMode) ->
   nav_active (step p (JsonSettles id (JsonResolves r))) = "text"
   /\ content_active (step p (JsonSettles id (JsonResolves r))) = "text-tab"
   /\ currentTab (step p (JsonSettles id (JsonResolves r))) = "text")
  /\ (tasks p !! id = Some (AwaitJson TextMode) ->
      nav_active (step p (JsonSettles id (JsonResolves r))) = nav_active p
      /\ content_active (step p (JsonSettles id (JsonResolves r))) = content_active p
      /\ currentTab (step p (JsonSettles id (JsonResolves r))) = currentTab p).
Proof.
  split; intros Ht.
  - exact (json_resolves_tabs p id ImageMode r Ht).
  - exact (json_resolves_tabs p id TextMode r Ht).
Qed.

Lemma image_result_selects_text_tab_witness :
  nav_active
    (run initial_page
       [ClickTab "image"; PickFiles [png]; ReaderLoads 0 "data:image/png;base64,";
        ClickAnalyzeImage; FetchSettles 1 (FetchResolves true 200)])
  = "image"
  /\ nav_active
       (step (run initial_page
                [ClickTab "image"; PickFiles [png];
                 ReaderLoads 0 "data:image/png;base64,";
                 ClickAnalyzeImage; FetchSettles 1 (FetchResolves true 200)])
          (JsonSettles 1 (JsonResolves full_verdict)))
     = "text".
Proof.
  split; [reflexivity|].
  destruct (image_result_selects_text_tab
              (run initial_page
                 [ClickTab "image"; PickFiles [png];
                  ReaderLoads 0 "data:image/png;base64,";
                  ClickAnalyzeImage; FetchSettles 1 (FetchResolves true 200)])
              1 full_verdict) as (Himage & _).
  exact (proj1 (Himage eq_refl)).
Defined.

(** ** The two colours *)





(** ** The system statistics *)



(** * Raw payloads *)

Section Raw.
Context {B : Builtins}.

(** ** Reasoning about the raw rendering *)

Lemma keeps_lift (R : page -> page -> Prop) {A : Type} (c : completion A) :
  (forall p, R p p) -> keeps R (lift c).
Proof. intros H p. apply H. Qed.

Lemma blind_ret {A : Type} (a : A) : blind (ret a).
Proof. intros p q. reflexivity. Qed.

Lemma blind_lift {A : Type} (c : completion A) : blind (lift c).
Proof. intros p q. reflexivity. Qed.

Lemma blind_modify (f : page -> page) : blind (modify f).
Proof. intros p q. reflexivity. Qed.

Lemma blind_on_view (f : results_view -> results_view) : blind (on_view f).
Proof. intros p q. reflexivity. Qed.

Lemma blind_bind {A C : Type} (c : M A) (k : A -> M C) :
  blind c -> (forall a, blind (k a)) -> blind (bind c k).
Proof.
  intros Hc Hk p q. unfold bind. specialize (Hc p q).
  destruct (c p) as [[a|e] p'], (c q) as [[a'|e'] q']; cbn in Hc;
    try discriminate; injection Hc as <-; [apply Hk | reflexivity].
Qed.

Lemma blind_forEach_from {A : Type} (f : A -> nat -> M unit) (l : list A) :
  (forall x i, blind (f x i)) -> forall i, blind (forEach_from i l f).
Proof.
  intros Hf. induction l as [|x l IH]; intros i; cbn [forEach_from].
  - apply blind_ret.
  - apply blind_bind; [apply Hf | intros _; apply IH].
Qed.

Lemma blind_map_M {A C : Type} (f : A -> M C) (l : list A) :
  (forall x, blind (f x)) -> blind (map_M f l).
Proof.
  intros Hf. induction l as [|x l IH]; cbn [map_M].
  - apply blind_ret.
  - apply blind_bind; [apply Hf | intros y].
    apply blind_bind; [apply IH | intros ys; apply blind_ret].
Qed.

Ltac blind_tac :=
  repeat
    match goal with
    | |- blind (bind _ _) => apply blind_bind
    | |- blind (forEach_from _ _ _) => apply blind_forEach_from
    | |- blind (forEach _ _) => apply blind_forEach_from
    | |- blind (map_M _ _) => apply blind_map_M
    | |- blind (lift _) => apply blind_lift
    | |- blind (ret _) => apply blind_ret
    | |- blind (on_view _) => apply blind_on_view
    | |- blind (modify _) => apply blind_modify
    | |- blind (match ?x with _ => _ end) => destruct x
    | |- forall _, _ => intro
    end.

Lemma blind_displayResults_json (result : json) : blind (displayResults_json result).
Proof.
  unfold displayResults_json, updateTrustScore_json, displayClaims_json,
    displaySources_json, displayEducationalInsights_json.
  blind_tac.
Qed.

(** ** The documented payloads among the raw ones *)

Lemma pieces_strings (l : list string) : pieces (map JStr l) = Normal l.
Proof.
  induction l as [|x l IH]; [reflexivity|]. cbn. now rewrite IH.
Qed.

Lemma Array_join_strings (sep : string) (l : list string) :
  Array_join sep (map JStr l) = Normal (join sep l).
Proof. unfold Array_join. now rewrite pieces_strings. Qed.

Lemma positive_length (n : nat) :
  positive (Some (JNum (of_Z (Z.of_nat n)))) = Normal (0 <? n)%nat.
Proof.
  unfold positive. cbn. f_equal. destruct n as [|n]; [reflexivity|].
  assert (Hp : (0 < Z.of_nat (S n))%Z) by lia.
  destruct (Qle_bool (inject_Z 0) (inject_Z (Z.of_nat (S n)))) eqn:E1.
  - destruct (Qle_bool (inject_Z (Z.of_nat (S n))) (inject_Z 0)) eqn:E2;
      [|reflexivity].
    apply Qle_bool_iff in E2. rewrite <- Zle_Qle in E2. lia.
  - assert (H : Qle_bool (inject_Z 0) (inject_Z (Z.of_nat (S n))) = true).
    { apply Qle_bool_iff. rewrite <- Zle_Qle. lia. }
    congruence.
Qed.

Lemma technique_tags_strings (l : list string) :
  technique_tags (Some (strings_to_json l))
  = Normal (if (0 <? length l)%nat then Some l else None).
Proof.
  unfold technique_tags, has_elements, strings_to_json. cbn [length_of].
  rewrite length_map, positive_length. cbn [and_then].
  destruct (0 <? length l)%nat; [|reflexivity]. cbn [as_array and_then].
  assert (H : (fix tags (l0 : list json) : completion (list string) :=
                 match l0 with
                 | [] => Normal []
                 | tech :: rest =>
                     and_then (ToString tech)
                       (fun s => and_then (tags rest) (fun ss => Normal (s :: ss)))
                 end) (map JStr l) = Normal l).
  { clear. induction l as [|x l IH]; [reflexivity|]. cbn. now rewrite IH. }
  now rewrite H.
Qed.

Lemma claimElement_json_typed (c : claim) (i : nat) (p : page) :
  claimElement c i p = (claimElement_json (claim_to_json c) i, p).
Proof.
  destruct c as [text [level|] [confidence|] explanation [techniques|]];
    unfold claimElement, claimElement_json, claim_to_json; cbn -[technique_tags];
    try reflexivity;
    rewrite technique_tags_strings; reflexivity.
Qed.

Lemma displayClaims_json_loop (cs : list claim) (i : nat) (p : page) :
  forEach_from i (map claim_to_json cs)
    (fun c index =>
       let* claimElement := lift (claimElement_json c index) in
       on_view (fun v => set_claimsList (claimsList v ++ [claimElement]) v)) p
  = forEach_from i cs
      (fun c index =>
         let* claimElement := claimElement c index in
         on_view (fun v => set_claimsList (claimsList v ++ [claimElement]) v)) p.
Proof.
  revert i p. induction cs as [|c cs IH]; intros i p; [reflexivity|].
  cbn [map forEach_from]. unfold bind at 1 2 4 5.
  rewrite (claimElement_json_typed c i p). unfold lift.
  destruct (claimElement_json (claim_to_json c) i); [apply IH | reflexivity].
Qed.

Lemma displayClaims_json_typed (cs : option (list claim)) (p : page) :
  displayClaims_json ((fun l => JArr (map claim_to_json l)) <$> cs) p
  = displayClaims cs p.
Proof.
  destruct cs as [l|]; [|reflexivity].
  unfold displayClaims_json, displayClaims, forEach. cbn [fmap option_fmap option_map].
  rewrite !bind_on_view. cbn [as_array deref].
  erewrite bind_value; [|reflexivity].
  erewrite (bind_value (ret l)); [|reflexivity].
  apply displayClaims_json_loop.
Qed.

Lemma displaySources_json_typed (srcs : option (list string)) (p : page) :
  displaySources_json (strings_to_json <$> srcs) p = displaySources srcs p.
Proof.
  destruct srcs as [l|]; [|reflexivity].
  unfold displaySources_json, displaySources, forEach, strings_to_json.
  cbn [fmap option_fmap option_map].
  rewrite !bind_on_view. cbn [as_array deref].
  erewrite bind_value; [|reflexivity].
  erewrite (bind_value (ret l)); [|reflexivity].
  generalize 0%nat. generalize (set_view (set_sourcesList [] (view p)) p).
  induction l as [|x l IH]; intros q i; [reflexivity|].
  cbn [map forEach_from]. unfold bind at 1 3. cbn. apply IH.
Qed.

Lemma get_own_elem (k : string) (fields : list (string * json)) (v : json) :
  get_own k fields = Some v -> (k, v) ∈ fields.
Proof.
  induction fields as [|[k' v'] rest IH]; cbn; [discriminate|].
  destruct (get_own k rest) as [later|].
  - intros [= ->]. right. now apply IH.
  - destruct (String.eqb k k') eqn:E; [|discriminate].
    apply String.eqb_eq in E as ->. intros [= ->]. left.
Qed.

Lemma elem_get_own (k : string) (fields : list (string * json)) (v : json) :
  NoDup (fields.*1) -> (k, v) ∈ fields -> get_own k fields = Some v.
Proof.
  induction fields as [|[k' v'] rest IH]; cbn; intros Hnd Hin.
  - inversion Hin.
  - apply NoDup_cons in Hnd as [Hk Hnd].
    apply elem_of_cons in Hin as [[= <- <-]|Hin].
    + destruct (get_own k rest) as [later|] eqn:E.
      * exfalso. apply Hk. apply get_own_elem in E.
        apply list_elem_of_fmap. exists (k, later). split; [reflexivity | exact E].
      * now rewrite String.eqb_refl.
    + now rewrite (IH Hnd Hin).
Qed.

Lemma get_own_map_to_list (k : string) (m : gmap string json) :
  get_own k (map_to_list m) = m !! k.
Proof.
  destruct (m !! k) as [v|] eqn:E.
  - apply elem_get_own; [apply NoDup_fst_map_to_list|].
    now apply elem_of_map_to_list.
  - destruct (get_own k (map_to_list m)) as [v|] eqn:G; [|reflexivity].
    apply get_own_elem, elem_of_map_to_list in G. congruence.
Qed.

Lemma techniqueExplanation_json_typed (i : insights) (tech : string) (p : page) :
  techniqueExplanation i tech p
  = (techniqueExplanation_json (insights_to_json i) (JStr tech), p).
Proof.
  unfold techniqueExplanation, techniqueExplanation_json, insights_to_json.
  cbn [ToString and_then].
  destruct (manipulation_techniques_detected i) as [d|],
           (technique_explanations i) as [table|],
           (verification_tips i) as [t|];
    cbn -[entry_of]; try reflexivity.
  all: unfold table_to_json, entry_of; rewrite get_own_map_to_list, lookup_fmap.
  all: destruct (table !! tech) as [[[d'|] [tips|]]|]; cbn;
    rewrite ?Array_join_strings; cbn; try reflexivity.
  all: destruct (String.eqb d' ""); reflexivity.
Qed.

Lemma techniques_json_typed (i : insights) (l : list string) (p : page) :
  map_M (fun tech => lift (techniqueExplanation_json (insights_to_json i) tech))
    (map JStr l) p
  = map_M (techniqueExplanation i) l p.
Proof.
  revert p. induction l as [|tech l IH]; intros p; [reflexivity|].
  cbn [map map_M]. unfold bind at 1 3.
  rewrite (techniqueExplanation_json_typed i tech p). unfold lift.
  destruct (techniqueExplanation_json (insights_to_json i) (JStr tech));
    [|reflexivity].
  unfold bind. rewrite IH. reflexivity.
Qed.

Lemma tips_json_typed (l : list string) (p : page) :
  map_M (fun tip => lift (ToString tip)) (map JStr l) p = (Normal l, p).
Proof.
  induction l as [|tip l IH]; [reflexivity|].
  cbn [map map_M]. unfold bind at 1. cbn. unfold bind. now rewrite IH.
Qed.

Lemma bind_ext {A C : Type} (c c' : M A) (k k' : A -> M C) (p : page) :
  c p = c' p -> (forall a q, k a q = k' a q) -> bind c k p = bind c' k' p.
Proof.
  intros Hc Hk. unfold bind. rewrite Hc.
  destruct (c' p) as [[a|e] q]; [apply Hk | reflexivity].
Qed.

Lemma displayEducationalInsights_json_typed (i : insights) (p : page) :
  displayEducationalInsights_json (insights_to_json i) p
  = displayEducationalInsights i p.
Proof.
  unfold displayEducationalInsights_json, displayEducationalInsights.
  rewrite !bind_on_view.
  set (q := set_view (set_educationalContent [] (view p)) p).
  assert (Hd : prop "insights.manipulation_techniques_detected"
                 (Some (insights_to_json i)) "manipulation_techniques_detected"
               = Normal (strings_to_json <$> manipulation_techniques_detected i)).
  { unfold insights_to_json.
    destruct (manipulation_techniques_detected i), (technique_explanations i),
      (verification_tips i); reflexivity. }
  assert (Hv : prop "insights.verification_tips"
                 (Some (insights_to_json i)) "verification_tips"
               = Normal (strings_to_json <$> verification_tips i)).
  { unfold insights_to_json.
    destruct (manipulation_techniques_detected i), (technique_explanations i),
      (verification_tips i); reflexivity. }
  rewrite Hd, Hv. clear Hd Hv.
  erewrite bind_value; [|reflexivity].
  assert (Tail : forall q' : page,
            (let* tips := lift (Normal (strings_to_json <$> verification_tips i)) in
             (if ToBoolean tips then
                let* items := lift (as_array "verification_tips.map" tips) in
                let* texts := map_M (fun tip => lift (ToString tip)) items in
                on_view (fun v =>
                  set_educationalContent
                    (educationalContent v ++ [VerificationTips texts]) v)
              else ret tt) ;;;
             on_view (set_educationalSection_display "block")) q'
            = (match verification_tips i with
               | Some tips =>
                   on_view (fun v =>
                     set_educationalContent
                       (educationalContent v ++ [VerificationTips tips]) v)
               | None => ret tt
               end ;;;
               on_view (set_educationalSection_display "block")) q').
  { intros q'. erewrite bind_value; [|reflexivity].
    destruct (verification_tips i) as [tips|]; [|reflexivity].
    cbn [fmap option_fmap option_map strings_to_json ToBoolean as_array].
    rewrite bind_bind. erewrite bind_value; [|reflexivity].
    rewrite bind_bind.
    erewrite bind_value; [|apply tips_json_typed]. reflexivity. }
  destruct (manipulation_techniques_detected i) as [[|tech techs]|].
  - cbn [fmap option_fmap option_map strings_to_json ToBoolean has_elements map].
    erewrite bind_value; [|reflexivity].
    erewrite bind_value; [|reflexivity].
    erewrite (bind_value (ret tt)); [|reflexivity]. apply Tail.
  - cbn [fmap option_fmap option_map strings_to_json ToBoolean].
    assert (Hp : has_elements "manipulation_techniques_detected.length"
                   (Some (strings_to_json (tech :: techs))) = Normal true).
    { unfold has_elements, strings_to_json. cbn [length_of]. rewrite length_map.
      now rewrite positive_length. }
    rewrite Hp. erewrite bind_value; [|reflexivity].
    rewrite !bind_bind. unfold strings_to_json at 1. cbn [as_array].
    erewrite bind_value; [|reflexivity].
    rewrite !bind_bind.
    apply bind_ext; [apply (techniques_json_typed i (tech :: techs)) |].
    intros blocks q1. rewrite !bind_on_view. apply Tail.
  - cbn [fmap option_fmap option_map ToBoolean].
    erewrite bind_value; [|reflexivity].
    erewrite bind_value; [|reflexivity].
    erewrite (bind_value (ret tt)); [|reflexivity]. apply Tail.
Qed.

Lemma updateTrustScore_json_typed (score : option number) (v : string) (p : page) :
  updateTrustScore_json (JNum <$> score) (Some (JStr v)) p
  = updateTrustScore score v p.
Proof.
  unfold updateTrustScore_json, updateTrustScore.
  destruct score as [n|]; cbn [fmap option_fmap option_map ToNumber_value ToNumber];
    (erewrite bind_value; [|reflexivity]); reflexivity.
Qed.

(** On a payload of the documented types the raw rendering is the
    rendering given before. *)
Lemma displayResults_json_typed (r : verdict) (p : page) :
  displayResults_json (verdict_to_json r) p = displayResults r p.
Proof.
  unfold displayResults_json, displayResults. rewrite !bind_on_view.
  set (q := set_view (set_resultsSection_display "block" (view p)) p).
  assert (H1 : prop "result.overall_trust_score" (Some (verdict_to_json r))
                 "overall_trust_score" = Normal (JNum <$> overall_trust_score r)).
  { unfold verdict_to_json.
    destruct (overall_trust_score r), (claims r), (sources r),
      (educational_insights r); reflexivity. }
  assert (H2 : prop "result.overall_verdict" (Some (verdict_to_json r))
                 "overall_verdict" = Normal (Some (JStr (overall_verdict r)))).
  { unfold verdict_to_json.
    destruct (overall_trust_score r), (claims r), (sources r),
      (educational_insights r); reflexivity. }
  assert (H3 : prop "result.claims" (Some (verdict_to_json r)) "claims"
               = Normal ((fun cs => JArr (map claim_to_json cs)) <$> claims r)).
  { unfold verdict_to_json.
    destruct (overall_trust_score r), (claims r), (sources r),
      (educational_insights r); reflexivity. }
  assert (H4 : prop "result.explanation" (Some (verdict_to_json r)) "explanation"
               = Normal (Some (JStr (explanation r)))).
  { unfold verdict_to_json.
    destruct (overall_trust_score r), (claims r), (sources r),
      (educational_insights r); reflexivity. }
  assert (H5 : prop "result.sources" (Some (verdict_to_json r)) "sources"
               = Normal (strings_to_json <$> sources r)).
  { unfold verdict_to_json.
    destruct (overall_trust_score r), (claims r), (sources r),
      (educational_insights r); reflexivity. }
  assert (H6 : prop "result.educational_insights" (Some (verdict_to_json r))
                 "educational_insights"
               = Normal (insights_to_json <$> educational_insights r)).
  { unfold verdict_to_json.
    destruct (overall_trust_score r), (claims r), (sources r),
      (educational_insights r); reflexivity. }
  rewrite H1, H2, H3, H4, H5, H6. clear H1 H2 H3 H4 H5 H6.
  erewrite bind_value; [|reflexivity].
  erewrite bind_value; [|reflexivity].
  apply bind_ext; [apply updateTrustScore_json_typed|]. intros [] q1.
  erewrite bind_value; [|reflexivity].
  apply bind_ext; [apply displayClaims_json_typed|]. intros [] q2.
  erewrite bind_value; [|reflexivity].
  erewrite bind_value; [|reflexivity].
  rewrite !bind_on_view.
  erewrite bind_value; [|reflexivity].
  apply bind_ext; [apply displaySources_json_typed|]. intros [] q3.
  erewrite bind_value; [|reflexivity].
  apply bind_ext; [|reflexivity].
  destruct (educational_insights r) as [i|]; [|reflexivity].
  cbn [fmap option_fmap option_map]. unfold insights_to_json at 1.
  cbn [ToBoolean]. apply displayEducationalInsights_json_typed.
Qed.

(** The arrival of a payload of the documented types is the step given
    before. *)
Lemma receive_typed (p : page) (id : nat) (r : verdict) :
  receive id (verdict_to_json r) p = step p (JsonSettles id (JsonResolves r)).
Proof.
  unfold receive. cbn [step].
  destruct (tasks p !! id) as [[m|m|f|]|]; try reflexivity.
  unfold resume, after_json_raw, after_json, in_try.
  destruct m; unfold bind.
  - now rewrite displayResults_json_typed.
  - destruct (switchTab "text" p) as [[[]|e] q]; [|reflexivity].
    now rewrite displayResults_json_typed.
Qed.

(** ** What the raw rendering writes and when it throws *)

#[local] Hint Resolve keeps_lift : keeps_db.

Lemma keeps_frame_displayResults_json (result : json) :
  keeps frame (displayResults_json result).
Proof.
  unfold displayResults_json, updateTrustScore_json, displayClaims_json,
    displaySources_json, displayEducationalInsights_json, forEach.
  keeps_tac. intros p. repeat split.
Qed.

Lemma prop_read (what : string) (result : json) (k : string) :
  result <> JNull ->
  prop what (Some result) k = Normal (optional_prop (Some result) k).
Proof. intros H. destruct result; try reflexivity. contradiction. Qed.

Lemma updateTrustScore_json_eq (score verdict : value) (n : number) (text : string)
    (p : page) :
  ToNumber_value score = Normal n ->
  textContent_of verdict = Normal text ->
  updateTrustScore_json score verdict p
  = (Normal tt,
     set_view
       (set_verdict_className ("verdict " ++ bucket_name (bucket_of n))
          (set_scoreCircle_className ("score-circle " ++ bucket_name (bucket_of n))
             (set_verdict_textContent text
                (set_trustScore_textContent (Some (Math_round n)) (view p)))))
       p).
Proof.
  intros Hn Ht. unfold updateTrustScore_json, bucket_of. rewrite Hn, Ht.
  erewrite bind_value; [|reflexivity]. rewrite bind_on_view.
  erewrite bind_value; [|reflexivity].
  destruct (num_ge n (of_Z 80)); [|destruct (num_ge n (of_Z 60))];
    destruct p as [[] ?]; reflexivity.
Qed.

Lemma displayResults_json_tail_headline (result : json) :
  keeps headline
    (let* cs := lift (prop "result.claims" (Some result) "claims") in
     displayClaims_json cs ;;;
     let* explanation :=
       lift (prop "result.explanation" (Some result) "explanation") in
     let* text := lift (textContent_of explanation) in
     on_view (set_explanationText_textContent text) ;;;
     let* srcs := lift (prop "result.sources" (Some result) "sources") in
     displaySources_json srcs ;;;
     let* insights :=
       lift (prop "result.educational_insights" (Some result)
               "educational_insights") in
     match insights with
     | Some i => if ToBoolean insights then displayEducationalInsights_json i else ret tt
     | None => ret tt
     end ;;;
     modify (fun p => set_scrolls (S (scrolls p)) p)).
Proof.
  unfold displayClaims_json, displaySources_json,
    displayEducationalInsights_json, forEach.
  keeps_tac; try headline_write. intros p. repeat split.
Qed.

(** A body other than [null] whose score converts to a number and whose
    verdict converts to a text has both on the page after the rendering,
    however the rendering ends. *)
Lemma displayResults_json_headline (result : json) (n : number) (text : string)
    (p : page) :
  result <> JNull ->
  ToNumber_value (optional_prop (Some result) "overall_trust_score") = Normal n ->
  textContent_of (optional_prop (Some result) "overall_verdict") = Normal text ->
  shown_score (exec (displayResults_json result) p) = Some (Math_round n)
  /\ verdict_textContent (view (exec (displayResults_json result) p)) = text.
Proof.
  intros Hnull Hn Ht. unfold exec, displayResults_json.
  rewrite bind_on_view, !(prop_read _ result _ Hnull).
  erewrite bind_value; [|reflexivity].
  erewrite bind_value; [|reflexivity].
  erewrite bind_value; [|apply (updateTrustScore_json_eq _ _ n text); assumption].
  match goal with |- context [snd (?t ?q)] =>
    pose proof (displayResults_json_tail_headline result q) as K end.
  rewrite !(prop_read _ result _ Hnull) in K.
  destruct K as (_ & K2 & K3 & _). unfold shown_score. rewrite K2, K3.
  destruct p as [[] ?]. split; reflexivity.
Qed.

(** Every raw rendering makes the results section visible first. *)
Lemma displayResults_json_visible (result : json) (p : page) :
  resultsSection_display (view (exec (displayResults_json result) p)) = "block".
Proof.
  unfold exec, displayResults_json. rewrite bind_on_view.
  assert (K : forall c : M unit,
            keeps (kept resultsSection_display) c ->
            forall q, resultsSection_display (view (snd (c q)))
                      = resultsSection_display (view q)).
  { intros c Hc q. apply Hc. }
  rewrite K; [destruct p as [[] ?]; reflexivity|].
  unfold updateTrustScore_json, displayClaims_json, displaySources_json,
    displayEducationalInsights_json, forEach.
  keeps_tac; try kept_write. intros q. reflexivity.
Qed.

Lemma and_then_inv {A C : Type} (c : completion A) (k : A -> completion C) (x : C) :
  and_then c k = Normal x -> exists a, c = Normal a /\ k a = Normal x.
Proof. destruct c as [a|e]; cbn; [eauto | discriminate]. Qed.

Lemma returns_bind_inv {A C : Type} (c : M A) (k : A -> M C) (p : page) :
  returns (bind c k) p = true ->
  exists a p', c p = (Normal a, p') /\ returns (k a) p' = true.
Proof.
  unfold returns, bind. destruct (c p) as [[a|e] p']; [eauto | discriminate].
Qed.

Lemma returns_lift_inv {A C : Type} (c : completion A) (k : A -> M C) (p : page) :
  returns (bind (lift c) k) p = true ->
  exists a, c = Normal a /\ returns (k a) p = true.
Proof.
  intros H. apply returns_bind_inv in H as (a & p' & E & H).
  unfold lift in E. injection E as -> <-. eauto.
Qed.

Lemma claimElement_json_shape (c : json) (i : nat) (e : claim_element) :
  claimElement_json c i = Normal e -> claim_shape c = true.
Proof.
  unfold claimElement_json, claim_shape. intros H.
  destruct c as [| | | | |fields]; try discriminate. cbn [prop and_then] in H.
  destruct (get_own "trust_level" fields) as [[| | |level| |]|]; try discriminate.
  cbn [as_string and_then] in H.
  apply and_then_inv in H as (confidence & _ & H).
  apply and_then_inv in H as (text & _ & H).
  apply and_then_inv in H as (explanation & _ & H).
  apply and_then_inv in H as (techniques & H & _).
  destruct (get_own "manipulation_techniques" fields) as [[| | | | |]|];
    try reflexivity; discriminate.
Qed.

Lemma displayClaims_json_shape (cs : value) (p : page) :
  returns (displayClaims_json cs) p = true ->
  exists items, cs = Some (JArr items) /\ forallb claim_shape items = true.
Proof.
  unfold displayClaims_json, forEach. intros H.
  apply returns_bind_inv in H as ([] & q & _ & H).
  apply returns_lift_inv in H as (items & E & H).
  destruct cs as [[| | | |l|]|]; try discriminate. injection E as ->.
  exists items. split; [reflexivity|].
  revert H. generalize 0%nat. generalize q.
  induction items as [|c items IH]; intros q' i H; [reflexivity|].
  cbn [forEach_from] in H.
  apply returns_bind_inv in H as ([] & q2 & E & H).
  assert (R : returns
                (let* claimElement := lift (claimElement_json c i) in
                 on_view (fun v => set_claimsList (claimsList v ++ [claimElement]) v))
                q' = true).
  { unfold returns. now rewrite E. }
  apply returns_lift_inv in R as (e & Ec & _).
  cbn [forallb]. rewrite (claimElement_json_shape c i e Ec). cbn.
  exact (IH q2 (S i) H).
Qed.

Lemma displaySources_json_shape (srcs : value) (p : page) :
  returns (displaySources_json srcs) p = true ->
  exists items, srcs = Some (JArr items).
Proof.
  unfold displaySources_json. intros H.
  apply returns_bind_inv in H as ([] & q & _ & H).
  apply returns_lift_inv in H as (items & E & _).
  destruct srcs as [[| | | |l|]|]; try discriminate. eauto.
Qed.

Lemma displayEducationalInsights_json_shape (i : json) (p : page) :
  returns (displayEducationalInsights_json i) p = true ->
  insights_shape i = true.
Proof.
  unfold displayEducationalInsights_json, insights_shape. intros H.
  destruct i as [| | | | |fields]; try reflexivity.
  apply returns_bind_inv in H as ([] & q & _ & H).
  apply returns_lift_inv in H as (detected & _ & H).
  apply returns_lift_inv in H as (some & _ & H).
  apply returns_bind_inv in H as ([] & q2 & _ & H).
  apply returns_lift_inv in H as (tips & E & H).
  cbn [prop] in E. injection E as <-.
  destruct (get_own "verification_tips" fields) as [[|b|n|s0|l|f]|]; try reflexivity.
  - destruct b; [|reflexivity].
    apply returns_bind_inv in H as ([] & q3 & E & _).
    cbn [ToBoolean] in E. apply (f_equal fst) in E. discriminate.
  - cbn [ToBoolean] in *. destruct (truthy n); [|reflexivity].
    apply returns_bind_inv in H as ([] & q3 & E & _).
    apply (f_equal fst) in E. discriminate.
  - cbn [ToBoolean] in *. destruct (negb (String.eqb s0 "")); [|reflexivity].
    apply returns_bind_inv in H as ([] & q3 & E & _).
    apply (f_equal fst) in E. discriminate.
  - apply returns_bind_inv in H as ([] & q3 & E & _).
    cbn [ToBoolean] in E. apply (f_equal fst) in E. discriminate.
Qed.

(** The rendering of a raw payload that lacks the shape throws. *)
Lemma renders_shape (result : json) (p : page) :
  renders result p = true -> shape result = true.
Proof.
  unfold renders, displayResults_json, shape. intros H.
  apply returns_bind_inv in H as ([] & q & _ & H).
  apply returns_lift_inv in H as (score & E & H).
  destruct result as [| | | | |fields]; try discriminate E;
    cbn [prop] in E; injection E as <-.
  1-4: apply returns_lift_inv in H as (verdict & _ & H);
       apply returns_bind_inv in H as ([] & q1 & _ & H);
       apply returns_lift_inv in H as (cs & E & H);
       injection E as <-;
       apply returns_bind_inv in H as ([] & q2 & E & _);
       apply (f_equal fst) in E; discriminate.
  apply returns_lift_inv in H as (verdict & _ & H).
  apply returns_bind_inv in H as ([] & q1 & _ & H).
  apply returns_lift_inv in H as (cs & E & H). cbn [prop] in E. injection E as <-.
  apply returns_bind_inv in H as ([] & q2 & E & H).
  assert (Rc : returns (displayClaims_json (get_own "claims" fields)) q1 = true).
  { unfold returns. now rewrite E. }
  apply displayClaims_json_shape in Rc as (items & -> & ->). clear E.
  apply returns_lift_inv in H as (explanation & _ & H).
  apply returns_lift_inv in H as (text & _ & H).
  apply returns_bind_inv in H as ([] & q3 & _ & H).
  apply returns_lift_inv in H as (srcs & E & H). cbn [prop] in E. injection E as <-.
  apply returns_bind_inv in H as ([] & q4 & E & H).
  assert (Rs : returns (displaySources_json (get_own "sources" fields)) q3 = true).
  { unfold returns. now rewrite E. }
  apply displaySources_json_shape in Rs as (l & ->). clear E.
  apply returns_lift_inv in H as (insights & E & H). cbn [prop] in E.
  injection E as <-.
  apply returns_bind_inv in H as ([] & q5 & E & _).
  destruct (get_own "educational_insights" fields) as [i|]; [|reflexivity].
  cbn [andb]. destruct (ToBoolean (Some i)); [|reflexivity].
  apply (displayEducationalInsights_json_shape i q4).
  unfold returns. now rewrite E.
Qed.

(** What the arrival of a raw body does to the page. *)
Lemma receive_step (p : page) (id : nat) (m : modality) (result : json) :
  tasks p !! id = Some (AwaitJson m) ->
  exists p0 : page,
    view p0 = view p
    /\ view (receive id result p) = view (exec (displayResults_json result) p0)
    /\ loadingModal_display (receive id result p) = "none"
    /\ tasks (receive id result p) = <[id := Finished]> (tasks p)
    /\ network (receive id result p) = network p
    /\ body_alerts (receive id result p)
       = if renders result p then body_alerts p
         else (body_alerts p ++ [failure_alert m])%list.
Proof.
  intros Ht.
  exists match m with TextMode => p | ImageMode => exec (switchTab "text") p end.
  split; [now destruct m|].
  unfold receive. rewrite Ht. unfold resume, after_json_raw.
  set (p0 := match m with TextMode => p | ImageMode => exec (switchTab "text") p end).
  assert (Hf : frame p p0).
  { subst p0. destruct m; [apply frame_refl | apply keeps_frame_switchTab]. }
  assert (Seg : (match m with
                 | TextMode => displayResults_json result
                 | ImageMode => switchTab "text" ;;; displayResults_json result
                 end ;;; ret Completed) p
                = (match fst (displayResults_json result p0) with
                   | Normal _ => Normal Completed
                   | Throw e => Throw e
                   end, snd (displayResults_json result p0))).
  { subst p0. destruct m; unfold bind, exec; cbn -[displayResults_json].
    - destruct (displayResults_json result p) as [[[]|e] q]; reflexivity.
    - match goal with |- context [displayResults_json result ?q] =>
        destruct (displayResults_json result q) as [[[]|e] q1] end; reflexivity. }
  pose proof (keeps_frame_displayResults_json result p0) as Hk.
  assert (F : frame p (snd (displayResults_json result p0))).
  { eapply frame_trans; [exact Hf | exact Hk]. }
  destruct F as (_ & _ & Fa & Fn & _ & Ft).
  assert (Hr : renders result p = returns (displayResults_json result) p0).
  { unfold renders, returns. now rewrite (blind_displayResults_json result p p0). }
  rewrite Hr. unfold returns, exec.
  destruct (displayResults_json result p0) as [[[]|e] p1] eqn:Ed; cbn [fst snd] in *.
  - erewrite in_try_completed; [|exact Seg]. cbn.
    rewrite Fa, Fn, Ft. repeat split.
  - erewrite in_try_throw; [|exact Seg]. cbn.
    rewrite Fa, Fn, Ft. repeat split.
Qed.
End Raw.

(** ** C7: a raw payload with a structural error *)

(** C7, amended.  Nothing checks a payload before it is rendered: whatever
    value the body parses to is handed to [displayResults], which first
    makes the results section visible.  The failure alert is shown exactly
    when a step of the rendering throws, and a step throws on every payload
    that lacks the shape: a body that is not an object, [claims] or
    [sources] missing or not an array, a claim that is not an object with
    a string [trust_level] and a [manipulation_techniques] that is neither
    missing nor [null], truthy insights whose truthy [verification_tips] is
    not an array.  The exception is caught and the loading modal hidden,
    but what was written before the throw stays: for a [null] body only
    the visibility of the results section, and for any other body whose
    score and verdict convert to a number and a text, the rounded score
    and the verdict of that payload.  On a payload of the documented
    types the rendering throws exactly when a field it dereferences is
    missing, so that an absent score, shown as NaN, is no failure. *)
Theorem raw_payload_rendered_unchecked {B : Builtins}
    (p : page) (id : nat) (m : modality) (result : json) :
  tasks p !! id = Some (AwaitJson m) ->
  resultsSection_display (view (receive id result p)) = "block"
  /\ loadingModal_display (receive id result p) = "none"
  /\ tasks (receive id result p) !! id = Some Finished
  /\ body_alerts (receive id result p)
     = (if renders result p then body_alerts p
        else (body_alerts p ++ [failure_alert m])%list)
  /\ (shape result = false -> renders result p = false)
  /\ (result = JNull ->
      view (receive id result p)
      = set_resultsSection_display "block" (view p))
  /\ (forall (n : number) (text : string),
        result <> JNull ->
        ToNumber_value (optional_prop (Some result) "overall_trust_score")
        = Normal n ->
        textContent_of (optional_prop (Some result) "overall_verdict")
        = Normal text ->
        shown_score (receive id result p) = Some (Math_round n)
        /\ verdict_textContent (view (receive id result p)) = text)
  /\ (forall r : verdict,
        result = verdict_to_json r ->
        renders result p = renderable r
        /\ receive id result p = step p (JsonSettles id (JsonResolves r))).
Proof.
  intros Ht.
  destruct (receive_step p id m result Ht) as (p0 & Hv0 & Hv & Hl & Hk & _ & Ha).
  split; [rewrite Hv; apply displayResults_json_visible|].
  split; [exact Hl|].
  split; [rewrite Hk; apply list_lookup_insert_eq; eapply lookup_lt_Some, Ht|].
  split; [exact Ha|].
  split.
  { intros Hs. destruct (renders result p) eqn:E; [|reflexivity].
    apply renders_shape in E. congruence. }
  split.
  { intros ->. rewrite Hv, <- Hv0. destruct p0 as [[] ?]. reflexivity. }
  split.
  { intros n text Hnull Hn Htext.
    destruct (displayResults_json_headline result n text p0 Hnull Hn Htext)
      as [H1 H2].
    unfold shown_score in *. rewrite Hv. split; assumption. }
  intros r ->. split.
  - unfold renders, returns. rewrite displayResults_json_typed.
    apply displayResults_returns.
  - apply receive_typed.
Qed.

Lemma raw_payload_rendered_unchecked_witness :
  body_alerts
    (receive (B := plain_builtins) 0 claims_as_text
       (run initial_page
          [EditContent "some text"; ClickAnalyze;
           FetchSettles 0 (FetchResolves true 200)]))
  = (body_alerts
       (run initial_page
          [EditContent "some text"; ClickAnalyze;
           FetchSettles 0 (FetchResolves true 200)])
     ++ [failure_alert TextMode])%list
  /\ shown_score
       (receive (B := plain_builtins) 0 claims_as_text
          (run initial_page
             [EditContent "some text"; ClickAnalyze;
              FetchSettles 0 (FetchResolves true 200)]))
     = Some (Math_round (of_Z 42))
  /\ verdict_textContent
       (view (receive (B := plain_builtins) 0 claims_as_text
                (run initial_page
                   [EditContent "some text"; ClickAnalyze;
                    FetchSettles 0 (FetchResolves true 200)])))
     = "Misleading".
Proof.
  destruct (raw_payload_rendered_unchecked (B := plain_builtins)
              (run initial_page
                 [EditContent "some text"; ClickAnalyze;
                  FetchSettles 0 (FetchResolves true 200)])
              0 TextMode claims_as_text eq_refl)
    as (_ & _ & _ & Ha & Hs & _ & Hh & _).
  rewrite (Hs eq_refl) in Ha. split; [exact Ha|].
  apply (Hh (of_Z 42) "Misleading"); [discriminate | reflexivity | reflexivity].
Defined.
